(** * Criminal-Network-Detection: the pattern-detection engine

    A shallow embedding of [src/criminal_detector.py] (class
    [CriminalNetworkDetector]) and of the helper
    [SocialNetworkAnalyzer.get_top_nodes_by_metric] of
    [src/network_analysis.py], with the properties of the specification
    that concern them; then of [build_graph] and the queries of
    [SocialNetworkAnalyzer] that compute on the graph itself, of the
    [GeospatialAnalyzer] of [src/geospatial_analysis.py] and of the
    conclusion of the report in [main.py], with further properties of
    the code.

    Modelling conventions.
    - Node identifiers are Python ints: [Z].
    - Python floats (betweenness, clustering, every score) are modelled
      as exact rationals [Q]; rounding of binary floating point is
      outside the model.  Floats are compared with [Qltb]/[Qleb], and
      equality of scores is stated up to [Qeq] ([==]).  The exceptions
      are the two computations of the last item.
    - A test [if x:] on a node id is false for [None] and for the id 0
      ([truthy]).
    - [list.sort(key=..., reverse=True)] and [sorted(..., reverse=True)]
      are stable: [sort_desc] is the stable descending insertion sort,
      which returns the same list as any stable sort.
    - A Python dict that is only looked up is a [gmap]; a dict whose
      iteration order is observed (a metric table handed to [sorted])
      is an association list in insertion order.
    - [list(some_set)] enumerates a Python set in an order the language
      does not fix: the detector is parameterised by [set_order], the
      enumeration used for it.
    - Indexing a list out of range raises [IndexError], reading the
      [name] of a node that has none raises [KeyError]: fallible
      functions return in the [outcome] monad.  The detector asks the
      graph only about its nodes and their neighbours; the [KeyError] of
      networkx for a node it does not know is not modelled (such a node
      has no neighbours, degree 0 and no city).
    - Printing is not modelled.
    - The one place where a float is turned into an integer, the cutoff
      count [int(total_nodes * 0.02)], is also written in IEEE binary64
      arithmetic ([top_2_percent_count_float]) and compared with the
      rational model.  The geographic pattern match
      [(score / total_checks) * 100], a quotient of two counters that is
      rounded twice, is computed in binary64 only ([pattern_match]). *)

From stdpp Require Import gmap strings list sorting.
From Stdlib Require Import QArith Qround Lqa.
From Stdlib Require Import Floats Uint63.

Local Open Scope Z_scope.

(** ** Python values and control *)

Inductive exception := IndexError | KeyError.

Inductive outcome (A : Type) :=
  | Returns (a : A)
  | Raises (e : exception).
Arguments Returns {A} a.
Arguments Raises {A} e.

Global Instance outcome_ret : MRet outcome := fun A a => Returns a.

Global Instance outcome_bind : MBind outcome := fun A B k m =>
  match m with
  | Returns a => k a
  | Raises e => Raises e
  end.

(** A [for] loop whose body may raise: the accumulator is threaded
    through the elements in order. *)
Fixpoint for_each {A S} (l : list A) (body : S -> A -> outcome S) (s : S) : outcome S :=
  match l with
  | [] => Returns s
  | x :: xs => s' ← body s x; for_each xs body s'
  end.

Definition Qltb (x y : Q) : bool :=
  match (x ?= y)%Q with Lt => true | _ => false end.

Definition Qleb (x y : Q) : bool := Qle_bool x y.

(** [int(x)] on a float: truncation towards zero. *)
Definition py_int (x : Q) : Z := Z.quot (Qnum x) (Zpos (Qden x)).

Definition len {A} (l : list A) : Z := Z.of_nat (length l).

(** [l[i]] for a Python list: negative indices count from the end,
    anything out of range raises. *)
Definition py_index {A} (l : list A) (i : Z) : outcome A :=
  let j := if i <? 0 then i + len l else i in
  if (j <? 0) || (len l <=? j) then Raises IndexError
  else match l !! Z.to_nat j with
       | Some x => Returns x
       | None => Raises IndexError
       end.

(** [l[:k]] *)
Definition slice_to {A} (k : Z) (l : list A) : list A :=
  if k <? 0 then take (Z.to_nat (len l + k)) l else take (Z.to_nat k) l.

Definition memZ (x : Z) (l : list Z) : bool := bool_decide (x ∈ l).
Definition mem_str (x : string) (l : list string) : bool := bool_decide (x ∈ l).

(** Stable sort, descending by [key]. *)
Fixpoint insert_desc {A} (key : A -> Q) (x : A) (l : list A) : list A :=
  match l with
  | [] => [x]
  | y :: ys =>
      if Qltb (key x) (key y) then y :: insert_desc key x ys
      else x :: y :: ys
  end.

Fixpoint sort_desc {A} (key : A -> Q) (l : list A) : list A :=
  match l with
  | [] => []
  | x :: xs => insert_desc key x (sort_desc key xs)
  end.

(** [itertools.combinations(l, r)]: the [r]-element subsequences of [l],
    in lexicographic order of positions. *)
Fixpoint combinations {A} (r : nat) (l : list A) : list (list A) :=
  match l with
  | [] => match r with O => [[]] | S _ => [] end
  | x :: xs =>
      match r with
      | O => [[]]
      | S r' => map (cons x) (combinations r' xs) ++ combinations r xs
      end
  end.

(** [d.get(k, dflt)] on an insertion-ordered dict. *)
Fixpoint dict_get {V} (d : list (Z * V)) (k : Z) (dflt : V) : V :=
  match d with
  | [] => dflt
  | (k', v) :: d' => if k' =? k then v else dict_get d' k dflt
  end.

(** Truth value of a node id or [None] in an [if]: [None] and [0] are
    false. *)
Definition truthy (o : option Z) : bool :=
  match o with
  | Some n => negb (n =? 0)
  | None => false
  end.

(** ** The analyzer: graph and metric tables *)

(** The [networkx.Graph] as the detector reads it: the nodes in
    insertion order, the adjacency (neighbours in insertion order) and
    the optional [name] and [city] attributes. *)
Record Graph := {
  nodes : list Z;
  adj : gmap Z (list Z);
  name_attr : gmap Z string;
  city_attr : gmap Z string
}.

Record SocialNetworkAnalyzer := {
  graph : Graph;
  metrics : gmap string (list (Z * Q))
}.

(** The YAML configuration, the entries the detector reads. *)
Record Config := {
  employee_expected_contacts : Z;
  employee_tolerance : Z;
  handlers_expected_contacts_min : Z;
  handlers_expected_contacts_max : Z;
  fearless_leader_min_contacts : Z;
  large_cities : list string;
  small_cities : list string
}.

(** [get_neighbors] *)
Definition get_neighbors (a : SocialNetworkAnalyzer) (n : Z) : list Z :=
  default [] (adj (graph a) !! n).

(** [graph.degree(n)]: networkx counts a self-loop twice. *)
Definition degree (a : SocialNetworkAnalyzer) (n : Z) : Z :=
  let nbrs := get_neighbors a n in
  len nbrs + (if memZ n nbrs then 1 else 0).

(** [graph.nodes[n].get('city', '')] *)
Definition city (a : SocialNetworkAnalyzer) (n : Z) : string :=
  default EmptyString (city_attr (graph a) !! n).

(** [graph.nodes[n]['name']]: a node created by an edge alone has no
    name. *)
Definition node_name (a : SocialNetworkAnalyzer) (n : Z) : outcome string :=
  match name_attr (graph a) !! n with
  | Some s => Returns s
  | None => Raises KeyError
  end.

Definition number_of_nodes (a : SocialNetworkAnalyzer) : Z := len (nodes (graph a)).

(** [metrics[name]]; the detector runs after [calculate_all_metrics],
    which stores every table it reads (a missing table, a [KeyError] in
    Python, reads here as an empty one). *)
Definition metric_table (a : SocialNetworkAnalyzer) (name : string) : list (Z * Q) :=
  default [] (metrics a !! name).

Definition betweenness (a : SocialNetworkAnalyzer) (n : Z) : Q :=
  dict_get (metric_table a "betweenness_centrality") n 0%Q.

Definition clustering (a : SocialNetworkAnalyzer) (n : Z) : Q :=
  dict_get (metric_table a "clustering_coefficient") n 0%Q.

(** [get_top_nodes_by_metric] *)
Definition get_top_nodes_by_metric (a : SocialNetworkAnalyzer)
    (metric_name : string) (top_n : Z) : list (Z * Q) :=
  match metrics a !! metric_name with
  | None => []
  | Some metric_data =>
      let sorted_nodes := sort_desc snd metric_data in
      slice_to top_n sorted_nodes
  end.

(** ** The detector *)

(** The result dict of a Scenario A configuration ([scenario] is the
    constant ['A']). *)
Record ScenarioA := {
  a_employee : Z;
  a_handlers : list Z;
  a_boris : Z;
  a_fearless_leader : Z;
  a_score : Q
}.

(** The result dict of a Scenario B configuration ([scenario] is the
    constant ['B']). *)
Record ScenarioB := {
  b_employee : Z;
  b_handlers : list Z;
  b_boris : Z;
  b_morris : Z;
  b_horace : Z;
  b_fearless_leader : Z;
  b_score : Q
}.

(** The bundle [detect_all_patterns] returns. *)
Record Results := {
  scenario_a : gmap Z (list ScenarioA);
  scenario_b : gmap Z ScenarioB;
  employee_candidates : list (Z * Q)
}.

Section Detector.

Variable set_order : list Z -> list Z.
Variable a : SocialNetworkAnalyzer.
Variable cfg : Config.

Definition _calculate_employee_score (node_id degree expected_degree : Z) : Q :=
  let score := 0%Q in
  let degree_diff := Z.abs (degree - expected_degree) in
  let degree_score := (1 / (1 + inject_Z degree_diff))%Q in
  let score := (score + degree_score * 0.4)%Q in
  let score := if mem_str (city a node_id) (large_cities cfg)
               then (score + 0.3)%Q else score in
  let b := betweenness a node_id in
  let score := if Qltb 0.001 b && Qltb b 0.05 then (score + 0.2)%Q else score in
  let c := clustering a node_id in
  let score := if Qltb 0.2 c && Qltb c 0.6 then (score + 0.1)%Q else score in
  score.

Definition identify_employee_candidates : list (Z * Q) :=
  let expected_contacts := employee_expected_contacts cfg in
  let tolerance := employee_tolerance cfg in
  let min_contacts := expected_contacts - tolerance in
  let max_contacts := expected_contacts + tolerance in
  let candidates :=
    flat_map (fun node =>
      let d := degree a node in
      if (min_contacts <=? d) && (d <=? max_contacts)
      then [(node, _calculate_employee_score node d expected_contacts)]
      else []) (nodes (graph a)) in
  sort_desc snd candidates.

Definition _calculate_handler_score (node_id degree : Z) : Q :=
  let score := 0.5%Q in
  let score := if (25 <=? degree) && (degree <=? 45) then (score + 0.4)%Q else score in
  let score := if mem_str (city a node_id) (large_cities cfg)
               then (score + 0.2)%Q else score in
  let b := betweenness a node_id in
  let score := if Qltb 0.005 b then (score + 0.3)%Q
               else if Qltb 0.001 b then (score + 0.15)%Q else score in
  score.

Definition _find_handler_candidates (potential_handlers : list Z) : list (Z * Q) :=
  let min_contacts := handlers_expected_contacts_min cfg in
  let max_contacts := handlers_expected_contacts_max cfg in
  let candidates :=
    flat_map (fun node_id =>
      let d := degree a node_id in
      if (min_contacts - 5 <=? d) && (d <=? max_contacts + 5)
      then
        let score := _calculate_handler_score node_id d in
        let score := if (min_contacts <=? d) && (d <=? max_contacts)
                     then (score * 1.5)%Q else score in
        [(node_id, score)]
      else []) potential_handlers in
  sort_desc snd candidates.

Definition middleman_step (st : option Z * Q) (node_id : Z) : option Z * Q :=
  let '(best_candidate, best_score) := st in
  let d := degree a node_id in
  let b := betweenness a node_id in
  if (15 <=? d) && (d <=? 70) && Qltb 0.005 b then
    let score := (b * inject_Z d)%Q in
    let score := if mem_str (city a node_id) (small_cities cfg)
                 then (score * 1.3)%Q else score in
    if Qltb best_score score then (Some node_id, score)
    else (best_candidate, best_score)
  else (best_candidate, best_score).

Definition _find_best_middleman_for_handler (potential_middlemen : list Z) : option Z :=
  fst (fold_left middleman_step potential_middlemen (None, 0%Q)).

Definition top_2_percent_count (total_nodes : Z) : Z :=
  Z.max 1 (py_int (inject_Z total_nodes * 0.02)).

(** The two global thresholds [_find_fearless_leader] computes before
    its loop. *)
Definition leader_thresholds : outcome (Z * Q) :=
  let total_nodes := number_of_nodes a in
  let count := top_2_percent_count total_nodes in
  let all_degrees := sort_desc inject_Z (map (degree a) (nodes (graph a))) in
  degree_threshold_top2 ← py_index all_degrees (Z.min count (len all_degrees - 1));
  let all_betweenness :=
    sort_desc id (map snd (metric_table a "betweenness_centrality")) in
  betweenness_threshold_top2 ←
    py_index all_betweenness (Z.min count (len all_betweenness - 1));
  Returns (degree_threshold_top2, betweenness_threshold_top2).

Definition leader_score (node_id : Z) : Q :=
  let score := (inject_Z (degree a node_id) + betweenness a node_id * 1000)%Q in
  if mem_str (city a node_id) (large_cities cfg) then (score * 1.2)%Q else score.

Definition leader_step (exclude_ids : list Z) (degree_threshold_top2 : Z)
    (betweenness_threshold_top2 : Q) (st : option Z * Q) (node_id : Z) : option Z * Q :=
  let '(best_candidate, best_score) := st in
  if memZ node_id exclude_ids then (best_candidate, best_score)
  else
    let d := degree a node_id in
    let b := betweenness a node_id in
    let in_top_2_percent :=
      (degree_threshold_top2 <=? d) || Qleb betweenness_threshold_top2 b in
    if (fearless_leader_min_contacts cfg <=? d) && in_top_2_percent then
      let score := leader_score node_id in
      if Qltb best_score score then (Some node_id, score)
      else (best_candidate, best_score)
    else (best_candidate, best_score).

Definition _find_fearless_leader (potential_leaders exclude_ids : list Z) : outcome (option Z) :=
  '(degree_threshold_top2, betweenness_threshold_top2) ← leader_thresholds;
  Returns (fst (fold_left
    (leader_step exclude_ids degree_threshold_top2 betweenness_threshold_top2)
    potential_leaders (None, 0%Q))).

Definition _score_geographic_pattern (employee_id : Z) (handler_ids middlemen_ids : list Z)
    (leader_id : Z) : Q :=
  let score := 0%Q in
  let score := if mem_str (city a employee_id) (large_cities cfg)
               then (score + 5)%Q else score in
  let score := fold_left (fun score handler_id =>
                 if mem_str (city a handler_id) (large_cities cfg)
                 then (score + 3)%Q else score) handler_ids score in
  let score := if mem_str (city a leader_id) (large_cities cfg)
               then (score + 5)%Q else score in
  score.

Definition _score_scenario_a_configuration (employee_id : Z) (handler_ids : list Z)
    (boris_id leader_id : Z) : Q :=
  let score := 0%Q in
  let emp_degree := degree a employee_id in
  let score := if (35 <=? emp_degree) && (emp_degree <=? 45) then (score + 20)%Q else score in
  let score := fold_left (fun score handler_id =>
                 let handler_degree := degree a handler_id in
                 if (30 <=? handler_degree) && (handler_degree <=? 40)
                 then (score + 10)%Q else score) handler_ids score in
  let boris_degree := degree a boris_id in
  let boris_betweenness := betweenness a boris_id in
  let score := if (20 <=? boris_degree) && (boris_degree <=? 50) then (score + 15)%Q else score in
  let score := if Qltb 0.01 boris_betweenness then (score + 15)%Q else score in
  let leader_degree := degree a leader_id in
  let score := if 100 <=? leader_degree then (score + 20)%Q else score in
  (score + _score_geographic_pattern employee_id handler_ids [boris_id] leader_id)%Q.

Definition _score_scenario_b_configuration (employee_id : Z) (handler_ids middlemen_ids : list Z)
    (leader_id : Z) : Q :=
  let score := 0%Q in
  let emp_degree := degree a employee_id in
  let score := if (35 <=? emp_degree) && (emp_degree <=? 45) then (score + 20)%Q else score in
  let score := fold_left (fun score handler_id =>
                 let handler_degree := degree a handler_id in
                 if (30 <=? handler_degree) && (handler_degree <=? 40)
                 then (score + 10)%Q else score) handler_ids score in
  let score := fold_left (fun score middleman_id =>
                 let m_degree := degree a middleman_id in
                 let m_betweenness := betweenness a middleman_id in
                 let score := if (20 <=? m_degree) && (m_degree <=? 60)
                              then (score + 5)%Q else score in
                 if Qltb 0.01 m_betweenness then (score + 5)%Q else score)
               middlemen_ids score in
  let leader_degree := degree a leader_id in
  let score := if 100 <=? leader_degree then (score + 20)%Q else score in
  (score + _score_geographic_pattern employee_id handler_ids middlemen_ids leader_id)%Q.

(** *** Scenario A *)

(** The list [potential_boris] of one handler triple, sorted. *)
Definition potential_boris (employee_neighbors handler_ids : list Z) : list (Z * Q) :=
  sort_desc snd
    (flat_map (fun neighbor =>
       if negb (memZ neighbor handler_ids) then
         let b := betweenness a neighbor in
         if Qltb 0.001 b then [(neighbor, b)] else []
       else []) employee_neighbors).

(** Body of the inner loop over [potential_boris[:5]]. *)
Definition scenario_a_boris (employee_id : Z) (handler_ids : list Z)
    (all_valid_results : list ScenarioA) (cand : Z * Q) : outcome (list ScenarioA) :=
  let boris_candidate := cand.1 in
  if boris_candidate =? employee_id then Returns all_valid_results
  else
    let boris_degree := degree a boris_candidate in
    let boris_betweenness := betweenness a boris_candidate in
    if (80 <? boris_degree) || Qltb boris_betweenness 0.001 then Returns all_valid_results
    else
      let boris_neighbors := get_neighbors a boris_candidate in
      leader_candidate ←
        _find_fearless_leader boris_neighbors (handler_ids ++ [employee_id]);
      match leader_candidate with
      | Some leader =>
          if truthy leader_candidate then
            let config_score :=
              _score_scenario_a_configuration employee_id handler_ids
                boris_candidate leader in
            Returns (all_valid_results ++
              [{| a_employee := employee_id; a_handlers := handler_ids;
                  a_boris := boris_candidate; a_fearless_leader := leader;
                  a_score := config_score |}])
          else Returns all_valid_results
      | None => Returns all_valid_results
      end.

(** Body of the outer loop over the handler triples. *)
Definition scenario_a_combo (employee_id : Z) (employee_neighbors : list Z)
    (all_valid_results : list ScenarioA) (handler_combo : list (Z * Q))
    : outcome (list ScenarioA) :=
  let handler_ids := map fst handler_combo in
  let pb := potential_boris employee_neighbors handler_ids in
  match pb with
  | [] => Returns all_valid_results
  | _ => for_each (slice_to 5 pb) (scenario_a_boris employee_id handler_ids)
           all_valid_results
  end.

Definition detect_scenario_a (employee_id : Z) : outcome (list ScenarioA) :=
  let employee_neighbors := get_neighbors a employee_id in
  let handler_candidates := _find_handler_candidates employee_neighbors in
  if len handler_candidates <? 3 then Returns []
  else
    let handler_combos := combinations 3 (slice_to 10 handler_candidates) in
    all_valid_results ←
      for_each handler_combos (scenario_a_combo employee_id employee_neighbors) [];
    let all_valid_results := sort_desc a_score all_valid_results in
    let top_results := slice_to 3 all_valid_results in
    Returns top_results.

(** *** Scenario B *)

(** The list [middlemen] built for one handler triple. *)
Definition scenario_b_middlemen (employee_id : Z) (handler_ids : list Z) : list Z :=
  flat_map (fun handler_id =>
    let handler_neighbors := get_neighbors a handler_id in
    let potential_middlemen :=
      filter (fun n => n ≠ employee_id ∧ n ∉ handler_ids) handler_neighbors in
    let middleman := _find_best_middleman_for_handler potential_middlemen in
    match middleman with
    | Some m => if truthy middleman then [m] else []
    | None => []
    end) handler_ids.

(** [set(l)] keeps one copy of each element. *)
Definition py_set (l : list Z) : list Z := remove_dups l.

(** Body of the loop over the handler triples; the state is
    [(best_result, best_score)]. *)
Definition scenario_b_combo (employee_id : Z) (st : option ScenarioB * Q)
    (handler_combo : list (Z * Q)) : outcome (option ScenarioB * Q) :=
  let '(best_result, best_score) := st in
  let handler_ids := map fst handler_combo in
  let middlemen := scenario_b_middlemen employee_id handler_ids in
  if negb (len middlemen =? 3) || negb (len (py_set middlemen) =? 3) then Returns st
  else
    match middlemen with
    | [m0; m1; m2] =>
        let common_leader_neighbors := py_set (get_neighbors a m0) in
        let common_leader_neighbors :=
          fold_left (fun common m => filter (fun n => n ∈ py_set (get_neighbors a m)) common)
            [m1; m2] common_leader_neighbors in
        let exclude_set := py_set (handler_ids ++ [employee_id] ++ middlemen) in
        let common_leader_neighbors :=
          filter (fun n => n ∉ exclude_set) common_leader_neighbors in
        leader_candidate ←
          _find_fearless_leader (set_order common_leader_neighbors) exclude_set;
        match leader_candidate with
        | Some leader =>
            if truthy leader_candidate then
              let config_score :=
                _score_scenario_b_configuration employee_id handler_ids middlemen leader in
              if Qltb best_score config_score then
                Returns (Some {| b_employee := employee_id; b_handlers := handler_ids;
                                 b_boris := m0; b_morris := m1; b_horace := m2;
                                 b_fearless_leader := leader;
                                 b_score := config_score |}, config_score)
              else Returns st
            else Returns st
        | None => Returns st
        end
    | _ => Returns st
    end.

Definition detect_scenario_b (employee_id : Z) : outcome (option ScenarioB) :=
  let employee_neighbors := get_neighbors a employee_id in
  let handler_candidates := _find_handler_candidates employee_neighbors in
  if len handler_candidates <? 3 then Returns None
  else
    st ← for_each (combinations 3 (slice_to 10 handler_candidates))
           (scenario_b_combo employee_id) (None, 0%Q);
    Returns st.1.

(** *** Orchestration *)

(** Body of the loop over [employee_candidates[:5]]. *)
Definition detect_all_step (results : Results) (cand : Z * Q) : outcome Results :=
  let emp_id := cand.1 in
  _ ← node_name a emp_id;
  scenario_a_results ← detect_scenario_a emp_id;
  let results :=
    match scenario_a_results with
    | [] => results
    | _ => {| scenario_a := <[emp_id := scenario_a_results]> (scenario_a results);
              scenario_b := scenario_b results;
              employee_candidates := employee_candidates results |}
    end in
  scenario_b_result ← detect_scenario_b emp_id;
  let results :=
    match scenario_b_result with
    | Some r => {| scenario_a := scenario_a results;
                   scenario_b := <[emp_id := r]> (scenario_b results);
                   employee_candidates := employee_candidates results |}
    | None => results
    end in
  Returns results.

Definition detect_all_patterns : outcome Results :=
  let candidates := identify_employee_candidates in
  let results := {| scenario_a := ∅; scenario_b := ∅;
                    employee_candidates := candidates |} in
  for_each (slice_to 5 candidates) detect_all_step results.

End Detector.

(** * Derived definitions

    Parts of the functions above, named so that statements can refer to
    them. *)

(** The score [_find_handler_candidates] pairs with a node: the handler
    score, multiplied by 1.5 inside the configured window. *)
Definition handler_score_code (a : SocialNetworkAnalyzer) (cfg : Config) (n : Z) : Q :=
  let d := degree a n in
  let score := _calculate_handler_score a cfg n d in
  if (handlers_expected_contacts_min cfg <=? d) && (d <=? handlers_expected_contacts_max cfg)
  then (score * 1.5)%Q else score.

(** The list index at which a threshold is read: the cutoff count,
    clamped to the last index. *)
Definition threshold_index (count : Z) {A} (sorted : list A) : nat :=
  Z.to_nat (Z.min count (len sorted - 1)).

(** [middleman_step] and [leader_step] are instances of one loop body: a
    candidate that passes the test [ok] replaces the best one when its
    score is strictly greater. *)
Definition best_step (ok : Z -> bool) (score : Z -> Q)
    (st : option Z * Q) (n : Z) : option Z * Q :=
  if ok n then
    if Qltb st.2 (score n) then (Some n, score n) else st
  else st.

(** What the state [(best_candidate, best_score)] records about the
    elements [seen] so far. *)
Definition best_of (ok : Z -> bool) (score : Z -> Q) (seen : list Z)
    (st : option Z * Q) : Prop :=
  match st.1 with
  | None =>
      st.2 = 0%Q /\ forall n, n ∈ seen -> ok n = true -> (score n <= 0)%Q
  | Some c =>
      c ∈ seen /\ ok c = true /\ st.2 = score c /\ (0 < score c)%Q
      /\ forall n, n ∈ seen -> ok n = true -> (score n <= score c)%Q
  end.

(** The test of the leader loop. *)
Definition leader_ok (a : SocialNetworkAnalyzer) (cfg : Config) (exclude_ids : list Z)
    (dt : Z) (bt : Q) (n : Z) : bool :=
  negb (memZ n exclude_ids)
  && ((fearless_leader_min_contacts cfg <=? degree a n)
      && ((dt <=? degree a n) || Qleb bt (betweenness a n))).

(** The candidate the leader loop ends with. *)
Definition leader_pick (a : SocialNetworkAnalyzer) (cfg : Config)
    (dt : Z) (bt : Q) (potential_leaders exclude_ids : list Z) : option Z :=
  (fold_left (leader_step a cfg exclude_ids dt bt) potential_leaders (None, 0%Q)).1.

(** The test and the score of the middleman loop. *)
Definition middleman_ok (a : SocialNetworkAnalyzer) (n : Z) : bool :=
  (15 <=? degree a n) && (degree a n <=? 70) && Qltb 0.005 (betweenness a n).

Definition middleman_score (a : SocialNetworkAnalyzer) (cfg : Config) (n : Z) : Q :=
  let score := (betweenness a n * inject_Z (degree a n))%Q in
  if mem_str (city a n) (small_cities cfg) then (score * 1.3)%Q else score.

(** The middleman search of Scenario B for one handler of a triple. *)
Definition middleman_of (a : SocialNetworkAnalyzer) (cfg : Config)
    (employee_id : Z) (handler_ids : list Z) (handler_id : Z) : option Z :=
  _find_best_middleman_for_handler a cfg
    (filter (fun n => (n ≠ employee_id) /\ (n ∉ handler_ids)) (get_neighbors a handler_id)).

(** The exclusion set and the leader pool of Scenario B for a triple and
    its three middlemen. *)
Definition exclude_b (employee_id : Z) (handler_ids : list Z) (m0 m1 m2 : Z) : list Z :=
  py_set (handler_ids ++ [employee_id] ++ [m0; m1; m2]).

Definition leader_pool_b (a : SocialNetworkAnalyzer) (employee_id : Z)
    (handler_ids : list Z) (m0 m1 m2 : Z) : list Z :=
  filter (fun n => n ∉ exclude_b employee_id handler_ids m0 m1 m2)
    (fold_left (fun common m => filter (fun n => n ∈ py_set (get_neighbors a m)) common)
       [m1; m2] (py_set (get_neighbors a m0))).

(** A simple graph: no node is its own neighbour, and no neighbour is
    listed twice. *)
Definition simple_graph (a : SocialNetworkAnalyzer) : Prop :=
  map_Forall (fun n nbrs => (n ∉ nbrs) /\ NoDup nbrs) (adj (graph a)).

(** The configuration Scenario B records for a triple, its middlemen
    and a leader. *)
Definition configuration_b (a : SocialNetworkAnalyzer) (cfg : Config)
    (employee_id : Z) (handler_ids : list Z) (m0 m1 m2 leader : Z) : ScenarioB :=
  {| b_employee := employee_id; b_handlers := handler_ids;
     b_boris := m0; b_morris := m1; b_horace := m2;
     b_fearless_leader := leader;
     b_score := _score_scenario_b_configuration a cfg employee_id handler_ids
                  [m0; m1; m2] leader |}.

(** The six role nodes of a Scenario A configuration. *)
Definition roles_a (c : ScenarioA) : list Z :=
  a_employee c :: a_handlers c ++ [a_boris c; a_fearless_leader c].

(** The eight role nodes of a Scenario B configuration. *)
Definition roles_b (r : ScenarioB) : list Z :=
  b_employee r :: b_handlers r ++ [b_boris r; b_morris r; b_horace r; b_fearless_leader r].

(** The entries of the two result maps after the candidates [seen]. *)
Definition entries_of (set_order : list Z -> list Z) (a : SocialNetworkAnalyzer)
    (cfg : Config) (candidates seen : list (Z * Q)) (res : Results) : Prop :=
  employee_candidates res = candidates
  /\ (forall e l, scenario_a res !! e = Some l <->
        e ∈ seen.*1 /\ l <> [] /\ detect_scenario_a a cfg e = Returns l)
  /\ (forall e r, scenario_b res !! e = Some r <->
        e ∈ seen.*1 /\ detect_scenario_b set_order a cfg e = Returns (Some r)).

(** [desc key x y]: [x] may stand before [y] in a list sorted
    descending by [key]. *)
Definition desc {A} (key : A -> Q) (x y : A) : Prop := (key y <= key x)%Q.

(** An undirected graph lists each edge at both ends. *)
Definition undirected (a : SocialNetworkAnalyzer) : Prop :=
  forall n m, m ∈ get_neighbors a n -> n ∈ get_neighbors a m.


(** The cutoff count of [_find_fearless_leader] computed as the code
    does, in IEEE binary64 arithmetic: [0.02] is the double nearest to
    2/100, the product is rounded, [int] truncates. *)
Definition float_of_int (n : Z) : float := PrimFloat.of_uint63 (Uint63.of_Z n).

Definition int_of_float (f : float) : Z :=
  match Prim2SF f with
  | S754_finite s m e =>
      let v := if 0 <=? e then Zpos m * 2 ^ e else Zpos m / 2 ^ (- e) in
      if s then - v else v
  | _ => 0
  end.

Definition top_2_percent_count_float (total_nodes : Z) : Z :=
  Z.max 1 (int_of_float (float_of_int total_nodes * 0x1.47ae147ae147bp-6)%float).

(** * Two small networks

    Concrete inputs on which the definitions are run. *)

Module Examples.

(** Network A: employee 1 with contacts 2, 3, 4 and 5; node 5 bridges
    to node 6. *)
Definition graph_a : Graph := {|
  nodes := [1; 2; 3; 4; 5; 6];
  adj := list_to_map
    [(1, [2; 3; 4; 5]); (2, [1]); (3, [1]); (4, [1]); (5, [1; 6]); (6, [5])];
  name_attr := list_to_map
    [(1, "E"); (2, "H1"); (3, "H2"); (4, "H3"); (5, "M"); (6, "L")]%string;
  city_attr := list_to_map [(1, "Metropolis"); (6, "Metropolis")]%string
|}.

Definition betweenness_a : list (Z * Q) :=
  [(1, 0.6%Q); (2, 0%Q); (3, 0%Q); (4, 0%Q); (5, 0.02%Q); (6, 0.9%Q)].

Definition clustering_a : list (Z * Q) :=
  [(1, 0%Q); (2, 0%Q); (3, 0%Q); (4, 0%Q); (5, 0%Q); (6, 0%Q)].

Definition net_a : SocialNetworkAnalyzer := {|
  graph := graph_a;
  metrics := list_to_map
    [("betweenness_centrality", betweenness_a);
     ("clustering_coefficient", clustering_a);
     ("eigenvector_centrality", [])]%string
|}.

Definition cfg_a : Config := {|
  employee_expected_contacts := 4;
  employee_tolerance := 1;
  handlers_expected_contacts_min := 1;
  handlers_expected_contacts_max := 1;
  fearless_leader_min_contacts := 1;
  large_cities := ["Metropolis"]%string;
  small_cities := ["Smallville"]%string
|}.

(** A wider employee window on network A: degrees 2 to 4. *)
Definition cfg_a_wide : Config := {|
  employee_expected_contacts := 3;
  employee_tolerance := 1;
  handlers_expected_contacts_min := 1;
  handlers_expected_contacts_max := 1;
  fearless_leader_min_contacts := 1;
  large_cities := ["Metropolis"]%string;
  small_cities := ["Smallville"]%string
|}.

(** Network B: employee 1, handlers 2, 3, 4, one middleman for each
    (5, 6, 7), all three linked to node 8 and to thirteen further
    contacts 9..21. *)
Definition others : list Z := [9; 10; 11; 12; 13; 14; 15; 16; 17; 18; 19; 20; 21].

Definition adj_b : gmap Z (list Z) :=
  list_to_map
    ([(1, [2; 3; 4]); (2, [1; 5]); (3, [1; 6]); (4, [1; 7]);
      (5, 2 :: 8 :: others); (6, 3 :: 8 :: others); (7, 4 :: 8 :: others);
      (8, [5; 6; 7])]
     ++ map (fun n => (n, [5; 6; 7])) others).

Definition betweenness_b : list (Z * Q) :=
  [(1, 0%Q); (2, 0%Q); (3, 0%Q); (4, 0%Q);
   (5, 0.006%Q); (6, 0.006%Q); (7, 0.006%Q); (8, 0.5%Q)]
  ++ map (fun n => (n, 0%Q)) others.

Definition names_b : gmap Z string :=
  list_to_map (map (fun n => (n, "n"%string)) ([1; 2; 3; 4; 5; 6; 7; 8] ++ others)).

(** No node carries a city. *)
Definition net_b : SocialNetworkAnalyzer := {|
  graph := {| nodes := [1; 2; 3; 4; 5; 6; 7; 8] ++ others;
              adj := adj_b; name_attr := names_b; city_attr := ∅ |};
  metrics := list_to_map [("betweenness_centrality", betweenness_b)]%string
|}.

(** The same network with node 8 in a large city. *)
Definition net_b_city : SocialNetworkAnalyzer := {|
  graph := {| nodes := [1; 2; 3; 4; 5; 6; 7; 8] ++ others;
              adj := adj_b; name_attr := names_b;
              city_attr := {[ 8 := "Metropolis"%string ]} |};
  metrics := list_to_map [("betweenness_centrality", betweenness_b)]%string
|}.

Definition cfg_b : Config := {|
  employee_expected_contacts := 3;
  employee_tolerance := 0;
  handlers_expected_contacts_min := 5;
  handlers_expected_contacts_max := 10;
  fearless_leader_min_contacts := 3;
  large_cities := ["Metropolis"]%string;
  small_cities := ["Smallville"]%string
|}.

(** The one handler triple of employee 1 in network B. *)
Definition triple_b : list (Z * Q) :=
  Eval vm_compute in
    _find_handler_candidates net_b cfg_b (get_neighbors net_b 1).

End Examples.

(** * The specification's wording

    Definitions that follow the sentences of the specification, to be
    compared with the definitions taken from the code. *)

Global Instance Qlt_decision (x y : Q) : Decision (x < y)%Q.
Proof. unfold Qlt. apply _. Defined.

Global Instance Qle_decision (x y : Q) : Decision (x <= y)%Q.
Proof. unfold Qle. apply _. Defined.

Section Wording.

Variable a : SocialNetworkAnalyzer.
Variable cfg : Config.

Definition is_large_city (n : Z) : Prop := city a n ∈ large_cities cfg.

(** 4.1: [0.4/(1+|d-E|)], plus 0.3 in a large city, plus 0.2 for a
    betweenness strictly inside (0.001, 0.05), plus 0.1 for a clustering
    coefficient strictly inside (0.2, 0.6). *)
Definition employee_score_spec (n : Z) : Q :=
  let d := degree a n in
  let E := employee_expected_contacts cfg in
  (0.4 / (1 + inject_Z (Z.abs (d - E)))
   + (if decide (is_large_city n) then 0.3 else 0)
   + (if decide (0.001 < betweenness a n /\ betweenness a n < 0.05) then 0.2 else 0)
   + (if decide (0.2 < clustering a n /\ clustering a n < 0.6) then 0.1 else 0))%Q.

(** 4.2: base 0.5, plus 0.4 in the literal band [25,45], plus 0.2 in a
    large city, plus 0.3 above 0.005 of betweenness or else 0.15 above
    0.001; the whole multiplied by 1.5 inside the configured window. *)
Definition handler_score_spec (n : Z) : Q :=
  let d := degree a n in
  ((0.5
    + (if decide (25 <= d <= 45)%Z then 0.4 else 0)
    + (if decide (is_large_city n) then 0.2 else 0)
    + (if decide (0.005 < betweenness a n) then 0.3
       else if decide (0.001 < betweenness a n) then 0.15 else 0))
   * (if decide (handlers_expected_contacts_min cfg <= d
                 <= handlers_expected_contacts_max cfg)%Z
      then 1.5 else 1))%Q.

(** 4.4: a node qualifies as leader when it is not excluded, has at
    least the configured minimum of contacts, and reaches the degree
    threshold or the betweenness threshold. *)
Definition leader_qualifies (exclude_ids : list Z) (dt : Z) (bt : Q) (n : Z) : Prop :=
  (n ∉ exclude_ids)
  /\ fearless_leader_min_contacts cfg <= degree a n
  /\ (dt <= degree a n \/ (bt <= betweenness a n)%Q).

(** 4.4: degree + 1000 * betweenness, multiplied by 1.2 in a large
    city. *)
Definition leader_score_spec (n : Z) : Q :=
  ((inject_Z (degree a n) + 1000 * betweenness a n)
   * (if decide (is_large_city n) then 1.2 else 1))%Q.

(** 4.3-A: the middleman candidates of a handler triple are the
    employee's contacts outside the triple with a betweenness above
    0.001, sorted descending by betweenness and capped to the first 5. *)
Definition middleman_candidates_a (employee_id : Z) (handler_ids : list Z) : list (Z * Q) :=
  take 5 (sort_desc snd
    ((fun n => (n, betweenness a n)) <$>
       filter (fun n => (n ∉ handler_ids) /\ (0.001 < betweenness a n)%Q)
         (get_neighbors a employee_id))).

(** 4.5 step 4: a candidate is rejected when it is the employee, when
    its degree exceeds 80, or when its betweenness is at most 0.001. *)
Definition rejected_a (employee_id boris : Z) : Prop :=
  boris = employee_id \/ 80 < degree a boris \/ (betweenness a boris <= 0.001)%Q.

(** 4.5 steps 5 and 6: the configuration a middleman candidate gives,
    if it survives and a leader is found among its contacts. *)
Definition configuration_a (dt : Z) (bt : Q) (employee_id : Z) (handler_ids : list Z)
    (cand : Z * Q) : list ScenarioA :=
  let boris := cand.1 in
  if decide (rejected_a employee_id boris) then []
  else
    match leader_pick a cfg dt bt (get_neighbors a boris)
            (handler_ids ++ [employee_id]) with
    | Some leader =>
        [{| a_employee := employee_id; a_handlers := handler_ids;
            a_boris := boris; a_fearless_leader := leader;
            a_score := _score_scenario_a_configuration a cfg employee_id
                         handler_ids boris leader |}]
    | None => []
    end.

(** The configurations of one handler triple. *)
Definition configurations_a (dt : Z) (bt : Q) (employee_id : Z) (handler_ids : list Z)
    : list ScenarioA :=
  flat_map (configuration_a dt bt employee_id handler_ids)
    (middleman_candidates_a employee_id handler_ids).

(** 4.5: nothing with fewer than 3 handler candidates; otherwise all
    valid configurations of all triples of the first 10 handler
    candidates, sorted descending by score, capped to the first 3. *)
Definition scenario_a_spec (dt : Z) (bt : Q) (employee_id : Z) : list ScenarioA :=
  let handler_candidates :=
    _find_handler_candidates a cfg (get_neighbors a employee_id) in
  if decide (length handler_candidates < 3)%nat then []
  else
    take 3 (sort_desc a_score
      (flat_map (fun combo : list (Z * Q) =>
                   configurations_a dt bt employee_id combo.*1)
         (combinations 3 (take 10 handler_candidates)))).

(** 4.6 steps 4 to 6: the configuration of a handler triple, when each
    of the three handlers has a middleman, the three middlemen are
    pairwise distinct and their common contacts hold a leader. *)
Definition configuration_of_triple_b (set_order : list Z -> list Z) (dt : Z) (bt : Q)
    (employee_id : Z) (handler_ids : list Z) : option ScenarioB :=
  match handler_ids with
  | [h1; h2; h3] =>
      match middleman_of a cfg employee_id handler_ids h1,
            middleman_of a cfg employee_id handler_ids h2,
            middleman_of a cfg employee_id handler_ids h3 with
      | Some m0, Some m1, Some m2 =>
          if decide (m0 <> m1 /\ m0 <> m2 /\ m1 <> m2) then
            match leader_pick a cfg dt bt
                    (set_order (leader_pool_b a employee_id handler_ids m0 m1 m2))
                    (exclude_b employee_id handler_ids m0 m1 m2) with
            | Some leader =>
                Some (configuration_b a cfg employee_id handler_ids m0 m1 m2 leader)
            | None => None
            end
          else None
      | _, _, _ => None
      end
  | _ => None
  end.

End Wording.

(** * What the two searches record

    The loops of [detect_scenario_a] and [detect_scenario_b] in closed
    form, with the tests of the code: [if leader_candidate:] and
    [if middleman:] are false for [None] and for the node id 0, so a
    leader or a middleman whose id is 0 counts as not found.  These
    definitions describe the code, not the specification. *)

Section Recorded.

Variable a : SocialNetworkAnalyzer.
Variable cfg : Config.

(** What the body of the inner loop of [detect_scenario_a] appends for
    a middleman candidate. *)
Definition recorded_a (dt : Z) (bt : Q) (employee_id : Z) (handler_ids : list Z)
    (cand : Z * Q) : list ScenarioA :=
  let boris := cand.1 in
  if decide (rejected_a a employee_id boris) then []
  else
    match leader_pick a cfg dt bt (get_neighbors a boris)
            (handler_ids ++ [employee_id]) with
    | Some leader =>
        if decide (leader = 0) then []
        else [{| a_employee := employee_id; a_handlers := handler_ids;
                 a_boris := boris; a_fearless_leader := leader;
                 a_score := _score_scenario_a_configuration a cfg employee_id
                              handler_ids boris leader |}]
    | None => []
    end.

(** What the loops append for one handler triple. *)
Definition recorded_of_triple_a (dt : Z) (bt : Q) (employee_id : Z)
    (handler_ids : list Z) : list ScenarioA :=
  flat_map (recorded_a dt bt employee_id handler_ids)
    (middleman_candidates_a a employee_id handler_ids).

(** What [detect_scenario_a] returns. *)
Definition scenario_a_recorded (dt : Z) (bt : Q) (employee_id : Z) : list ScenarioA :=
  let handler_candidates :=
    _find_handler_candidates a cfg (get_neighbors a employee_id) in
  if decide (length handler_candidates < 3)%nat then []
  else
    take 3 (sort_desc a_score
      (flat_map (fun combo : list (Z * Q) =>
                   recorded_of_triple_a dt bt employee_id combo.*1)
         (combinations 3 (take 10 handler_candidates)))).


End Recorded.


(** No node has the node id 0 among its contacts. *)
Definition no_zero_contact (a : SocialNetworkAnalyzer) : Prop :=
  map_Forall (fun _ nbrs => 0 ∉ nbrs) (adj (graph a)).


(** * More of the analyzer and of its callers

    The rest of [SocialNetworkAnalyzer] that computes on the graph
    itself, the unused helper [_find_common_middleman] of the detector,
    and the [GeospatialAnalyzer] that the report applies to the
    detector's results.  The calls into networkx for centralities,
    paths, bridges and connectivity, the pandas loaders and the plots
    are outside the model. *)

(** ** Building the graph ([build_graph]) *)

(** networkx creates a node the first time it is mentioned, with an
    empty adjacency and no attribute. *)
Definition nx_ensure_node (g : Graph) (n : Z) : Graph :=
  if memZ n (nodes g) then g
  else {| nodes := nodes g ++ [n];
          adj := <[n := []]> (adj g);
          name_attr := name_attr g;
          city_attr := city_attr g |}.

(** [graph.add_node(n, name=..., type=...)]: the attributes of an
    existing node are overwritten.  The attribute [type] is stored and
    never read; [Graph] does not keep it. *)
Definition nx_add_node (g : Graph) (n : Z) (name : string) : Graph :=
  let g := nx_ensure_node g n in
  {| nodes := nodes g;
     adj := adj g;
     name_attr := <[n := name]> (name_attr g);
     city_attr := city_attr g |}.

(** [d[k] = ...] on the keys of an insertion-ordered dict: a key that is
    present keeps its place. *)
Definition dict_add_key (keys : list Z) (k : Z) : list Z :=
  if memZ k keys then keys else keys ++ [k].

(** [graph.add_edge(u, v)]: both ends are created if need be, then [v]
    is entered under [u] and [u] under [v]. *)
Definition nx_add_edge (g : Graph) (u v : Z) : Graph :=
  let g := nx_ensure_node g u in
  let g := nx_ensure_node g v in
  let adj_u := <[u := dict_add_key (default [] (adj g !! u)) v]> (adj g) in
  let adj_v := <[v := dict_add_key (default [] (adj_u !! v)) u]> adj_u in
  {| nodes := nodes g;
     adj := adj_v;
     name_attr := name_attr g;
     city_attr := city_attr g |}.

(** [graph.nodes[n]['city'] = city] *)
Definition nx_set_city (g : Graph) (n : Z) (c : string) : Graph :=
  {| nodes := nodes g;
     adj := adj g;
     name_attr := name_attr g;
     city_attr := <[n := c]> (city_attr g) |}.

Definition nx_empty : Graph :=
  {| nodes := []; adj := ∅; name_attr := ∅; city_attr := ∅ |}.

(** The rows of the three tables: [(ID, Name, Type)], [(ID, City)] and
    [(ID1, ID2)]. *)
Definition build_graph (links_df : list (Z * Z))
    (entities_df : list (Z * string * string))
    (locations_df : list (Z * string)) : Graph :=
  let g := nx_empty in
  let g := fold_left (fun g (row : Z * string * string) =>
                        nx_add_node g row.1.1 row.1.2) entities_df g in
  let g := fold_left (fun g (row : Z * string) =>
                        if memZ row.1 (nodes g) then nx_set_city g row.1 row.2
                        else g) locations_df g in
  fold_left (fun g (row : Z * Z) => nx_add_edge g row.1 row.2) links_df g.

(** ** Queries of the analyzer *)

(** [get_nodes_by_degree_range] *)
Definition get_nodes_by_degree_range (a : SocialNetworkAnalyzer)
    (min_degree max_degree : Z) : list (Z * Z) :=
  let found :=
    flat_map (fun node =>
      let d := degree a node in
      if (min_degree <=? d) && (d <=? max_degree) then [(node, d)] else [])
      (nodes (graph a)) in
  sort_desc (fun x : Z * Z => inject_Z x.2) found.

(** [get_common_neighbors]; the result is the listing of a set. *)
Definition get_common_neighbors (set_order : list Z -> list Z)
    (a : SocialNetworkAnalyzer) (node1 node2 : Z) : list Z :=
  let neighbors1 := py_set (get_neighbors a node1) in
  let neighbors2 := py_set (get_neighbors a node2) in
  set_order (filter (fun n => n ∈ neighbors2) neighbors1).

(** The dict [get_node_info] returns for a node of the graph; the five
    metric entries are there when some metric has been computed. *)
Record NodeInfo := {
  info_id : Z;
  info_name : string;
  info_city : string;
  info_degree : Z;
  info_neighbors : list Z;
  info_metrics : option (Q * Q * Q * Q * Q)
}.

(** [self.metrics[name]], a [KeyError] when the table is missing. *)
Definition metric_lookup (a : SocialNetworkAnalyzer) (name : string)
    : outcome (list (Z * Q)) :=
  match metrics a !! name with
  | Some t => Returns t
  | None => Raises KeyError
  end.

(** [get_node_info]; [None] stands for the empty dict. *)
Definition get_node_info (a : SocialNetworkAnalyzer) (node_id : Z)
    : outcome (option NodeInfo) :=
  if negb (memZ node_id (nodes (graph a))) then Returns None
  else
    let name := default "Unknown"%string (name_attr (graph a) !! node_id) in
    let c := default "Unknown"%string (city_attr (graph a) !! node_id) in
    let d := degree a node_id in
    let nbrs := get_neighbors a node_id in
    if decide (metrics a = ∅) then
      Returns (Some {| info_id := node_id; info_name := name; info_city := c;
                       info_degree := d; info_neighbors := nbrs;
                       info_metrics := None |})
    else
      dc ← metric_lookup a "degree_centrality";
      bc ← metric_lookup a "betweenness_centrality";
      cc ← metric_lookup a "closeness_centrality";
      cl ← metric_lookup a "clustering_coefficient";
      cm ← metric_lookup a "communities";
      Returns (Some {| info_id := node_id; info_name := name; info_city := c;
                       info_degree := d; info_neighbors := nbrs;
                       info_metrics :=
                         Some (dict_get dc node_id 0%Q, dict_get bc node_id 0%Q,
                               dict_get cc node_id 0%Q, dict_get cl node_id 0%Q,
                               dict_get cm node_id (-1)%Q) |}).

(** ** The unused helper of the detector *)

(** [_find_common_middleman] *)
Definition _find_common_middleman (set_order : list Z -> list Z)
    (a : SocialNetworkAnalyzer) (handler_ids : list Z) : list Z :=
  match handler_ids with
  | [] => []
  | h0 :: rest =>
      let common :=
        fold_left (fun common handler_id =>
                     filter (fun n => n ∈ py_set (get_neighbors a handler_id)) common)
          rest (py_set (get_neighbors a h0)) in
      let common_list :=
        map (fun node => (node, betweenness a node)) (set_order common) in
      let common_list := sort_desc snd common_list in
      map fst common_list
  end.

(** ** The geospatial analyzer *)

(** [d[k] = v] on an insertion-ordered dict. *)
Fixpoint dict_set {V} (d : list (Z * V)) (k : Z) (v : V) : list (Z * V) :=
  match d with
  | [] => [(k, v)]
  | (k', v') :: d' => if k' =? k then (k, v) :: d' else (k', v') :: dict_set d' k v
  end.

Record GeospatialAnalyzer := {
  geo_large_cities : list string;
  geo_small_cities : list string;
  id_to_city : list (Z * string)
}.

(** The constructor: the city sets of the configuration and one entry
    for each id of the locations table, a later row replacing an
    earlier one. *)
Definition new_GeospatialAnalyzer (locations_df : list (Z * string)) (cfg : Config)
    : GeospatialAnalyzer :=
  {| geo_large_cities := remove_dups (large_cities cfg);
     geo_small_cities := remove_dups (small_cities cfg);
     id_to_city := fold_left (fun d (row : Z * string) => dict_set d row.1 row.2)
                     locations_df [] |}.

Definition get_city (geo : GeospatialAnalyzer) (person_id : Z) : string :=
  dict_get (id_to_city geo) person_id "Unknown"%string.

Definition is_large_city_geo (geo : GeospatialAnalyzer) (c : string) : bool :=
  mem_str c (geo_large_cities geo).

Definition is_small_city_geo (geo : GeospatialAnalyzer) (c : string) : bool :=
  mem_str c (geo_small_cities geo).

(** The keys of [network_nodes] that [analyze_network_geography] looks
    for; a key that is absent is [None]. *)
Record NetworkNodes := {
  nn_employee : option Z;
  nn_handlers : option (list Z);
  nn_boris : option Z;
  nn_morris : option Z;
  nn_horace : option Z;
  nn_fearless_leader : option Z
}.

(** The result dicts of the detector, as the report passes them. *)
Definition network_nodes_a (c : ScenarioA) : NetworkNodes :=
  {| nn_employee := Some (a_employee c); nn_handlers := Some (a_handlers c);
     nn_boris := Some (a_boris c); nn_morris := None; nn_horace := None;
     nn_fearless_leader := Some (a_fearless_leader c) |}.

Definition network_nodes_b (r : ScenarioB) : NetworkNodes :=
  {| nn_employee := Some (b_employee r); nn_handlers := Some (b_handlers r);
     nn_boris := Some (b_boris r); nn_morris := Some (b_morris r);
     nn_horace := Some (b_horace r);
     nn_fearless_leader := Some (b_fearless_leader r) |}.

Record GeographyAnalysis := {
  employee_city : option string;
  handlers_cities : list string;
  middlemen_cities : list string;
  leader_city : option string;
  geographic_pattern_match : float
}.

(** The counters [score] and [total_checks] after the employee, after
    the handlers, after the middlemen and after the leader.  [score] is
    a float that starts at [0.0] and grows by 1 at a time: a whole
    number, which binary64 holds exactly, kept here as an integer. *)
Definition geography_counts (geo : GeospatialAnalyzer) (nn : NetworkNodes) : Z * Z :=
  let score := 0 in
  let total_checks := 0 in
  let '(score, total_checks) :=
    match nn_employee nn with
    | Some e =>
        (if is_large_city_geo geo (get_city geo e) then score + 1 else score,
         total_checks + 1)
    | None => (score, total_checks)
    end in
  let '(score, total_checks) :=
    match nn_handlers nn with
    | Some hs =>
        fold_left (fun '(score, total_checks) handler_id =>
                     (if is_large_city_geo geo (get_city geo handler_id)
                      then score + 1 else score,
                      total_checks + 1))
          hs (score, total_checks)
    | None => (score, total_checks)
    end in
  let total_checks :=
    fold_left (fun total_checks (key : option Z) =>
                 match key with
                 | Some _ => total_checks + 1
                 | None => total_checks
                 end)
      [nn_boris nn; nn_morris nn; nn_horace nn] total_checks in
  match nn_fearless_leader nn with
  | Some l =>
      (if is_large_city_geo geo (get_city geo l) then score + 1 else score,
       total_checks + 1)
  | None => (score, total_checks)
  end.

(** [(score / total_checks) * 100] as the code computes it, in IEEE
    binary64: the two counters as doubles, the quotient rounded to the
    nearest double, then the product rounded (counters below 2^53, as
    the lengths of lists are, convert exactly).  For 5 checks passed
    out of 6 it is the double 83.333333333333343, which lies above
    500/6. *)
Definition pattern_match (score total_checks : Z) : float :=
  (float_of_int score / float_of_int total_checks * 100)%float.

(** [analyze_network_geography] *)
Definition analyze_network_geography (geo : GeospatialAnalyzer) (nn : NetworkNodes)
    : GeographyAnalysis :=
  let '(score, total_checks) := geography_counts geo nn in
  {| employee_city := get_city geo <$> nn_employee nn;
     handlers_cities := map (get_city geo) (default [] (nn_handlers nn));
     middlemen_cities :=
       flat_map (fun key : option Z =>
                   match key with Some m => [get_city geo m] | None => [] end)
         [nn_boris nn; nn_morris nn; nn_horace nn];
     leader_city := get_city geo <$> nn_fearless_leader nn;
     geographic_pattern_match :=
       if 0 <? total_checks then pattern_match score total_checks else 0%float |}.

(** [find_international_connections] *)
Definition find_international_connections (geo : GeospatialAnalyzer)
    (a : SocialNetworkAnalyzer) (node_id : Z) : Z :=
  let node_city := get_city geo node_id in
  fold_left (fun different_city_count neighbor =>
               if negb (String.eqb (get_city geo neighbor) node_city)
               then different_city_count + 1 else different_city_count)
    (get_neighbors a node_id) 0.

(** [get_city_diversity_score] *)
Definition get_city_diversity_score (geo : GeospatialAnalyzer) (node_ids : list Z) : Q :=
  match node_ids with
  | [] => 0%Q
  | _ =>
      let cities := map (get_city geo) node_ids in
      let unique_cities := len (remove_dups cities) in
      let total_cities := len cities in
      if 0 <? total_cities then (inject_Z unique_cities / inject_Z total_cities)%Q
      else 0%Q
  end.

(** ** What [build_graph] keeps

    Names for the graph between the loops of [build_graph]. *)
(** The neighbours of a node in a graph. *)
Definition nbrs_of (g : Graph) (n : Z) : list Z := default [] (adj g !! n).

(** The adjacency has a key for each node and for nothing else. *)
Definition adj_keys (g : Graph) : Prop :=
  forall n, n ∈ nodes g <-> is_Some (adj g !! n).

(** The ends of the rows of the links table. *)
Definition link_ends (links_df : list (Z * Z)) : list Z :=
  flat_map (fun row : Z * Z => [row.1; row.2]) links_df.

(** What [build_graph] has built when it has entered the links [seen],
    starting from the graph [g0] of the entities and locations. *)
Definition links_entered (g0 : Graph) (seen : list (Z * Z)) (g : Graph) : Prop :=
  adj_keys g
  /\ NoDup (nodes g)
  /\ (forall n, NoDup (nbrs_of g n))
  /\ (forall n m, m ∈ nbrs_of g n <->
        m ∈ nbrs_of g0 n \/ (n, m) ∈ seen \/ (m, n) ∈ seen)
  /\ (forall n, n ∈ nodes g <-> n ∈ nodes g0 \/ n ∈ link_ends seen)
  /\ name_attr g = name_attr g0
  /\ city_attr g = city_attr g0.

Definition entity_ids (entities_df : list (Z * string * string)) : list Z :=
  map (fun row : Z * string * string => row.1.1) entities_df.

(** The graph after the loop over the entities [seen]. *)
Definition entities_entered (seen : list (Z * string * string)) (g : Graph) : Prop :=
  adj_keys g
  /\ NoDup (nodes g)
  /\ (forall n, nbrs_of g n = [])
  /\ (forall n, n ∈ nodes g <-> n ∈ entity_ids seen)
  /\ (forall n, is_Some (name_attr g !! n) <-> n ∈ entity_ids seen)
  /\ (forall n s, name_attr g !! n = Some s -> exists t, (n, s, t) ∈ seen)
  /\ (NoDup (entity_ids seen) ->
      forall n s t, (n, s, t) ∈ seen -> name_attr g !! n = Some s)
  /\ city_attr g = ∅.

(** The graph after the loop over the locations [seen], from the graph
    [g0] of the entities. *)
Definition locations_entered (g0 : Graph) (seen : list (Z * string)) (g : Graph) : Prop :=
  nodes g = nodes g0 /\ adj g = adj g0 /\ name_attr g = name_attr g0
  /\ (forall n, is_Some (city_attr g !! n) <-> n ∈ nodes g0 /\ n ∈ seen.*1)
  /\ (forall n c, city_attr g !! n = Some c -> (n, c) ∈ seen)
  /\ (NoDup seen.*1 ->
      forall n c, n ∈ nodes g0 -> (n, c) ∈ seen -> city_attr g !! n = Some c).

(** The analyzer once [build_graph] has run on the three tables, with
    whatever metrics are stored. *)
Definition built_analyzer (links_df : list (Z * Z))
    (entities_df : list (Z * string * string)) (locations_df : list (Z * string))
    (ms : gmap string (list (Z * Q))) : SocialNetworkAnalyzer :=
  {| graph := build_graph links_df entities_df locations_df; metrics := ms |}.

(** The last row of a table with the id [n]. *)
Fixpoint last_row {A} (id_of : A -> Z) (rows : list A) (n : Z) : option A :=
  match rows with
  | [] => None
  | row :: rest =>
      match last_row id_of rest n with
      | Some r => Some r
      | None => if id_of row =? n then Some row else None
      end
  end.

(** ** The shape of a configuration *)

(** What every configuration of a Scenario A result satisfies. *)
Definition scenario_a_shape (a : SocialNetworkAnalyzer) (cfg : Config)
    (employee_id : Z) (c : ScenarioA) : Prop :=
  a_employee c = employee_id
  /\ length (a_handlers c) = 3%nat
  /\ (forall h, h ∈ a_handlers c ->
        h ∈ get_neighbors a employee_id
        /\ handlers_expected_contacts_min cfg - 5 <= degree a h
           <= handlers_expected_contacts_max cfg + 5)
  /\ a_boris c ∈ get_neighbors a employee_id
  /\ (a_boris c ∉ a_handlers c)
  /\ a_boris c <> employee_id
  /\ degree a (a_boris c) <= 80
  /\ (0.001 < betweenness a (a_boris c))%Q
  /\ a_fearless_leader c ∈ get_neighbors a (a_boris c)
  /\ (a_fearless_leader c ∉ a_handlers c)
  /\ a_fearless_leader c <> employee_id
  /\ fearless_leader_min_contacts cfg <= degree a (a_fearless_leader c)
  /\ a_score c = _score_scenario_a_configuration a cfg employee_id (a_handlers c)
                   (a_boris c) (a_fearless_leader c)
  /\ (0 <= a_score c)%Q /\ (a_score c <= 119)%Q.

(** What the configuration of a Scenario B result satisfies. *)
Definition scenario_b_shape (a : SocialNetworkAnalyzer) (cfg : Config)
    (employee_id : Z) (r : ScenarioB) : Prop :=
  b_employee r = employee_id
  /\ exists h1 h2 h3,
       b_handlers r = [h1; h2; h3]
       /\ (forall h, h ∈ [h1; h2; h3] ->
             h ∈ get_neighbors a employee_id
             /\ handlers_expected_contacts_min cfg - 5 <= degree a h
                <= handlers_expected_contacts_max cfg + 5)
       /\ b_boris r ∈ get_neighbors a h1
       /\ b_morris r ∈ get_neighbors a h2
       /\ b_horace r ∈ get_neighbors a h3
       /\ (forall m, m ∈ [b_boris r; b_morris r; b_horace r] ->
             m <> employee_id /\ (m ∉ [h1; h2; h3])
             /\ 15 <= degree a m <= 70 /\ (0.005 < betweenness a m)%Q
             /\ b_fearless_leader r ∈ get_neighbors a m
             /\ b_fearless_leader r <> m)
       /\ (b_fearless_leader r ∉ [h1; h2; h3])
       /\ b_fearless_leader r <> employee_id
       /\ fearless_leader_min_contacts cfg <= degree a (b_fearless_leader r)
       /\ b_score r = _score_scenario_b_configuration a cfg employee_id [h1; h2; h3]
                        [b_boris r; b_morris r; b_horace r] (b_fearless_leader r)
       /\ (0 < b_score r)%Q /\ (b_score r <= 119)%Q.

(** ** City statistics *)

(** [Counter(l)]: the elements of [l] with the number of their
    occurrences, in the order of their first occurrence. *)
Fixpoint counter_add (c : list (string * Z)) (k : string) : list (string * Z) :=
  match c with
  | [] => [(k, 1)]
  | (k', n) :: c' =>
      if String.eqb k' k then (k', n + 1) :: c' else (k', n) :: counter_add c' k
  end.

Definition Counter (l : list string) : list (string * Z) := fold_left counter_add l [].

(** [d[k] = v] on an insertion-ordered dict with string keys. *)
Fixpoint str_dict_set {V} (d : list (string * V)) (k : string) (v : V)
    : list (string * V) :=
  match d with
  | [] => [(k, v)]
  | (k', v') :: d' =>
      if String.eqb k' k then (k, v) :: d' else (k', v') :: str_dict_set d' k v
  end.

Record CityStatistics := {
  total_cities : Z;
  city_populations : list (string * Z);
  stats_large_cities : list (string * Z);
  stats_small_cities : list (string * Z)
}.

(** [get_city_statistics] *)
Definition get_city_statistics (geo : GeospatialAnalyzer) : CityStatistics :=
  let city_counts := Counter (map snd (id_to_city geo)) in
  let '(large, small) :=
    fold_left (fun (st : list (string * Z) * list (string * Z)) (item : string * Z) =>
                 let '(large, small) := st in
                 let '(c, count) := item in
                 if is_large_city_geo geo c then (str_dict_set large c count, small)
                 else if is_small_city_geo geo c then (large, str_dict_set small c count)
                 else (large, small))
      city_counts ([], []) in
  {| total_cities := len city_counts;
     city_populations := city_counts;
     stats_large_cities := large;
     stats_small_cities := small |}.

(** [c[k]] on a [Counter]: 0 for a missing key. *)
Fixpoint counter_get (c : list (string * Z)) (k : string) : Z :=
  match c with
  | [] => 0
  | (k', n) :: c' => if String.eqb k' k then n else counter_get c' k
  end.

(** The number of occurrences of a city in a list. *)
Definition occurrences (c : string) (l : list string) : Z :=
  len (filter (fun x => x = c) l).

(** ** The conclusion of the report *)

(** [max(l)] on a non-empty list [x :: l] of floats. *)
Definition py_max (x : Q) (l : list Q) : Q :=
  fold_left (fun m y => if Qltb m y then y else m) l x.

(** [max(l) if l else 0] *)
Definition max_or_zero (l : list Q) : Q :=
  match l with
  | [] => 0%Q
  | x :: xs => py_max x xs
  end.

(** What the CONCLUSION block of [save_final_report] writes: the most
    likely scenario with its confidence score, or that no pattern was
    detected. *)
Inductive Conclusion :=
  | MostLikelyA (confidence : Q)
  | MostLikelyB (confidence : Q)
  | NoPattern.

(** The CONCLUSION block of [save_final_report] in [main.py], on the
    result bundle of [detect_all_patterns]. The values of a dict are
    taken in the order of [map_to_list]; a maximum does not depend on
    it. The list of the Scenario B scores is not empty where its
    maximum is taken. *)
Definition report_conclusion (results : Results) : Conclusion :=
  if decide (scenario_a results = ∅ /\ scenario_b results = ∅) then NoPattern
  else
    let all_a_scores :=
      if decide (scenario_a results = ∅) then []
      else flat_map (fun entry : Z * list ScenarioA => map a_score entry.2)
             (map_to_list (scenario_a results)) in
    let best_score_a := max_or_zero all_a_scores in
    let best_score_b :=
      if decide (scenario_b results = ∅) then 0%Q
      else max_or_zero (map (fun entry : Z * ScenarioB => b_score entry.2)
                          (map_to_list (scenario_b results))) in
    if Qltb best_score_b best_score_a then MostLikelyA best_score_a
    else MostLikelyB best_score_b.

(** The scores of the configurations of a result bundle. *)
Definition a_score_of (results : Results) (s : Q) : Prop :=
  exists e l c, scenario_a results !! e = Some l /\ c ∈ l /\ a_score c = s.

Definition b_score_of (results : Results) (s : Q) : Prop :=
  exists e r, scenario_b results !! e = Some r /\ b_score r = s.

(** ** The tables of network A

    The three tables from which [build_graph] makes network A, and the
    same links without the other two tables. *)

Module Tables.

Definition links_a : list (Z * Z) := [(1, 2); (1, 3); (1, 4); (1, 5); (5, 6)].

Definition entities_a : list (Z * string * string) :=
  [(1, "E", "person"); (2, "H1", "person"); (3, "H2", "person");
   (4, "H3", "person"); (5, "M", "person"); (6, "L", "person")]%string.

Definition locations_a : list (Z * string) :=
  [(1, "Metropolis"); (6, "Metropolis")]%string.

(** Network A when only the links are loaded: no node has a name. *)
Definition net_a_links : SocialNetworkAnalyzer :=
  built_analyzer links_a [] [] (metrics Examples.net_a).

(** Network A with a betweenness table that is stored and has no
    entry. *)
Definition net_a_empty_table : SocialNetworkAnalyzer :=
  {| graph := graph Examples.net_a;
     metrics := {[ "betweenness_centrality"%string := [] ]} |}.

(** Locations that put the six nodes of network A in a large city. *)
Definition geo_all_large : GeospatialAnalyzer :=
  {| geo_large_cities := ["Metropolis"%string];
     geo_small_cities := [];
     id_to_city := map (fun n => (n, "Metropolis"%string)) [1; 2; 3; 4; 5; 6] |}.

(** Its first employee candidate. *)
Definition unnamed_candidate : Z * Q :=
  Eval vm_compute in
    hd (0, 0%Q) (identify_employee_candidates net_a_links Examples.cfg_a).

End Tables.

(** ** Networks with a node of id 0 *)

Module ZeroId.

(** Network A with node 6 renamed 0. *)
Definition net_a0 : SocialNetworkAnalyzer := {|
  graph := {|
    nodes := [1; 2; 3; 4; 5; 0];
    adj := list_to_map
      [(1, [2; 3; 4; 5]); (2, [1]); (3, [1]); (4, [1]); (5, [1; 0]); (0, [5])];
    name_attr := list_to_map
      [(1, "E"); (2, "H1"); (3, "H2"); (4, "H3"); (5, "M"); (0, "L")]%string;
    city_attr := list_to_map [(1, "Metropolis"); (0, "Metropolis")]%string
  |};
  metrics := list_to_map
    [("betweenness_centrality",
      [(1, 0.6%Q); (2, 0%Q); (3, 0%Q); (4, 0%Q); (5, 0.02%Q); (0, 0.9%Q)]);
     ("clustering_coefficient",
      [(1, 0%Q); (2, 0%Q); (3, 0%Q); (4, 0%Q); (5, 0%Q); (0, 0%Q)]);
     ("eigenvector_centrality", [])]%string
|}.

Definition betweenness_b0 : list (Z * Q) :=
  [(1, 0%Q); (2, 0%Q); (3, 0%Q); (4, 0%Q);
   (5, 0.006%Q); (6, 0.006%Q); (7, 0.006%Q); (0, 0.5%Q)]
  ++ map (fun n => (n, 0%Q)) Examples.others.

(** Network B, node 8 in a large city, with node 8 renamed 0. *)
Definition net_b0 : SocialNetworkAnalyzer := {|
  graph := {|
    nodes := [1; 2; 3; 4; 5; 6; 7; 0] ++ Examples.others;
    adj := list_to_map
      ([(1, [2; 3; 4]); (2, [1; 5]); (3, [1; 6]); (4, [1; 7]);
        (5, 2 :: 0 :: Examples.others); (6, 3 :: 0 :: Examples.others);
        (7, 4 :: 0 :: Examples.others); (0, [5; 6; 7])]
       ++ map (fun n => (n, [5; 6; 7])) Examples.others);
    name_attr := list_to_map
      (map (fun n => (n, "n"%string)) ([1; 2; 3; 4; 5; 6; 7; 0] ++ Examples.others));
    city_attr := {[ 0 := "Metropolis"%string ]}
  |};
  metrics := list_to_map [("betweenness_centrality", betweenness_b0)]%string
|}.

End ZeroId.

(** * Properties *)

(** ** Comparisons on rationals *)

Lemma Qltb_lt (x y : Q) : Qltb x y = true <-> (x < y)%Q.
Proof.
  unfold Qltb. rewrite Qlt_alt.
  destruct (x ?= y)%Q; split; congruence.
Qed.

Lemma Qltb_ge (x y : Q) : Qltb x y = false <-> (y <= x)%Q.
Proof.
  unfold Qltb. rewrite Qge_alt.
  destruct (x ?= y)%Q; split; congruence.
Qed.

Lemma Qleb_le (x y : Q) : Qleb x y = true <-> (x <= y)%Q.
Proof. apply Qle_bool_iff. Qed.

Lemma memZ_true (x : Z) (l : list Z) : memZ x l = true <-> x ∈ l.
Proof. unfold memZ. apply bool_decide_eq_true. Qed.

Lemma memZ_false (x : Z) (l : list Z) : memZ x l = false <-> x ∉ l.
Proof. unfold memZ. apply bool_decide_eq_false. Qed.

Lemma len_nonneg {A} (l : list A) : 0 <= len l.
Proof. unfold len. lia. Qed.

(** ** The stable descending sort *)

Lemma insert_desc_perm {A} (key : A -> Q) (x : A) (l : list A) :
  insert_desc key x l ≡ₚ x :: l.
Proof.
  induction l as [|y ys IH]; simpl; [done|].
  destruct (Qltb (key x) (key y)); [|done].
  rewrite IH. apply Permutation_swap.
Qed.

Lemma sort_desc_perm {A} (key : A -> Q) (l : list A) : sort_desc key l ≡ₚ l.
Proof.
  induction l as [|x xs IH]; simpl; [done|].
  by rewrite insert_desc_perm, IH.
Qed.

Lemma insert_desc_sorted {A} (key : A -> Q) (x : A) (l : list A) :
  StronglySorted (desc key) l -> StronglySorted (desc key) (insert_desc key x l).
Proof.
  induction 1 as [|y ys Hs IH Hall]; simpl.
  - repeat constructor.
  - destruct (Qltb (key x) (key y)) eqn:Hc.
    + constructor; [done|].
      rewrite insert_desc_perm. constructor; [|done].
      apply Qltb_lt in Hc. unfold desc. by apply Qlt_le_weak.
    + apply Qltb_ge in Hc.
      constructor; [by constructor|].
      constructor; [done|].
      eapply Forall_impl; [exact Hall|].
      intros z Hz. unfold desc in *. by eapply Qle_trans.
Qed.

Lemma sort_desc_sorted {A} (key : A -> Q) (l : list A) :
  StronglySorted (desc key) (sort_desc key l).
Proof.
  induction l; simpl; [constructor|by apply insert_desc_sorted].
Qed.

Lemma sort_desc_elem_of {A} (key : A -> Q) (l : list A) (x : A) :
  x ∈ sort_desc key l <-> x ∈ l.
Proof. by rewrite sort_desc_perm. Qed.

Lemma sort_desc_length {A} (key : A -> Q) (l : list A) :
  length (sort_desc key l) = length l.
Proof. by rewrite sort_desc_perm. Qed.

Lemma StronglySorted_sublist {A} (R : relation A) (l1 l2 : list A) :
  l1 `sublist_of` l2 -> StronglySorted R l2 -> StronglySorted R l1.
Proof.
  induction 1 as [|x l1 l2 Hsub IH|x l1 l2 Hsub IH]; intros Hs.
  - constructor.
  - apply StronglySorted_inv in Hs as [Hs Hall]. constructor; [by apply IH|].
    rewrite Forall_forall in *. intros y Hy. apply Hall.
    by eapply elem_of_sublist.
  - apply StronglySorted_inv in Hs as [Hs _]. by apply IH.
Qed.

Lemma StronglySorted_weaken {A} (R1 R2 : relation A) (l : list A) :
  (forall x y, R1 x y -> R2 x y) -> StronglySorted R1 l -> StronglySorted R2 l.
Proof.
  intros HR. induction 1 as [|x l Hs IH Hall]; constructor; [done|].
  eapply Forall_impl; [exact Hall|]. intros y. apply HR.
Qed.

(** A slice [l[:k]] is a prefix, whatever the sign of [k]. *)
Lemma slice_to_sublist {A} (k : Z) (l : list A) : slice_to k l `sublist_of` l.
Proof. unfold slice_to. destruct (k <? 0); apply sublist_take. Qed.

Lemma slice_to_nonneg {A} (k : Z) (l : list A) :
  0 <= k -> slice_to k l = take (Z.to_nat k) l.
Proof. intros Hk. unfold slice_to. destruct (Z.ltb_spec k 0); [lia|done]. Qed.

Lemma slice_to_elem_of {A} (k : Z) (l : list A) (x : A) :
  x ∈ slice_to k l -> x ∈ l.
Proof. intros Hx. eapply elem_of_sublist; [exact Hx|apply slice_to_sublist]. Qed.

(** ** Filtering loops written with [flat_map] *)

Lemma flat_map_if_fmap_filter {A B} (p : A -> bool) (P : A -> Prop)
    `{!forall x, Decision (P x)} (f : A -> B) (l : list A) :
  (forall x, p x = true <-> P x) ->
  flat_map (fun x => if p x then [f x] else []) l = f <$> filter P l.
Proof.
  intros Hp. induction l as [|x xs IH]; simpl; [done|].
  rewrite filter_cons. destruct (p x) eqn:Hx.
  - apply Hp in Hx. rewrite decide_True by done. simpl. by rewrite IH.
  - rewrite decide_False; [done|]. intros HP. apply Hp in HP. congruence.
Qed.

(** ** Combinations *)

Lemma combinations_spec {A} (r : nat) (l : list A) (c : list A) :
  c ∈ combinations r l -> c `sublist_of` l /\ length c = r.
Proof.
  revert r c. induction l as [|x xs IH]; intros r c; simpl.
  - destruct r; [|by intros ?%elem_of_nil].
    intros ->%list_elem_of_singleton. split; [constructor|done].
  - destruct r as [|r'].
    + intros ->%list_elem_of_singleton. split; [apply sublist_nil_l|done].
    + rewrite elem_of_app. intros [Hc|Hc].
      * apply list_elem_of_fmap in Hc as (c' & -> & Hc').
        apply IH in Hc' as [Hsub Hlen]. split; [by constructor|simpl; lia].
      * apply IH in Hc as [Hsub Hlen]. split; [by constructor|done].
Qed.

(** ** Case analysis on the tests of the scoring functions *)

Lemma mem_str_true (x : string) (l : list string) : mem_str x l = true <-> x ∈ l.
Proof. unfold mem_str. apply bool_decide_eq_true. Qed.

Lemma mem_str_false (x : string) (l : list string) : mem_str x l = false <-> x ∉ l.
Proof. unfold mem_str. apply bool_decide_eq_false. Qed.

Ltac split_tests :=
  repeat match goal with
  | |- context [Qltb ?x ?y] =>
      let H := fresh "Hq" in
      destruct (Qltb x y) eqn:H; [apply Qltb_lt in H|apply Qltb_ge in H]
  | |- context [mem_str ?x ?l] =>
      let H := fresh "Hm" in
      destruct (mem_str x l) eqn:H; [apply mem_str_true in H|apply mem_str_false in H]
  | |- context [Z.leb ?x ?y] =>
      destruct (Z.leb_spec x y)
  | |- context [decide ?P] => destruct (decide P)
  end; simpl.

Lemma inject_Z_abs_nonneg (z : Z) : (0 <= inject_Z (Z.abs z))%Q.
Proof. rewrite <- (Zle_Qle 0). lia. Qed.

(** ** Employee candidates (4.1) *)

Lemma employee_score_refines (a : SocialNetworkAnalyzer) (cfg : Config) (n : Z) :
  (_calculate_employee_score a cfg n (degree a n) (employee_expected_contacts cfg)
   == employee_score_spec a cfg n)%Q.
Proof.
  unfold _calculate_employee_score, employee_score_spec, is_large_city.
  pose proof (inject_Z_abs_nonneg (degree a n - employee_expected_contacts cfg)) as Hd.
  split_tests; try (exfalso; tauto || lra); field; lra.
Qed.

Lemma identify_employee_candidates_perm (a : SocialNetworkAnalyzer) (cfg : Config) :
  let E := employee_expected_contacts cfg in
  let T := employee_tolerance cfg in
  identify_employee_candidates a cfg ≡ₚ
    (fun n => (n, _calculate_employee_score a cfg n (degree a n) E)) <$>
      filter (fun n => E - T <= degree a n <= E + T) (nodes (graph a)).
Proof.
  intros E T. unfold identify_employee_candidates. rewrite sort_desc_perm.
  fold E T.
  rewrite (flat_map_if_fmap_filter
             (fun n => (E - T <=? degree a n) && (degree a n <=? E + T))
             (fun n => E - T <= degree a n <= E + T)); [done|].
  intros n. rewrite andb_true_iff, !Z.leb_le. done.
Qed.

Lemma fmap_fst_pairing {B} (f : Z -> B) (l : list Z) :
  ((fun n => (n, f n)) <$> l).*1 = l.
Proof. induction l; simpl; [done|by f_equal]. Qed.

Lemma identify_employee_candidates_ids (a : SocialNetworkAnalyzer) (cfg : Config) (n : Z) :
  let E := employee_expected_contacts cfg in
  let T := employee_tolerance cfg in
  n ∈ (identify_employee_candidates a cfg).*1 <->
  n ∈ nodes (graph a) /\ E - T <= degree a n <= E + T.
Proof.
  intros E T. rewrite identify_employee_candidates_perm, fmap_fst_pairing.
  rewrite list_elem_of_filter. fold E T. tauto.
Qed.

(** C3.  [identify_employee_candidates] returns exactly the graph nodes
    whose degree [d] lies in [E-T, E+T], both endpoints included (a
    degree of [E-T] or [E+T] is in, [E-T-1] is out), each paired with
    the score [0.4/(1+|d-E|)] plus 0.3 for a large city, plus 0.2 for
    [0.001 < betweenness < 0.05], plus 0.1 for [0.2 < clustering < 0.6];
    the list is sorted descending by score. *)
Theorem identify_employee_candidates_correct (a : SocialNetworkAnalyzer) (cfg : Config) :
  let E := employee_expected_contacts cfg in
  let T := employee_tolerance cfg in
  let result := identify_employee_candidates a cfg in
  result ≡ₚ (fun n => (n, _calculate_employee_score a cfg n (degree a n) E)) <$>
              filter (fun n => E - T <= degree a n <= E + T) (nodes (graph a))
  /\ (forall n, (_calculate_employee_score a cfg n (degree a n) E
                == employee_score_spec a cfg n)%Q)
  /\ StronglySorted (desc snd) result
  /\ (forall n, n ∈ nodes (graph a) -> 0 <= T ->
        degree a n = E - T \/ degree a n = E + T -> n ∈ result.*1)
  /\ (forall n, degree a n = E - T - 1 -> n ∉ result.*1).
Proof.
  intros E T result. split; [apply identify_employee_candidates_perm|].
  split; [apply employee_score_refines|].
  split; [apply sort_desc_sorted|].
  split.
  - intros n Hn HT Hd. apply identify_employee_candidates_ids.
    split; [done|]. fold E T. lia.
  - intros n Hd Hin. apply identify_employee_candidates_ids in Hin as [_ Hw].
    fold E T in Hw. lia.
Qed.

(** ** Handler candidates (4.2) *)

Lemma handler_score_refines (a : SocialNetworkAnalyzer) (cfg : Config) (n : Z) :
  (handler_score_code a cfg n == handler_score_spec a cfg n)%Q.
Proof.
  unfold handler_score_code, _calculate_handler_score, handler_score_spec, is_large_city.
  split_tests; try (exfalso; tauto || lia || lra); ring.
Qed.

Lemma _find_handler_candidates_perm (a : SocialNetworkAnalyzer) (cfg : Config)
    (potential_handlers : list Z) :
  let Hmin := handlers_expected_contacts_min cfg in
  let Hmax := handlers_expected_contacts_max cfg in
  _find_handler_candidates a cfg potential_handlers ≡ₚ
    (fun n => (n, handler_score_code a cfg n)) <$>
      filter (fun n => Hmin - 5 <= degree a n <= Hmax + 5) potential_handlers.
Proof.
  intros Hmin Hmax. unfold _find_handler_candidates. rewrite sort_desc_perm.
  fold Hmin Hmax.
  rewrite (flat_map_if_fmap_filter
             (fun n => (Hmin - 5 <=? degree a n) && (degree a n <=? Hmax + 5))
             (fun n => Hmin - 5 <= degree a n <= Hmax + 5)); [done|].
  intros n. rewrite andb_true_iff, !Z.leb_le. done.
Qed.

Lemma _find_handler_candidates_ids (a : SocialNetworkAnalyzer) (cfg : Config)
    (potential_handlers : list Z) :
  (_find_handler_candidates a cfg potential_handlers).*1 ≡ₚ
    filter (fun n => handlers_expected_contacts_min cfg - 5 <= degree a n
                     <= handlers_expected_contacts_max cfg + 5) potential_handlers.
Proof. by rewrite _find_handler_candidates_perm, fmap_fst_pairing. Qed.

(** C4.  [_find_handler_candidates] returns exactly the given nodes
    whose degree lies in the widened window [Hmin-5, Hmax+5], sorted
    descending by score, where the score is 0.5, plus 0.4 for a degree
    in the literal band [25,45], plus 0.2 for a large city, plus 0.3 for
    a betweenness above 0.005 or else 0.15 above 0.001, the whole
    multiplied by 1.5 when the degree lies in [Hmin, Hmax]. *)
Theorem _find_handler_candidates_correct (a : SocialNetworkAnalyzer) (cfg : Config)
    (potential_handlers : list Z) :
  let Hmin := handlers_expected_contacts_min cfg in
  let Hmax := handlers_expected_contacts_max cfg in
  let result := _find_handler_candidates a cfg potential_handlers in
  result ≡ₚ (fun n => (n, handler_score_code a cfg n)) <$>
              filter (fun n => Hmin - 5 <= degree a n <= Hmax + 5) potential_handlers
  /\ (forall n, (handler_score_code a cfg n == handler_score_spec a cfg n)%Q)
  /\ StronglySorted (desc snd) result.
Proof.
  intros Hmin Hmax result. split; [apply _find_handler_candidates_perm|].
  split; [apply handler_score_refines|apply sort_desc_sorted].
Qed.

(** ** The top-N helper of the analyzer *)

Lemma take_sorted_top {A} (key : A -> Q) (n : nat) (l : list A) :
  exists rest,
    take n (sort_desc key l) ++ rest ≡ₚ l
    /\ StronglySorted (desc key) (take n (sort_desc key l) ++ rest)
    /\ length (take n (sort_desc key l)) = (n `min` length l)%nat.
Proof.
  exists (drop n (sort_desc key l)). rewrite take_drop.
  split; [apply sort_desc_perm|].
  split; [apply sort_desc_sorted|].
  by rewrite length_take, sort_desc_length.
Qed.

(** C9, as amended.  For a metric name that is not among the computed
    metrics [get_top_nodes_by_metric] returns the empty list, the value
    it also returns for a known metric with no entries; for a known
    metric and [0 <= top_n] it returns the first [top_n] pairs of the
    table sorted descending by value. *)
Theorem get_top_nodes_by_metric_correct (a : SocialNetworkAnalyzer)
    (metric_name : string) (top_n : Z) :
  (metrics a !! metric_name = None ->
     get_top_nodes_by_metric a metric_name top_n = [])
  /\ (forall metric_data,
        metrics a !! metric_name = Some metric_data -> 0 <= top_n ->
        let result := get_top_nodes_by_metric a metric_name top_n in
        result = take (Z.to_nat top_n) (sort_desc snd metric_data)
        /\ exists rest,
             result ++ rest ≡ₚ metric_data
             /\ StronglySorted (desc snd) (result ++ rest)
             /\ length result = (Z.to_nat top_n `min` length metric_data)%nat).
Proof.
  unfold get_top_nodes_by_metric. split.
  - by intros ->.
  - intros metric_data -> Hn. simpl. rewrite slice_to_nonneg by done.
    split; [done|apply take_sorted_top].
Qed.

(** ** Leader thresholds (4.4) *)

Lemma py_index_in_range {A} (l : list A) (i : Z) :
  0 <= i < len l ->
  exists x, py_index l i = Returns x /\ l !! Z.to_nat i = Some x.
Proof.
  intros Hi. unfold py_index.
  destruct (Z.ltb_spec i 0); [lia|].
  destruct (Z.ltb_spec i 0); [lia|]. simpl.
  destruct (Z.leb_spec (len l) i); [lia|].
  destruct (l !! Z.to_nat i) as [x|] eqn:Hl; [by exists x|].
  apply lookup_ge_None in Hl. unfold len in *. lia.
Qed.

Lemma py_int_floor (x : Q) : (0 <= x)%Q -> py_int x = Qfloor x.
Proof.
  destruct x as [n d]. unfold Qle, py_int, Qfloor. simpl. intros Hn.
  apply Z.quot_div_nonneg; lia.
Qed.

Lemma top_2_percent_count_floor (N : Z) :
  0 <= N -> top_2_percent_count N = Z.max 1 (Qfloor (0.02 * inject_Z N)).
Proof.
  intros HN. unfold top_2_percent_count. rewrite py_int_floor.
  - f_equal. apply Qfloor_comp. ring.
  - apply Qmult_le_0_compat; [|done]. by rewrite <- (Zle_Qle 0).
Qed.

Lemma top_2_percent_count_pos (N : Z) : 1 <= top_2_percent_count N.
Proof. unfold top_2_percent_count. lia. Qed.

Lemma leader_thresholds_returns (a : SocialNetworkAnalyzer) :
  nodes (graph a) <> [] ->
  metric_table a "betweenness_centrality" <> [] ->
  let count := top_2_percent_count (number_of_nodes a) in
  let all_degrees := sort_desc inject_Z (map (degree a) (nodes (graph a))) in
  let all_betweenness :=
    sort_desc id (map snd (metric_table a "betweenness_centrality")) in
  exists dt bt,
    leader_thresholds a = Returns (dt, bt)
    /\ all_degrees !! threshold_index count all_degrees = Some dt
    /\ all_betweenness !! threshold_index count all_betweenness = Some bt.
Proof.
  intros Hn Hb count all_degrees all_betweenness.
  pose proof (top_2_percent_count_pos (number_of_nodes a)) as Hc. fold count in Hc.
  assert (0 < len all_degrees) as Hld.
  { unfold len, all_degrees. rewrite sort_desc_length, length_map.
    destruct (nodes (graph a)); [done|simpl; lia]. }
  assert (0 < len all_betweenness) as Hlb.
  { unfold len, all_betweenness. rewrite sort_desc_length, length_map.
    destruct (metric_table a "betweenness_centrality"); [done|simpl; lia]. }
  destruct (py_index_in_range all_degrees (Z.min count (len all_degrees - 1)))
    as (dt & Hdt & Hdt'); [lia|].
  destruct (py_index_in_range all_betweenness (Z.min count (len all_betweenness - 1)))
    as (bt & Hbt & Hbt'); [lia|].
  exists dt, bt. split; [|done].
  unfold leader_thresholds. fold count all_degrees all_betweenness.
  rewrite Hdt. simpl. rewrite Hbt. done.
Qed.

(** The rational model of the cutoff count agrees with the IEEE
    computation of the code on every graph of up to 10000 nodes. *)
Lemma top_2_percent_count_float_agrees :
  forallb (fun N => top_2_percent_count_float N =? top_2_percent_count N)
    (seqZ 0 10001) = true.
Proof. vm_compute. reflexivity. Qed.

(** C1.  The degree threshold and the betweenness threshold of
    [_find_fearless_leader] are the values found at index
    [max(1, floor(0.02*N))] (ranks counted from 0, as the list index of
    the code), clamped to the last index, of the metric's list sorted
    descending; the cutoff count is 2 for N=100, and 1 for N=1 and for
    N=49. *)
Theorem leader_thresholds_correct (a : SocialNetworkAnalyzer) :
  nodes (graph a) <> [] ->
  metric_table a "betweenness_centrality" <> [] ->
  let N := number_of_nodes a in
  let count := Z.max 1 (Qfloor (0.02 * inject_Z N)) in
  exists (all_degrees : list Z) (all_betweenness : list Q) dt bt,
    leader_thresholds a = Returns (dt, bt)
    /\ all_degrees ≡ₚ map (degree a) (nodes (graph a))
    /\ StronglySorted (fun x y => y <= x) all_degrees
    /\ all_degrees !! Z.to_nat (Z.min count (len all_degrees - 1)) = Some dt
    /\ all_betweenness ≡ₚ map snd (metric_table a "betweenness_centrality")
    /\ StronglySorted (fun x y => (y <= x)%Q) all_betweenness
    /\ all_betweenness !! Z.to_nat (Z.min count (len all_betweenness - 1)) = Some bt
    /\ top_2_percent_count N = count
    /\ top_2_percent_count 100 = 2
    /\ top_2_percent_count 1 = 1
    /\ top_2_percent_count 49 = 1.
Proof.
  intros Hn Hb N count.
  destruct (leader_thresholds_returns a Hn Hb) as (dt & bt & Hret & Hdt & Hbt).
  assert (top_2_percent_count N = count) as Hcount.
  { apply top_2_percent_count_floor. apply len_nonneg. }
  fold N in Hdt, Hbt. rewrite Hcount in Hdt, Hbt.
  eexists _, _, dt, bt. split; [exact Hret|].
  split; [apply sort_desc_perm|].
  split.
  { eapply StronglySorted_weaken; [|apply sort_desc_sorted].
    intros x y. unfold desc. by rewrite <- Zle_Qle. }
  split; [exact Hdt|].
  split; [apply sort_desc_perm|].
  split; [apply (sort_desc_sorted id)|].
  split; [exact Hbt|].
  split; [exact Hcount|]. done.
Qed.

(** ** Loops that keep the best candidate seen so far *)

Lemma best_step_best_of (ok : Z -> bool) (score : Z -> Q) (seen : list Z)
    (st : option Z * Q) (x : Z) :
  best_of ok score seen st -> best_of ok score (seen ++ [x]) (best_step ok score st x).
Proof.
  destruct st as [[c|] bs]; unfold best_of, best_step; simpl.
  - intros (Hc & Hok & -> & Hpos & Hmax).
    destruct (ok x) eqn:Hx; simpl.
    + destruct (Qltb (score c) (score x)) eqn:Hlt; simpl.
      * apply Qltb_lt in Hlt.
        split; [set_solver|]. split; [done|]. split; [done|].
        split; [by eapply Qlt_trans|].
        intros n [Hn| ->%list_elem_of_singleton]%elem_of_app Hokn.
        -- eapply Qle_trans; [by apply Hmax|by apply Qlt_le_weak].
        -- apply Qle_refl.
      * apply Qltb_ge in Hlt.
        split; [set_solver|]. split; [done|]. split; [done|]. split; [done|].
        intros n [Hn| ->%list_elem_of_singleton]%elem_of_app Hokn; [by apply Hmax|done].
    + split; [set_solver|]. split; [done|]. split; [done|]. split; [done|].
      intros n [Hn| ->%list_elem_of_singleton]%elem_of_app Hokn; [by apply Hmax|congruence].
  - intros (-> & Hmax).
    destruct (ok x) eqn:Hx; simpl.
    + destruct (Qltb 0 (score x)) eqn:Hlt; simpl.
      * apply Qltb_lt in Hlt.
        split; [set_solver|]. split; [done|]. split; [done|]. split; [done|].
        intros n [Hn| ->%list_elem_of_singleton]%elem_of_app Hokn.
        -- eapply Qle_trans; [by apply Hmax|by apply Qlt_le_weak].
        -- apply Qle_refl.
      * apply Qltb_ge in Hlt. split; [done|].
        intros n [Hn| ->%list_elem_of_singleton]%elem_of_app Hokn; [by apply Hmax|done].
    + split; [done|].
      intros n [Hn| ->%list_elem_of_singleton]%elem_of_app Hokn; [by apply Hmax|congruence].
Qed.

Lemma best_fold_best_of (ok : Z -> bool) (score : Z -> Q) (l : list Z) :
  best_of ok score l (fold_left (best_step ok score) l (None, 0%Q)).
Proof.
  induction l as [|x l IH] using rev_ind.
  - simpl. split; [done|]. by intros n ?%elem_of_nil.
  - rewrite fold_left_app. simpl. by apply best_step_best_of.
Qed.

Lemma leader_step_best_step (a : SocialNetworkAnalyzer) (cfg : Config)
    (exclude_ids : list Z) (dt : Z) (bt : Q) (st : option Z * Q) (n : Z) :
  leader_step a cfg exclude_ids dt bt st n
  = best_step (leader_ok a cfg exclude_ids dt bt) (leader_score a cfg) st n.
Proof.
  unfold leader_step, best_step, leader_ok. destruct st as [bc bs]. simpl.
  destruct (memZ n exclude_ids); simpl; [done|].
  destruct ((fearless_leader_min_contacts cfg <=? degree a n)
            && ((dt <=? degree a n) || Qleb bt (betweenness a n))); [|done].
  by destruct (Qltb bs (leader_score a cfg n)).
Qed.

Lemma leader_fold_best_step (a : SocialNetworkAnalyzer) (cfg : Config)
    (exclude_ids : list Z) (dt : Z) (bt : Q) (l : list Z) (st : option Z * Q) :
  fold_left (leader_step a cfg exclude_ids dt bt) l st
  = fold_left (best_step (leader_ok a cfg exclude_ids dt bt) (leader_score a cfg)) l st.
Proof.
  revert st. induction l as [|x l IH]; intros st; simpl; [done|].
  by rewrite leader_step_best_step, IH.
Qed.

Lemma _find_fearless_leader_pick (a : SocialNetworkAnalyzer) (cfg : Config)
    (dt : Z) (bt : Q) (potential_leaders exclude_ids : list Z) :
  leader_thresholds a = Returns (dt, bt) ->
  _find_fearless_leader a cfg potential_leaders exclude_ids
  = Returns (leader_pick a cfg dt bt potential_leaders exclude_ids).
Proof. intros H. unfold _find_fearless_leader. rewrite H. done. Qed.

Lemma leader_pick_best_of (a : SocialNetworkAnalyzer) (cfg : Config)
    (dt : Z) (bt : Q) (pool exclude_ids : list Z) :
  match leader_pick a cfg dt bt pool exclude_ids with
  | None => forall n, n ∈ pool -> leader_ok a cfg exclude_ids dt bt n = true ->
                      (leader_score a cfg n <= 0)%Q
  | Some c => c ∈ pool /\ leader_ok a cfg exclude_ids dt bt c = true
              /\ (0 < leader_score a cfg c)%Q
              /\ forall n, n ∈ pool -> leader_ok a cfg exclude_ids dt bt n = true ->
                           (leader_score a cfg n <= leader_score a cfg c)%Q
  end.
Proof.
  unfold leader_pick. rewrite leader_fold_best_step.
  pose proof (best_fold_best_of (leader_ok a cfg exclude_ids dt bt)
                (leader_score a cfg) pool) as H.
  unfold best_of in H.
  destruct (fold_left _ pool (None, 0%Q)).1 as [c|]; [|by destruct H].
  destruct H as (? & ? & ? & ? & ?). done.
Qed.

(** ** Leader identification (4.4) *)

Lemma leader_ok_qualifies (a : SocialNetworkAnalyzer) (cfg : Config)
    (exclude_ids : list Z) (dt : Z) (bt : Q) (n : Z) :
  leader_ok a cfg exclude_ids dt bt n = true
  <-> leader_qualifies a cfg exclude_ids dt bt n.
Proof.
  unfold leader_ok, leader_qualifies.
  rewrite !andb_true_iff, orb_true_iff, negb_true_iff, memZ_false,
    !Z.leb_le, Qleb_le. done.
Qed.

Lemma leader_score_refines (a : SocialNetworkAnalyzer) (cfg : Config) (n : Z) :
  (leader_score a cfg n == leader_score_spec a cfg n)%Q.
Proof.
  unfold leader_score, leader_score_spec, is_large_city.
  split_tests; try (exfalso; tauto); ring.
Qed.

Lemma leader_score_pos (a : SocialNetworkAnalyzer) (cfg : Config) (n : Z) :
  1 <= degree a n -> (0 <= betweenness a n)%Q -> (0 < leader_score a cfg n)%Q.
Proof.
  intros Hd Hb. rewrite (Zle_Qle 1) in Hd. change (inject_Z 1) with 1%Q in Hd.
  unfold leader_score. set (d := inject_Z (degree a n)) in *.
  split_tests; lra.
Qed.

(** In an undirected graph the contacts of a node have a contact
    themselves: a pool of neighbours meets the degree hypothesis of the
    theorem below. *)
Lemma neighbour_has_contact (a : SocialNetworkAnalyzer) (n m : Z) :
  undirected a -> m ∈ get_neighbors a n -> 1 <= degree a m.
Proof.
  intros Hu Hm. apply Hu in Hm. unfold degree, len.
  destruct (get_neighbors a m); [by apply elem_of_nil in Hm|].
  simpl. destruct (memZ _ _); lia.
Qed.

(** C2.  For every pool and every exclusion set, [_find_fearless_leader]
    returns a node of the pool that maximises
    [degree + 1000*betweenness] (times 1.2 in a large city) among the
    pool nodes that qualify: not excluded, degree at least
    [min_contacts], and degree or betweenness at least its threshold.
    It returns [None] exactly when no pool node qualifies, in
    particular on the empty pool.  The pool is made of contacts of some
    node, so its nodes have at least one contact (or the configured
    minimum is at least 1), and betweenness is never negative. *)
Theorem _find_fearless_leader_correct (a : SocialNetworkAnalyzer) (cfg : Config)
    (pool exclude_ids : list Z) :
  nodes (graph a) <> [] ->
  metric_table a "betweenness_centrality" <> [] ->
  (forall n, n ∈ pool -> (0 <= betweenness a n)%Q) ->
  (1 <= fearless_leader_min_contacts cfg \/ forall n, n ∈ pool -> 1 <= degree a n) ->
  exists dt bt r,
    leader_thresholds a = Returns (dt, bt)
    /\ _find_fearless_leader a cfg pool exclude_ids = Returns r
    /\ (forall n, (leader_score a cfg n == leader_score_spec a cfg n)%Q)
    /\ (r = None <->
        forall n, n ∈ pool -> ~ leader_qualifies a cfg exclude_ids dt bt n)
    /\ (forall c, r = Some c ->
          c ∈ pool /\ leader_qualifies a cfg exclude_ids dt bt c
          /\ forall n, n ∈ pool -> leader_qualifies a cfg exclude_ids dt bt n ->
               (leader_score_spec a cfg n <= leader_score_spec a cfg c)%Q)
    /\ (pool = [] -> r = None).
Proof.
  intros Hn Htab Hbet Hdeg.
  destruct (leader_thresholds_returns a Hn Htab) as (dt & bt & Hret & _ & _).
  exists dt, bt, (leader_pick a cfg dt bt pool exclude_ids).
  split; [done|]. split; [by apply _find_fearless_leader_pick|].
  split; [apply leader_score_refines|].
  assert (forall n, n ∈ pool -> leader_qualifies a cfg exclude_ids dt bt n ->
                    (0 < leader_score a cfg n)%Q) as Hpos.
  { intros n Hin (_ & Hmin & _). apply leader_score_pos; [|by apply Hbet].
    destruct Hdeg as [Hdeg|Hdeg]; [lia|by apply Hdeg]. }
  pose proof (leader_pick_best_of a cfg dt bt pool exclude_ids) as Hbest.
  destruct (leader_pick a cfg dt bt pool exclude_ids) as [c|].
  - destruct Hbest as (Hc & Hok & Hcpos & Hmax).
    apply leader_ok_qualifies in Hok.
    split; [|split].
    + split; [done|]. intros Hnone. by destruct (Hnone c Hc).
    + intros c' [= <-]. split; [done|]. split; [done|].
      intros n Hin Hq. rewrite <- !leader_score_refines.
      apply Hmax; [done|]. by apply leader_ok_qualifies.
    + intros ->. by apply elem_of_nil in Hc.
  - split; [|split; [done|done]].
    split; [|done]. intros _ n Hin Hq.
    specialize (Hpos n Hin Hq).
    apply leader_ok_qualifies in Hq. specialize (Hbest n Hin Hq).
    apply Qlt_not_le in Hpos. done.
Qed.

(** ** Loops in the [outcome] monad *)

Lemma elem_of_flat_map {A B} (g : A -> list B) (l : list A) (y : B) :
  y ∈ flat_map g l <-> exists x, x ∈ l /\ y ∈ g x.
Proof.
  induction l as [|x l IH]; simpl.
  - split; [by intros ?%elem_of_nil|]. by intros (x & ?%elem_of_nil & _).
  - rewrite elem_of_app, IH. split.
    + intros [Hy|(x' & Hx' & Hy)]; [exists x|exists x']; (split; [|done]).
      * apply list_elem_of_here.
      * by apply list_elem_of_further.
    + intros (x' & [->|Hx']%elem_of_cons & Hy); [by left|right; by exists x'].
Qed.

(** A loop that appends to its accumulator builds a [flat_map]. *)
Lemma for_each_append {A B} (l : list A) (g : A -> list B)
    (body : list B -> A -> outcome (list B)) (acc : list B) :
  (forall acc x, x ∈ l -> body acc x = Returns (acc ++ g x)) ->
  for_each l body acc = Returns (acc ++ flat_map g l).
Proof.
  revert acc. induction l as [|x l IH]; intros acc Hbody; simpl.
  - by rewrite app_nil_r.
  - rewrite Hbody by apply list_elem_of_here. simpl.
    rewrite IH by (intros; apply Hbody; by apply list_elem_of_further).
    by rewrite <- app_assoc.
Qed.

(** A property of the state that every step preserves holds at the end. *)
Lemma for_each_invariant {A S} (I : S -> Prop) (l : list A)
    (body : S -> A -> outcome S) (s s' : S) :
  (forall s x s', x ∈ l -> I s -> body s x = Returns s' -> I s') ->
  I s -> for_each l body s = Returns s' -> I s'.
Proof.
  revert s. induction l as [|x l IH]; intros s Hbody Hs; simpl.
  - by intros [= <-].
  - destruct (body s x) as [s1|] eqn:Hx; simpl; [|done].
    apply IH.
    + intros s2 y s3 Hy. apply Hbody. by apply list_elem_of_further.
    + eapply Hbody; [apply list_elem_of_here|done..].
Qed.

(** A loop whose steps all return, returns. *)
Lemma for_each_returns {A S} (l : list A) (body : S -> A -> outcome S) (s : S) :
  (forall s x, x ∈ l -> exists s', body s x = Returns s') ->
  exists s', for_each l body s = Returns s'.
Proof.
  revert s. induction l as [|x l IH]; intros s Hbody; simpl.
  - by eexists.
  - destruct (Hbody s x) as [s1 ->]; [apply list_elem_of_here|]. simpl.
    apply IH. intros; apply Hbody; by apply list_elem_of_further.
Qed.

(** ** Scenario A (4.5) *)

Section ScenarioA.

Variable a : SocialNetworkAnalyzer.
Variable cfg : Config.
Variables (dt : Z) (bt : Q).
Hypothesis thresholds : leader_thresholds a = Returns (dt, bt).

Lemma potential_boris_filter (employee_neighbors handler_ids : list Z) :
  potential_boris a employee_neighbors handler_ids
  = sort_desc snd
      ((fun n => (n, betweenness a n)) <$>
         filter (fun n => (n ∉ handler_ids) /\ (0.001 < betweenness a n)%Q)
           employee_neighbors).
Proof.
  unfold potential_boris. f_equal.
  rewrite <- (flat_map_if_fmap_filter
                (fun n => negb (memZ n handler_ids) && Qltb 0.001 (betweenness a n))).
  - apply flat_map_ext. intros n.
    destruct (memZ n handler_ids); simpl; [done|].
    by destruct (Qltb 0.001 (betweenness a n)).
  - intros n. by rewrite andb_true_iff, negb_true_iff, memZ_false, Qltb_lt.
Qed.

Lemma potential_boris_candidates (employee_id : Z) (handler_ids : list Z) :
  slice_to 5 (potential_boris a (get_neighbors a employee_id) handler_ids)
  = middleman_candidates_a a employee_id handler_ids.
Proof.
  rewrite slice_to_nonneg by lia. by rewrite potential_boris_filter.
Qed.

Lemma middleman_candidates_a_elem (employee_id : Z) (handler_ids : list Z) (cand : Z * Q) :
  cand ∈ middleman_candidates_a a employee_id handler_ids ->
  cand.1 ∈ get_neighbors a employee_id
  /\ (cand.1 ∉ handler_ids)
  /\ (0.001 < betweenness a cand.1)%Q.
Proof.
  unfold middleman_candidates_a. intros Hc.
  apply elem_of_take in Hc as (i & Hc & _). apply list_elem_of_lookup_2 in Hc.
  apply sort_desc_elem_of, list_elem_of_fmap in Hc as (n & -> & Hn).
  apply list_elem_of_filter in Hn. simpl. tauto.
Qed.

Lemma scenario_a_boris_configurations (employee_id : Z) (handler_ids : list Z)
    (acc : list ScenarioA) (cand : Z * Q) :
  (0.001 < betweenness a cand.1)%Q ->
  scenario_a_boris a cfg employee_id handler_ids acc cand
  = Returns (acc ++ recorded_a a cfg dt bt employee_id handler_ids cand).
Proof.
  intros Hb. unfold scenario_a_boris, recorded_a, rejected_a.
  destruct (Z.eqb_spec cand.1 employee_id) as [He|He].
  { rewrite decide_True by tauto. by rewrite app_nil_r. }
  destruct (Z.ltb_spec 80 (degree a cand.1)) as [Hd|Hd]; simpl.
  { rewrite decide_True by tauto. by rewrite app_nil_r. }
  destruct (Qltb (betweenness a cand.1) 0.001) eqn:Hlt; simpl.
  { apply Qltb_lt in Hlt. lra. }
  rewrite decide_False.
  2:{ intros [?|[?|?]]; [done|lia|lra]. }
  rewrite (_find_fearless_leader_pick a cfg dt bt) by done. simpl.
  destruct (leader_pick _ _ _ _ _ _) as [leader|]; simpl; [|by rewrite app_nil_r].
  destruct (Z.eqb_spec leader 0) as [->|Hl]; simpl.
  - by rewrite app_nil_r.
  - by rewrite decide_False.
Qed.

Lemma scenario_a_combo_configurations (employee_id : Z) (acc : list ScenarioA)
    (handler_combo : list (Z * Q)) :
  scenario_a_combo a cfg employee_id (get_neighbors a employee_id) acc handler_combo
  = Returns (acc ++ recorded_of_triple_a a cfg dt bt employee_id handler_combo.*1).
Proof.
  unfold scenario_a_combo, recorded_of_triple_a.
  rewrite <- potential_boris_candidates.
  change (map fst handler_combo) with (handler_combo.*1).
  set (pb := potential_boris a (get_neighbors a employee_id) handler_combo.*1).
  assert (for_each (slice_to 5 pb)
            (scenario_a_boris a cfg employee_id handler_combo.*1) acc
          = Returns (acc ++ flat_map
                       (recorded_a a cfg dt bt employee_id handler_combo.*1)
                       (slice_to 5 pb))) as Hloop.
  { apply for_each_append. intros acc' cand Hc.
    apply scenario_a_boris_configurations.
    unfold pb in Hc. rewrite potential_boris_candidates in Hc.
    by apply middleman_candidates_a_elem in Hc as (_ & _ & ?). }
  destruct pb eqn:Hpb; [|exact Hloop].
  unfold slice_to. simpl. by rewrite app_nil_r.
Qed.

Lemma detect_scenario_a_refines (employee_id : Z) :
  detect_scenario_a a cfg employee_id = Returns (scenario_a_recorded a cfg dt bt employee_id).
Proof.
  unfold detect_scenario_a, scenario_a_recorded.
  set (hc := _find_handler_candidates a cfg (get_neighbors a employee_id)).
  destruct (Z.ltb_spec (len hc) 3) as [Hlt|Hge].
  { rewrite decide_True; [done|]. unfold len in Hlt. lia. }
  rewrite decide_False by (unfold len in Hge; lia).
  rewrite (for_each_append _
             (fun combo : list (Z * Q) => recorded_of_triple_a a cfg dt bt employee_id combo.*1)).
  - simpl. by rewrite !slice_to_nonneg by lia.
  - intros acc combo _. apply scenario_a_combo_configurations.
Qed.

End ScenarioA.

Lemma recorded_a_elem (a : SocialNetworkAnalyzer) (cfg : Config) (dt : Z) (bt : Q)
    (employee_id : Z) (handler_ids : list Z) (cand : Z * Q) (c : ScenarioA) :
  c ∈ recorded_a a cfg dt bt employee_id handler_ids cand ->
  ~ rejected_a a employee_id cand.1
  /\ leader_pick a cfg dt bt (get_neighbors a cand.1) (handler_ids ++ [employee_id])
     = Some (a_fearless_leader c)
  /\ a_fearless_leader c <> 0
  /\ c = {| a_employee := employee_id; a_handlers := handler_ids;
            a_boris := cand.1; a_fearless_leader := a_fearless_leader c;
            a_score := _score_scenario_a_configuration a cfg employee_id
                         handler_ids cand.1 (a_fearless_leader c) |}.
Proof.
  unfold recorded_a.
  destruct (decide (rejected_a a employee_id cand.1)); [by intros ?%elem_of_nil|].
  destruct (leader_pick _ _ _ _ _ _) as [leader|]; [|by intros ?%elem_of_nil].
  destruct (decide (leader = 0)); [by intros ?%elem_of_nil|].
  intros ->%list_elem_of_singleton. done.
Qed.

(** Where a configuration of the Scenario A result comes from. *)
Lemma scenario_a_recorded_elem (a : SocialNetworkAnalyzer) (cfg : Config) (dt : Z) (bt : Q)
    (employee_id : Z) (c : ScenarioA) :
  c ∈ scenario_a_recorded a cfg dt bt employee_id ->
  exists (combo : list (Z * Q)) (cand : Z * Q),
    combo ∈ combinations 3
              (take 10 (_find_handler_candidates a cfg (get_neighbors a employee_id)))
    /\ cand ∈ middleman_candidates_a a employee_id combo.*1
    /\ c ∈ recorded_a a cfg dt bt employee_id combo.*1 cand.
Proof.
  unfold scenario_a_recorded.
  destruct (decide _); [by intros ?%elem_of_nil|].
  intros Hc. apply elem_of_take in Hc as (i & Hc & _).
  apply list_elem_of_lookup_2, sort_desc_elem_of, elem_of_flat_map in Hc
    as (combo & Hcombo & Hc).
  unfold recorded_of_triple_a in Hc. apply elem_of_flat_map in Hc as (cand & Hcand & Hc).
  by exists combo, cand.
Qed.

Lemma no_zero_contact_neighbors (a : SocialNetworkAnalyzer) (n : Z) :
  no_zero_contact a -> 0 ∉ get_neighbors a n.
Proof.
  intros Hzero. unfold get_neighbors.
  destruct (adj (graph a) !! n) as [nbrs|] eqn:Hn; simpl.
  - exact (map_Forall_lookup_1 _ _ _ _ Hzero Hn).
  - by intros ?%elem_of_nil.
Qed.

(** Where no node has the id 0 among its contacts, the test
    [if leader_candidate:] lets every leader found through, and the
    search records what 4.5 says. *)
Lemma recorded_a_configuration_a (a : SocialNetworkAnalyzer) (cfg : Config)
    (dt : Z) (bt : Q) (employee_id : Z) (handler_ids : list Z) (cand : Z * Q) :
  no_zero_contact a ->
  recorded_a a cfg dt bt employee_id handler_ids cand
  = configuration_a a cfg dt bt employee_id handler_ids cand.
Proof.
  intros Hzero. unfold recorded_a, configuration_a. cbv zeta.
  destruct (decide (rejected_a a employee_id cand.1)); [done|].
  destruct (leader_pick a cfg dt bt _ _) as [leader|] eqn:Hpick; [|done].
  destruct (decide (leader = 0)) as [->|]; [|done].
  pose proof (leader_pick_best_of a cfg dt bt (get_neighbors a cand.1)
                (handler_ids ++ [employee_id])) as Hbest.
  rewrite Hpick in Hbest. destruct Hbest as (Hin & _).
  by apply no_zero_contact_neighbors in Hin.
Qed.

Lemma scenario_a_recorded_spec (a : SocialNetworkAnalyzer) (cfg : Config)
    (dt : Z) (bt : Q) (employee_id : Z) :
  no_zero_contact a ->
  scenario_a_recorded a cfg dt bt employee_id = scenario_a_spec a cfg dt bt employee_id.
Proof.
  intros Hzero. unfold scenario_a_recorded, scenario_a_spec. cbv zeta.
  destruct (decide _); [done|]. do 2 f_equal.
  apply flat_map_ext. intros combo.
  unfold recorded_of_triple_a, configurations_a.
  apply flat_map_ext. intros cand. by apply recorded_a_configuration_a.
Qed.

(** X27.  Where no node has the id 0 among its contacts,
    [detect_scenario_a] returns what 4.5 says.  For each handler triple
    it considers only the first 5, by betweenness, of the employee's
    contacts outside the triple with a betweenness above 0.001; it
    rejects a candidate that is the employee, or has a degree above 80,
    or a betweenness of at most 0.001; it returns all configurations so
    obtained, sorted descending by score and cut to the first 3, and the
    empty list when there are fewer than 3 handler candidates. *)
Theorem detect_scenario_a_correct (a : SocialNetworkAnalyzer) (cfg : Config)
    (employee_id : Z) :
  no_zero_contact a ->
  nodes (graph a) <> [] ->
  metric_table a "betweenness_centrality" <> [] ->
  let handler_candidates :=
    _find_handler_candidates a cfg (get_neighbors a employee_id) in
  exists dt bt result,
    leader_thresholds a = Returns (dt, bt)
    /\ detect_scenario_a a cfg employee_id = Returns result
    /\ result = scenario_a_spec a cfg dt bt employee_id
    /\ ((length handler_candidates < 3)%nat -> result = [])
    /\ ((3 <= length handler_candidates)%nat ->
        result = take 3 (sort_desc a_score
          (flat_map (fun combo : list (Z * Q) =>
                       configurations_a a cfg dt bt employee_id combo.*1)
             (combinations 3 (take 10 handler_candidates)))))
    /\ StronglySorted (desc a_score) result
    /\ (length result <= 3)%nat
    /\ (forall c, c ∈ result ->
          exists (combo : list (Z * Q)) (cand : Z * Q),
            combo ∈ combinations 3 (take 10 handler_candidates)
            /\ a_handlers c = combo.*1
            /\ cand ∈ middleman_candidates_a a employee_id (a_handlers c)
            /\ a_boris c = cand.1
            /\ a_boris c <> employee_id
            /\ degree a (a_boris c) <= 80
            /\ (0.001 < betweenness a (a_boris c))%Q
            /\ leader_pick a cfg dt bt (get_neighbors a (a_boris c))
                 (a_handlers c ++ [employee_id]) = Some (a_fearless_leader c)).
Proof.
  intros Hzero Hn Htab hc.
  destruct (leader_thresholds_returns a Hn Htab) as (dt & bt & Hret & _ & _).
  pose proof (scenario_a_recorded_spec a cfg dt bt employee_id Hzero) as Hspec.
  exists dt, bt, (scenario_a_spec a cfg dt bt employee_id).
  split; [done|].
  split; [rewrite <- Hspec; by apply detect_scenario_a_refines|]. split; [done|].
  split; [|split; [|split; [|split]]].
  - intros Hlt. unfold scenario_a_spec. fold hc. by rewrite decide_True.
  - intros Hge. unfold scenario_a_spec. fold hc. rewrite decide_False by lia. done.
  - unfold scenario_a_spec. destruct (decide _); [constructor|].
    eapply StronglySorted_sublist; [apply sublist_take|apply sort_desc_sorted].
  - unfold scenario_a_spec. destruct (decide _); [simpl; lia|].
    rewrite length_take. lia.
  - intros c Hc. rewrite <- Hspec in Hc.
    apply scenario_a_recorded_elem in Hc as (combo & cand & Hcombo & Hcand & Hc).
    apply recorded_a_elem in Hc as (Hrej & Hpick & _ & Hc).
    exists combo, cand. rewrite Hc. simpl. rewrite Hc in Hpick. simpl in Hpick.
    unfold rejected_a in Hrej.
    split; [done|]. split; [done|]. split; [done|]. split; [done|].
    split; [tauto|]. split; [lia|]. split; [|done].
    by apply middleman_candidates_a_elem in Hcand as (_ & _ & ?).
Qed.

(** ** Scenario B (4.6) *)

Lemma middleman_step_best_step (a : SocialNetworkAnalyzer) (cfg : Config)
    (st : option Z * Q) (n : Z) :
  middleman_step a cfg st n = best_step (middleman_ok a) (middleman_score a cfg) st n.
Proof.
  unfold middleman_step, best_step, middleman_ok, middleman_score.
  destruct st as [bc bs]. simpl.
  destruct ((15 <=? degree a n) && (degree a n <=? 70) && Qltb 0.005 (betweenness a n));
    [|done].
  by destruct (Qltb bs _).
Qed.

Lemma _find_best_middleman_for_handler_ok (a : SocialNetworkAnalyzer) (cfg : Config)
    (pool : list Z) (m : Z) :
  _find_best_middleman_for_handler a cfg pool = Some m ->
  m ∈ pool /\ middleman_ok a m = true.
Proof.
  unfold _find_best_middleman_for_handler.
  assert (forall st, fold_left (middleman_step a cfg) pool st
                     = fold_left (best_step (middleman_ok a) (middleman_score a cfg)) pool st)
    as ->.
  { induction pool as [|x l IH]; intros st; simpl; [done|].
    by rewrite middleman_step_best_step, IH. }
  pose proof (best_fold_best_of (middleman_ok a) (middleman_score a cfg) pool) as H.
  unfold best_of in H. intros Hm. simpl in Hm. rewrite Hm in H. tauto.
Qed.

Lemma middleman_ok_admissible (a : SocialNetworkAnalyzer) (m : Z) :
  middleman_ok a m = true <->
  15 <= degree a m <= 70 /\ (0.005 < betweenness a m)%Q.
Proof.
  unfold middleman_ok. rewrite !andb_true_iff, !Z.leb_le, Qltb_lt. tauto.
Qed.

Lemma middleman_of_spec (a : SocialNetworkAnalyzer) (cfg : Config)
    (employee_id : Z) (handler_ids : list Z) (h m : Z) :
  middleman_of a cfg employee_id handler_ids h = Some m ->
  m ∈ get_neighbors a h /\ m <> employee_id /\ (m ∉ handler_ids)
  /\ 15 <= degree a m <= 70 /\ (0.005 < betweenness a m)%Q.
Proof.
  unfold middleman_of. intros Hm.
  apply _find_best_middleman_for_handler_ok in Hm as [Hin Hok].
  apply list_elem_of_filter in Hin. apply middleman_ok_admissible in Hok. tauto.
Qed.

(** The list [middlemen] holds the result of each handler's search that
    is a node other than 0. *)
Lemma scenario_b_middlemen_unfold (a : SocialNetworkAnalyzer) (cfg : Config)
    (employee_id : Z) (handler_ids : list Z) :
  scenario_b_middlemen a cfg employee_id handler_ids
  = flat_map (fun h =>
      match middleman_of a cfg employee_id handler_ids h with
      | Some m => if decide (m = 0) then [] else [m]
      | None => []
      end) handler_ids.
Proof.
  unfold scenario_b_middlemen, middleman_of. apply flat_map_ext. intros h.
  destruct (_find_best_middleman_for_handler _ _ _) as [m|]; [|done]. simpl.
  destruct (Z.eqb_spec m 0); simpl; [by rewrite decide_True|by rewrite decide_False].
Qed.

Lemma scenario_b_middlemen_three (a : SocialNetworkAnalyzer) (cfg : Config)
    (employee_id h1 h2 h3 m1 m2 m3 : Z) :
  scenario_b_middlemen a cfg employee_id [h1; h2; h3] = [m1; m2; m3] ->
  middleman_of a cfg employee_id [h1; h2; h3] h1 = Some m1
  /\ middleman_of a cfg employee_id [h1; h2; h3] h2 = Some m2
  /\ middleman_of a cfg employee_id [h1; h2; h3] h3 = Some m3.
Proof.
  rewrite scenario_b_middlemen_unfold. simpl.
  destruct (middleman_of a cfg employee_id [h1; h2; h3] h1) as [x1|];
  destruct (middleman_of a cfg employee_id [h1; h2; h3] h2) as [x2|];
  destruct (middleman_of a cfg employee_id [h1; h2; h3] h3) as [x3|];
  repeat (match goal with |- context [decide ?P] => destruct (decide P) end);
  simpl; intros [=]; by subst.
Qed.

Lemma py_set_three_distinct (m0 m1 m2 : Z) :
  len (py_set [m0; m1; m2]) = 3 <-> m0 <> m1 /\ m0 <> m2 /\ m1 <> m2.
Proof.
  unfold py_set, len. cbn [remove_dups].
  repeat case_match; cbn [length].
  all: repeat match goal with H : decide_rel _ _ _ = _ |- _ => clear H end.
  all: rewrite ?elem_of_cons, ?elem_of_nil in *.
  all: split; intros; try lia; try tauto.
Qed.

(** One step of the Scenario B loop either leaves the state alone, or
    records the configuration of three pairwise distinct middlemen and a
    leader found for them, of a score above the best one so far. *)
Lemma scenario_b_combo_cases (set_order : list Z -> list Z)
    (a : SocialNetworkAnalyzer) (cfg : Config) (employee_id : Z)
    (st st' : option ScenarioB * Q) (handler_combo : list (Z * Q)) :
  scenario_b_combo set_order a cfg employee_id st handler_combo = Returns st' ->
  st' = st
  \/ exists m0 m1 m2 leader dt bt,
       scenario_b_middlemen a cfg employee_id handler_combo.*1 = [m0; m1; m2]
       /\ (m0 <> m1 /\ m0 <> m2 /\ m1 <> m2)
       /\ leader_thresholds a = Returns (dt, bt)
       /\ leader_pick a cfg dt bt
            (set_order (leader_pool_b a employee_id handler_combo.*1 m0 m1 m2))
            (exclude_b employee_id handler_combo.*1 m0 m1 m2) = Some leader
       /\ leader <> 0
       /\ (st.2 < b_score (configuration_b a cfg employee_id handler_combo.*1
                             m0 m1 m2 leader))%Q
       /\ st' = (Some (configuration_b a cfg employee_id handler_combo.*1
                         m0 m1 m2 leader),
                 b_score (configuration_b a cfg employee_id handler_combo.*1
                            m0 m1 m2 leader)).
Proof.
  intros Hstep. unfold scenario_b_combo in Hstep.
  destruct st as [best_result best_score].
  change (map fst handler_combo) with (handler_combo.*1) in Hstep.
  set (hs := handler_combo.*1) in *.
  destruct (scenario_b_middlemen a cfg employee_id hs) as [|m0 [|m1 [|m2 [|m3 ms]]]] eqn:Hm;
    try (destruct (_ || _); injection Hstep as <-; by left).
  destruct (len (py_set [m0; m1; m2]) =? 3) eqn:Hset;
    [|injection Hstep as <-; by left].
  apply Z.eqb_eq, py_set_three_distinct in Hset.
  cbv zeta in Hstep.
  change (py_set (hs ++ [employee_id] ++ [m0; m1; m2]))
    with (exclude_b employee_id hs m0 m1 m2) in Hstep.
  change (filter _ (fold_left _ [m1; m2] (py_set (get_neighbors a m0))))
    with (leader_pool_b a employee_id hs m0 m1 m2) in Hstep.
  change (negb (len [m0; m1; m2] =? 3) || negb true) with false in Hstep.
  cbv iota in Hstep.
  destruct (leader_thresholds a) as [[dt bt]|] eqn:Hth.
  2:{ unfold _find_fearless_leader in Hstep. by rewrite Hth in Hstep. }
  rewrite (_find_fearless_leader_pick a cfg dt bt) in Hstep by done.
  cbn [mbind outcome_bind] in Hstep.
  destruct (leader_pick a cfg dt bt _ _) as [leader|] eqn:Hpick;
    [|injection Hstep as <-; by left].
  cbn [truthy] in Hstep.
  destruct (Z.eqb_spec leader 0) as [|Hl]; [injection Hstep as <-; by left|].
  cbn [negb] in Hstep.
  destruct (Qltb best_score _) eqn:Hlt; [|injection Hstep as <-; by left].
  apply Qltb_lt in Hlt. injection Hstep as <-. right.
  exists m0, m1, m2, leader, dt, bt. done.
Qed.

Lemma scenario_b_combo_skip (set_order : list Z -> list Z)
    (a : SocialNetworkAnalyzer) (cfg : Config) (employee_id : Z)
    (st : option ScenarioB * Q) (handler_combo : list (Z * Q)) :
  let middlemen := scenario_b_middlemen a cfg employee_id handler_combo.*1 in
  len middlemen <> 3 \/ len (py_set middlemen) <> 3 ->
  scenario_b_combo set_order a cfg employee_id st handler_combo = Returns st.
Proof.
  intros middlemen Hskip. unfold scenario_b_combo. destruct st as [best_result best_score].
  change (map fst handler_combo) with (handler_combo.*1). fold middlemen.
  assert (negb (len middlemen =? 3) || negb (len (py_set middlemen) =? 3) = true) as ->;
    [|done].
  apply orb_true_iff. rewrite !negb_true_iff, !Z.eqb_neq. done.
Qed.

Lemma combination_triple {A} (l : list A) (c : list A) :
  c ∈ combinations 3 l -> exists x1 x2 x3, c = [x1; x2; x3].
Proof.
  intros [_ Hlen]%combinations_spec.
  destruct c as [|x1 [|x2 [|x3 [|x4 c]]]]; try done. by exists x1, x2, x3.
Qed.

(** C5.  For every handler triple the Scenario B search examines, a
    configuration is recorded (the state of the loop changes) only if
    each of the three middleman searches returned a candidate and the
    three candidates are pairwise distinct; a triple whose three
    candidates include a duplicate is skipped, although every candidate
    a search returns passes the admissibility filter (degree in [15,70]
    and betweenness above 0.005). *)
Theorem scenario_b_distinct_middlemen (set_order : list Z -> list Z)
    (a : SocialNetworkAnalyzer) (cfg : Config) (employee_id : Z)
    (st : option ScenarioB * Q) (handler_combo : list (Z * Q)) :
  handler_combo ∈ combinations 3
    (slice_to 10 (_find_handler_candidates a cfg (get_neighbors a employee_id))) ->
  let found := middleman_of a cfg employee_id handler_combo.*1 in
  (forall st',
     scenario_b_combo set_order a cfg employee_id st handler_combo = Returns st' ->
     st' <> st ->
     exists h1 h2 h3 m1 m2 m3 r,
       handler_combo.*1 = [h1; h2; h3]
       /\ found h1 = Some m1 /\ found h2 = Some m2 /\ found h3 = Some m3
       /\ m1 <> m2 /\ m1 <> m3 /\ m2 <> m3
       /\ st' = (Some r, b_score r)
       /\ b_handlers r = [h1; h2; h3]
       /\ b_boris r = m1 /\ b_morris r = m2 /\ b_horace r = m3)
  /\ (forall h1 h2 h3 m1 m2 m3,
        handler_combo.*1 = [h1; h2; h3] ->
        found h1 = Some m1 -> found h2 = Some m2 -> found h3 = Some m3 ->
        m1 = m2 \/ m1 = m3 \/ m2 = m3 ->
        (forall m, m ∈ [m1; m2; m3] ->
           15 <= degree a m <= 70 /\ (0.005 < betweenness a m)%Q)
        /\ scenario_b_combo set_order a cfg employee_id st handler_combo = Returns st).
Proof.
  intros Hcombo found. split.
  - intros st' Hstep Hne.
    apply scenario_b_combo_cases in Hstep
      as [->|(m1 & m2 & m3 & leader & dt & bt & Hm & Hdist & _ & _ & _ & _ & ->)];
      [done|].
    apply combination_triple in Hcombo as (x1 & x2 & x3 & Hx).
    assert (handler_combo.*1 = [x1.1; x2.1; x3.1]) as Hhs by (by rewrite Hx).
    rewrite Hhs in Hm. apply scenario_b_middlemen_three in Hm as (H1 & H2 & H3).
    exists x1.1, x2.1, x3.1, m1, m2, m3,
      (configuration_b a cfg employee_id handler_combo.*1 m1 m2 m3 leader).
    rewrite <- Hhs in H1, H2, H3. unfold found. simpl. tauto.
  - intros h1 h2 h3 m1 m2 m3 Hhs H1 H2 H3 Hdup. split.
    + intros m Hm. unfold found in *.
      rewrite !elem_of_cons, elem_of_nil in Hm.
      destruct Hm as [->|[->|[->|[]]]];
        match goal with
        | H : middleman_of _ _ _ _ _ = Some ?m |- context [degree a ?m] =>
            apply middleman_of_spec in H; tauto
        end.
    + apply scenario_b_combo_skip. rewrite scenario_b_middlemen_unfold, Hhs.
      unfold found in *. rewrite Hhs in H1, H2, H3. cbn [flat_map].
      rewrite H1, H2, H3.
      destruct (decide (m1 = 0)), (decide (m2 = 0)), (decide (m3 = 0)); cbn [app];
        try (left; unfold len; simpl; lia).
      right. rewrite py_set_three_distinct. tauto.
Qed.

(** ** Distinct role nodes *)

Lemma simple_graph_neighbors (a : SocialNetworkAnalyzer) (n : Z) :
  simple_graph a -> (n ∉ get_neighbors a n) /\ NoDup (get_neighbors a n).
Proof.
  unfold simple_graph, get_neighbors. intros Hs.
  destruct (adj (graph a) !! n) as [nbrs|] eqn:Hn; simpl.
  - by apply (map_Forall_lookup_1 _ _ _ _ Hs Hn).
  - split; [by intros ?%elem_of_nil|constructor].
Qed.

(** The handlers of a triple are three different contacts of the
    employee. *)
Lemma handler_triple_spec (a : SocialNetworkAnalyzer) (cfg : Config)
    (employee_id : Z) (handler_combo : list (Z * Q)) :
  NoDup (get_neighbors a employee_id) ->
  handler_combo ∈ combinations 3
    (slice_to 10 (_find_handler_candidates a cfg (get_neighbors a employee_id))) ->
  exists h1 h2 h3,
    handler_combo.*1 = [h1; h2; h3]
    /\ NoDup [h1; h2; h3]
    /\ forall h, h ∈ [h1; h2; h3] -> h ∈ get_neighbors a employee_id.
Proof.
  intros Hnd Hcombo.
  pose proof (combination_triple _ _ Hcombo) as (x1 & x2 & x3 & Hx).
  apply combinations_spec in Hcombo as [Hsub _].
  assert (handler_combo.*1 `sublist_of`
            (_find_handler_candidates a cfg (get_neighbors a employee_id)).*1) as Hsub'.
  { apply fmap_sublist. etrans; [exact Hsub|apply slice_to_sublist]. }
  exists x1.1, x2.1, x3.1. split; [by rewrite Hx|].
  assert (handler_combo.*1 = [x1.1; x2.1; x3.1]) as <- by (by rewrite Hx).
  split.
  - eapply sublist_NoDup; [|exact Hsub'].
    rewrite _find_handler_candidates_ids. by apply NoDup_filter.
  - intros h Hh. eapply elem_of_sublist in Hh; [|exact Hsub'].
    rewrite _find_handler_candidates_ids in Hh.
    by apply list_elem_of_filter in Hh as [_ ?].
Qed.

Lemma _find_fearless_leader_inv (a : SocialNetworkAnalyzer) (cfg : Config)
    (pool exclude_ids : list Z) (leader : Z) :
  _find_fearless_leader a cfg pool exclude_ids = Returns (Some leader) ->
  leader ∈ pool /\ (leader ∉ exclude_ids).
Proof.
  unfold _find_fearless_leader.
  destruct (leader_thresholds a) as [[dt bt]|] eqn:Hth; [|done].
  cbn [mbind outcome_bind].
  change (fold_left (leader_step a cfg exclude_ids dt bt) pool (None, 0%Q)).1
    with (leader_pick a cfg dt bt pool exclude_ids).
  intros [= Hpick].
  pose proof (leader_pick_best_of a cfg dt bt pool exclude_ids) as H.
  rewrite Hpick in H. destruct H as (Hin & Hok & _).
  apply leader_ok_qualifies in Hok as (Hex & _). done.
Qed.

(** Closes [NoDup [x1; ...; xn]] from the inequalities in the context. *)
Ltac distinct_nodes :=
  repeat (apply NoDup_cons_2;
          [rewrite ?not_elem_of_cons;
           repeat split; try apply not_elem_of_nil; intuition congruence|]);
  apply NoDup_nil_2.

Lemma scenario_a_boris_roles (a : SocialNetworkAnalyzer) (cfg : Config)
    (employee_id h1 h2 h3 : Z) (acc acc' : list ScenarioA) (cand : Z * Q) :
  simple_graph a ->
  NoDup [h1; h2; h3] ->
  (forall h, h ∈ [h1; h2; h3] -> h ∈ get_neighbors a employee_id) ->
  cand.1 ∉ [h1; h2; h3] ->
  Forall (fun c => length (a_handlers c) = 3%nat /\ NoDup (roles_a c)) acc ->
  scenario_a_boris a cfg employee_id [h1; h2; h3] acc cand = Returns acc' ->
  Forall (fun c => length (a_handlers c) = 3%nat /\ NoDup (roles_a c)) acc'.
Proof.
  intros Hsimple Hnd Hnb Hcand Hacc. unfold scenario_a_boris.
  destruct (Z.eqb_spec cand.1 employee_id) as [|Hne]; [by intros [= <-]|].
  destruct (_ || _); [by intros [= <-]|].
  destruct (_find_fearless_leader _ _ _ _) as [[leader|]|] eqn:Hl;
    cbn [mbind outcome_bind]; [|by intros [= <-]|done].
  destruct (truthy (Some leader)); [|by intros [= <-]].
  intros [= <-]. apply Forall_app. split; [done|].
  apply Forall_singleton. split; [done|].
  apply _find_fearless_leader_inv in Hl as [Hin Hex].
  destruct (simple_graph_neighbors a cand.1 Hsimple) as [_ _].
  assert (leader <> cand.1) as Hlb.
  { intros ->. by destruct (simple_graph_neighbors a cand.1 Hsimple) as [? _]. }
  assert (forall h, h ∈ [h1; h2; h3] -> h <> employee_id) as Hhe.
  { intros h Hh ->. apply Hnb in Hh.
    by destruct (simple_graph_neighbors a employee_id Hsimple) as [? _]. }
  assert (h1 <> employee_id) by (apply Hhe; rewrite !elem_of_cons; tauto).
  assert (h2 <> employee_id) by (apply Hhe; rewrite !elem_of_cons; tauto).
  assert (h3 <> employee_id) by (apply Hhe; rewrite !elem_of_cons; tauto).
  unfold roles_a. simpl.
  rewrite !NoDup_cons, !not_elem_of_cons in Hnd.
  rewrite !not_elem_of_cons in Hcand.
  rewrite not_elem_of_app, !not_elem_of_cons in Hex.
  distinct_nodes.
Qed.

Lemma detect_scenario_a_roles (a : SocialNetworkAnalyzer) (cfg : Config)
    (employee_id : Z) (result : list ScenarioA) :
  simple_graph a ->
  detect_scenario_a a cfg employee_id = Returns result ->
  Forall (fun c => length (a_handlers c) = 3%nat /\ NoDup (roles_a c)) result.
Proof.
  intros Hsimple. unfold detect_scenario_a.
  destruct (_ <? 3); [intros [= <-]; constructor|].
  destruct (for_each _ _ _) as [all|] eqn:Hloop; cbn [mbind outcome_bind]; [|done].
  intros [= <-]. rewrite Forall_forall. intros c Hc.
  apply slice_to_elem_of, sort_desc_elem_of in Hc. revert c Hc.
  rewrite <- Forall_forall.
  revert Hloop. apply for_each_invariant; [|constructor].
  intros acc combo acc' Hcombo Hacc. unfold scenario_a_combo.
  destruct (simple_graph_neighbors a employee_id Hsimple) as [_ Hnd].
  destruct (handler_triple_spec a cfg employee_id combo Hnd Hcombo)
    as (h1 & h2 & h3 & Hhs & Hnd3 & Hnb).
  change (map fst combo) with (combo.*1). rewrite Hhs.
  destruct (potential_boris _ _ _) eqn:Hpb; [by intros [= <-]|].
  rewrite <- Hpb. clear Hpb.
  revert Hacc. apply for_each_invariant.
  intros acc1 cand acc2 Hcand. rewrite potential_boris_candidates in Hcand.
  apply middleman_candidates_a_elem in Hcand as (_ & Hcand & _).
  by apply scenario_a_boris_roles.
Qed.

Lemma leader_pick_not_excluded (a : SocialNetworkAnalyzer) (cfg : Config)
    (dt : Z) (bt : Q) (pool exclude_ids : list Z) (leader : Z) :
  leader_pick a cfg dt bt pool exclude_ids = Some leader ->
  leader ∈ pool /\ (leader ∉ exclude_ids).
Proof.
  intros Hpick. pose proof (leader_pick_best_of a cfg dt bt pool exclude_ids) as H.
  rewrite Hpick in H. destruct H as (Hin & Hok & _).
  apply leader_ok_qualifies in Hok as (Hex & _). done.
Qed.

Lemma detect_scenario_b_roles (set_order : list Z -> list Z)
    (a : SocialNetworkAnalyzer) (cfg : Config) (employee_id : Z) (r : ScenarioB) :
  simple_graph a ->
  detect_scenario_b set_order a cfg employee_id = Returns (Some r) ->
  length (b_handlers r) = 3%nat /\ NoDup (roles_b r).
Proof.
  intros Hsimple. unfold detect_scenario_b.
  destruct (_ <? 3); [done|].
  destruct (for_each _ _ _) as [st|] eqn:Hloop; cbn [mbind outcome_bind]; [|done].
  intros [= Hr]. revert r Hr. revert Hloop.
  apply (for_each_invariant
           (fun st => forall r, st.1 = Some r ->
                        length (b_handlers r) = 3%nat /\ NoDup (roles_b r)));
    [|done].
  intros st0 combo st1 Hcombo Hst0 Hstep.
  apply scenario_b_combo_cases in Hstep
    as [->|(m0 & m1 & m2 & leader & dt & bt & Hm & Hdist & _ & Hpick & _ & _ & ->)];
    [done|].
  intros r [= <-].
  destruct (simple_graph_neighbors a employee_id Hsimple) as [Hself Hnd].
  destruct (handler_triple_spec a cfg employee_id combo Hnd Hcombo)
    as (h1 & h2 & h3 & Hhs & Hnd3 & Hnb).
  rewrite Hhs in *. split; [done|].
  apply scenario_b_middlemen_three in Hm as (H0 & H1 & H2).
  apply middleman_of_spec in H0 as (_ & Hm0e & Hm0h & _).
  apply middleman_of_spec in H1 as (_ & Hm1e & Hm1h & _).
  apply middleman_of_spec in H2 as (_ & Hm2e & Hm2h & _).
  apply leader_pick_not_excluded in Hpick as [_ Hex].
  unfold exclude_b, py_set in Hex. rewrite elem_of_remove_dups in Hex.
  rewrite !not_elem_of_app, !not_elem_of_cons in Hex.
  assert (forall h, h ∈ [h1; h2; h3] -> h <> employee_id) as Hhe.
  { intros h Hh ->. by apply Hnb in Hh. }
  assert (h1 <> employee_id) by (apply Hhe; rewrite !elem_of_cons; tauto).
  assert (h2 <> employee_id) by (apply Hhe; rewrite !elem_of_cons; tauto).
  assert (h3 <> employee_id) by (apply Hhe; rewrite !elem_of_cons; tauto).
  rewrite !NoDup_cons, !not_elem_of_cons in Hnd3.
  rewrite !not_elem_of_cons in Hm0h, Hm1h, Hm2h.
  unfold roles_b. simpl.
  distinct_nodes.
Qed.

(** C10.  In a simple graph (no node is its own neighbour, no neighbour
    listed twice) every configuration [detect_scenario_a] returns has
    three handlers and its six role nodes (employee, handlers, middleman,
    leader) pairwise distinct, and every configuration
    [detect_scenario_b] returns has three handlers and its eight role
    nodes (employee, handlers, three middlemen, leader) pairwise
    distinct. *)
Theorem role_nodes_distinct (set_order : list Z -> list Z)
    (a : SocialNetworkAnalyzer) (cfg : Config) (employee_id : Z) :
  simple_graph a ->
  (forall result c,
     detect_scenario_a a cfg employee_id = Returns result -> c ∈ result ->
     length (roles_a c) = 6%nat /\ NoDup (roles_a c))
  /\ (forall r,
        detect_scenario_b set_order a cfg employee_id = Returns (Some r) ->
        length (roles_b r) = 8%nat /\ NoDup (roles_b r)).
Proof.
  intros Hsimple. split.
  - intros result c Hres Hc.
    pose proof (detect_scenario_a_roles a cfg employee_id result Hsimple Hres) as H.
    rewrite Forall_forall in H. destruct (H c Hc) as [Hlen Hnd].
    split; [|done]. unfold roles_a. simpl. rewrite length_app, Hlen. done.
  - intros r Hres.
    destruct (detect_scenario_b_roles set_order a cfg employee_id r Hsimple Hres)
      as [Hlen Hnd].
    split; [|done]. unfold roles_b. simpl. rewrite length_app, Hlen. done.
Qed.

(** ** Orchestration (4.9) *)

Section Orchestration.

Variable set_order : list Z -> list Z.
Variable a : SocialNetworkAnalyzer.
Variable cfg : Config.
Variables (dt : Z) (bt : Q).
Hypothesis thresholds : leader_thresholds a = Returns (dt, bt).

Lemma scenario_b_combo_returns (employee_id : Z) (st : option ScenarioB * Q)
    (handler_combo : list (Z * Q)) :
  exists st', scenario_b_combo set_order a cfg employee_id st handler_combo = Returns st'.
Proof.
  unfold scenario_b_combo. destruct st as [best_result best_score].
  destruct (_ || _); [by eexists|].
  destruct (scenario_b_middlemen _ _ _ _) as [|m0 [|m1 [|m2 [|m3 ms]]]];
    try by eexists.
  cbv zeta. rewrite (_find_fearless_leader_pick a cfg dt bt) by done.
  cbn [mbind outcome_bind].
  destruct (leader_pick _ _ _ _ _ _) as [leader|]; [|by eexists].
  destruct (truthy _); [|by eexists].
  destruct (Qltb _ _); by eexists.
Qed.

Lemma detect_scenario_b_returns (employee_id : Z) :
  exists r, detect_scenario_b set_order a cfg employee_id = Returns r.
Proof.
  unfold detect_scenario_b. destruct (_ <? 3); [by eexists|].
  edestruct (for_each_returns
               (combinations 3 (slice_to 10
                  (_find_handler_candidates a cfg (get_neighbors a employee_id))))
               (scenario_b_combo set_order a cfg employee_id) (None, 0%Q)) as [st Hst].
  { intros st x _. apply scenario_b_combo_returns. }
  rewrite Hst. by eexists.
Qed.

(** What one step of the orchestration loop does to the result bundle. *)
Lemma detect_all_step_value (res : Results) (cand : Z * Q)
    (la : list ScenarioA) (rb : option ScenarioB) :
  is_Some (name_attr (graph a) !! cand.1) ->
  detect_scenario_a a cfg cand.1 = Returns la ->
  detect_scenario_b set_order a cfg cand.1 = Returns rb ->
  detect_all_step set_order a cfg res cand
  = Returns
      {| scenario_a := match la with
                       | [] => scenario_a res
                       | _ => <[cand.1 := la]> (scenario_a res)
                       end;
         scenario_b := match rb with
                       | Some r => <[cand.1 := r]> (scenario_b res)
                       | None => scenario_b res
                       end;
         employee_candidates := employee_candidates res |}.
Proof.
  intros [name Hname] HA HB. unfold detect_all_step, node_name.
  rewrite Hname. cbn [mbind outcome_bind]. rewrite HA, HB. cbn [mbind outcome_bind].
  by destruct res, la, rb.
Qed.

Lemma detect_all_step_entries (candidates seen : list (Z * Q)) (res : Results)
    (cand : Z * Q) :
  is_Some (name_attr (graph a) !! cand.1) ->
  entries_of set_order a cfg candidates seen res ->
  exists res', detect_all_step set_order a cfg res cand = Returns res'
               /\ entries_of set_order a cfg candidates (seen ++ [cand]) res'.
Proof.
  intros Hname (Hc & Ha & Hb).
  pose proof (detect_scenario_a_refines a cfg dt bt thresholds cand.1) as HA.
  destruct (detect_scenario_b_returns cand.1) as [rb HB].
  set (la := scenario_a_recorded a cfg dt bt cand.1) in *.
  eexists. split; [by apply detect_all_step_value|].
  assert (forall e : Z, e ∈ (seen ++ [cand]).*1 <-> e ∈ seen.*1 \/ e = cand.1) as Hseen.
  { intros e. rewrite fmap_app, elem_of_app. simpl. by rewrite list_elem_of_singleton. }
  split; [done|]. cbn [scenario_a scenario_b]. split.
  - intros e l. rewrite Hseen.
    destruct la as [|c la'] eqn:Hla.
    + rewrite Ha. split; [tauto|].
      intros ([?| ->] & Hl & Hret); [done|]. rewrite HA in Hret. by injection Hret as <-.
    + destruct (decide (e = cand.1)) as [->|Hne].
      * rewrite lookup_insert_eq. split.
        -- intros [= <-]. split; [by right|]. split; [done|]. done.
        -- intros (_ & _ & Hret). rewrite HA in Hret. by injection Hret as <-.
      * rewrite lookup_insert_ne by done. rewrite Ha. split; [tauto|].
        intros ([?| ->] & Hl & Hret); done.
  - intros e r. rewrite Hseen.
    destruct rb as [r0|].
    + destruct (decide (e = cand.1)) as [->|Hne].
      * rewrite lookup_insert_eq. split.
        -- intros [= <-]. split; [by right|done].
        -- intros (_ & Hret). rewrite HB in Hret. by injection Hret as <-.
      * rewrite lookup_insert_ne by done. rewrite Hb. split; [tauto|].
        intros ([?| ->] & Hret); done.
    + rewrite Hb. split; [tauto|].
      intros ([?| ->] & Hret); [done|]. rewrite HB in Hret. done.
Qed.

Lemma detect_all_loop_entries (candidates seen todo : list (Z * Q)) (res : Results) :
  (forall cand, cand ∈ todo -> is_Some (name_attr (graph a) !! cand.1)) ->
  entries_of set_order a cfg candidates seen res ->
  exists res', for_each todo (detect_all_step set_order a cfg) res = Returns res'
               /\ entries_of set_order a cfg candidates (seen ++ todo) res'.
Proof.
  revert seen res. induction todo as [|cand todo IH]; intros seen res Hnames Hent.
  - exists res. by rewrite app_nil_r.
  - destruct (detect_all_step_entries candidates seen res cand) as (res1 & Hstep & Hent1);
      [apply Hnames, list_elem_of_here|done|].
    destruct (IH (seen ++ [cand]) res1) as (res' & Hloop & Hent');
      [intros; by apply Hnames, list_elem_of_further|done|].
    exists res'. simpl. rewrite Hstep. cbn [mbind outcome_bind].
    split; [done|]. by rewrite <- app_assoc in Hent'.
Qed.

End Orchestration.

Lemma few_handlers_no_pattern (set_order : list Z -> list Z)
    (a : SocialNetworkAnalyzer) (cfg : Config) (employee_id : Z) :
  (length (_find_handler_candidates a cfg (get_neighbors a employee_id)) < 3)%nat ->
  detect_scenario_a a cfg employee_id = Returns []
  /\ detect_scenario_b set_order a cfg employee_id = Returns None.
Proof.
  intros Hlt. unfold detect_scenario_a, detect_scenario_b.
  destruct (Z.ltb_spec
              (len (_find_handler_candidates a cfg (get_neighbors a employee_id))) 3);
    [done|]. unfold len in *. lia.
Qed.

(** C8.  [detect_all_patterns] runs both searches for exactly the first
    5 employee candidates: the Scenario A map holds, under an employee
    id, the non-empty list that [detect_scenario_a] returns for it, the
    Scenario B map the configuration that [detect_scenario_b] returns
    for it, and the bundle carries the full candidate list; an employee
    with fewer than 3 handler candidates has no entry in either map,
    whatever the other employees contribute. *)
Theorem detect_all_patterns_correct (set_order : list Z -> list Z)
    (a : SocialNetworkAnalyzer) (cfg : Config) :
  nodes (graph a) <> [] ->
  metric_table a "betweenness_centrality" <> [] ->
  (forall n, n ∈ nodes (graph a) -> is_Some (name_attr (graph a) !! n)) ->
  let candidates := identify_employee_candidates a cfg in
  let top5 := (take 5 candidates).*1 in
  exists res,
    detect_all_patterns set_order a cfg = Returns res
    /\ employee_candidates res = candidates
    /\ (forall e l, scenario_a res !! e = Some l <->
          e ∈ top5 /\ l <> [] /\ detect_scenario_a a cfg e = Returns l)
    /\ (forall e r, scenario_b res !! e = Some r <->
          e ∈ top5 /\ detect_scenario_b set_order a cfg e = Returns (Some r))
    /\ (forall e,
          (length (_find_handler_candidates a cfg (get_neighbors a e)) < 3)%nat ->
          scenario_a res !! e = None /\ scenario_b res !! e = None).
Proof.
  intros Hn Htab Hnames candidates top5.
  destruct (leader_thresholds_returns a Hn Htab) as (dt & bt & Hth & _ & _).
  destruct (detect_all_loop_entries set_order a cfg dt bt Hth candidates []
              (slice_to 5 candidates)
              {| scenario_a := ∅; scenario_b := ∅; employee_candidates := candidates |})
    as (res & Hloop & Hc & Ha & Hb).
  - intros cand Hcand. apply Hnames. apply slice_to_elem_of in Hcand.
    assert (cand.1 ∈ candidates.*1) as Hin by (apply list_elem_of_fmap; eauto).
    by apply identify_employee_candidates_ids in Hin as [? _].
  - split; [done|]. cbn [scenario_a scenario_b]. split.
    + intros e l. rewrite lookup_empty. split; [done|]. by intros [?%elem_of_nil _].
    + intros e r. rewrite lookup_empty. split; [done|]. by intros [?%elem_of_nil _].
  - rewrite app_nil_l, slice_to_nonneg in Ha, Hb by lia.
    exists res. split; [exact Hloop|]. split; [done|]. split; [done|]. split; [done|].
    intros e Hfew.
    destruct (few_handlers_no_pattern set_order a cfg e Hfew) as [HA HB]. split.
    + destruct (scenario_a res !! e) as [l|] eqn:Hl; [|done].
      apply Ha in Hl as (_ & Hne & Hret). rewrite HA in Hret. by injection Hret as <-.
    + destruct (scenario_b res !! e) as [r|] eqn:Hr; [|done].
      apply Hb in Hr as (_ & Hret). rewrite HB in Hret. done.
Qed.

(** ** What the Scenario B search returns *)

Section ScenarioB.

Variable set_order : list Z -> list Z.
Variable a : SocialNetworkAnalyzer.
Variable cfg : Config.
Variables (dt : Z) (bt : Q).
Hypothesis thresholds : leader_thresholds a = Returns (dt, bt).





End ScenarioB.



(** The exception at work.  On network B with node 8, moved to a large
    city, renamed 0, the triple (2, 3, 4) of employee 1 has a
    configuration of score 5 whose leader is the node 0, and
    [detect_scenario_b] returns [None]: the test [if leader_candidate:]
    is false for the id 0. *)
Example detect_scenario_b_leader_zero :
  leader_thresholds ZeroId.net_b0 = Returns (15, 0.006%Q)
  /\ (exists c,
        configuration_of_triple_b ZeroId.net_b0 Examples.cfg_b id 15 0.006%Q 1 [2; 3; 4]
        = Some c
        /\ b_fearless_leader c = 0 /\ (b_score c == 5)%Q)
  /\ detect_scenario_b id ZeroId.net_b0 Examples.cfg_b 1 = Returns None.
Proof.
  split; [vm_compute; reflexivity|]. split; [|vm_compute; reflexivity].
  eexists. split; [vm_compute; reflexivity|]. split; vm_compute; reflexivity.
Qed.

(** ** Runs on the two networks *)

Import Examples.

Lemma net_a_nodes : nodes (graph net_a) <> [].
Proof. done. Qed.

Lemma net_a_betweenness : metric_table net_a "betweenness_centrality" <> [].
Proof. vm_compute. done. Qed.

Lemma net_a_names (n : Z) :
  n ∈ nodes (graph net_a) -> is_Some (name_attr (graph net_a) !! n).
Proof.
  revert n. apply Forall_forall, (bool_decide_unpack _). vm_compute. exact I.
Qed.

(** C1 on network A: six nodes, cutoff count 1, thresholds 2 and 0.6. *)
Lemma leader_thresholds_correct_witness :
  exists dt bt, leader_thresholds net_a = Returns (dt, bt) /\ dt = 2 /\ (bt == 0.6)%Q.
Proof.
  destruct (leader_thresholds_correct net_a net_a_nodes net_a_betweenness)
    as (ds & bs & dt & bt & Hret & _).
  exists dt, bt. split; [exact Hret|].
  vm_compute in Hret. injection Hret as <- <-. split; reflexivity.
Defined.

(** C2 on network A: among the contacts of node 5, node 6 is the leader. *)
Lemma _find_fearless_leader_correct_witness :
  exists r, _find_fearless_leader net_a cfg_a [1; 6] [2; 3; 4; 1] = Returns r
            /\ r = Some 6.
Proof.
  destruct (_find_fearless_leader_correct net_a cfg_a [1; 6] [2; 3; 4; 1]
              net_a_nodes net_a_betweenness)
    as (dt & bt & r & _ & Hr & _).
  - apply Forall_forall, (bool_decide_unpack _). vm_compute. exact I.
  - left. vm_compute. discriminate.
  - exists r. split; [exact Hr|].
    vm_compute in Hr. by injection Hr as <-.
Defined.

(** C3 on network A with the window [2,4]: nodes 1 (degree 4) and 5
    (degree 2) sit on the endpoints, node 2 (degree 1) is just below. *)
Lemma identify_employee_candidates_correct_witness :
  1 ∈ (identify_employee_candidates net_a cfg_a_wide).*1
  /\ 5 ∈ (identify_employee_candidates net_a cfg_a_wide).*1
  /\ 2 ∉ (identify_employee_candidates net_a cfg_a_wide).*1.
Proof.
  destruct (identify_employee_candidates_correct net_a cfg_a_wide)
    as (_ & _ & _ & Hin & Hout).
  split; [|split].
  - apply Hin; [apply (bool_decide_unpack _); vm_compute; exact I|simpl; lia|].
    right. reflexivity.
  - apply Hin; [apply (bool_decide_unpack _); vm_compute; exact I|simpl; lia|].
    left. reflexivity.
  - apply Hout. reflexivity.
Defined.

(** C9 as amended, on network A. *)
Lemma get_top_nodes_by_metric_correct_witness :
  get_top_nodes_by_metric net_a "pagerank" 2 = []
  /\ exists rest,
       get_top_nodes_by_metric net_a "betweenness_centrality" 2 ++ rest
         ≡ₚ betweenness_a
       /\ length (get_top_nodes_by_metric net_a "betweenness_centrality" 2) = 2%nat.
Proof.
  split.
  - apply (get_top_nodes_by_metric_correct net_a "pagerank" 2). reflexivity.
  - destruct (get_top_nodes_by_metric_correct net_a "betweenness_centrality" 2)
      as [_ H].
    destruct (H betweenness_a) as (_ & rest & Hperm & _ & Hlen); [reflexivity|lia|].
    exists rest. split; [exact Hperm|exact Hlen].
Defined.

(** C9 as stated fails: for the unknown metric name [pagerank] the helper
    returns the empty list, the very value it returns for the known
    metric [eigenvector_centrality], whose table is empty (as it is when
    the computation did not converge); the caller cannot tell the two
    apart. *)
Lemma get_top_nodes_by_metric_unknown_is_empty :
  metrics net_a !! "pagerank"%string = None
  /\ is_Some (metrics net_a !! "eigenvector_centrality"%string)
  /\ get_top_nodes_by_metric net_a "pagerank" 10 = []
  /\ get_top_nodes_by_metric net_a "pagerank" 10
     = get_top_nodes_by_metric net_a "eigenvector_centrality" 10.
Proof. vm_compute. repeat split. by eexists. Qed.

Lemma triple_b_examined :
  triple_b ∈ combinations 3
    (slice_to 10 (_find_handler_candidates net_b_city cfg_b (get_neighbors net_b_city 1))).
Proof. vm_compute. apply list_elem_of_here. Qed.

Lemma net_b_city_thresholds : leader_thresholds net_b_city = Returns (15, 0.006%Q).
Proof. vm_compute. reflexivity. Qed.

(** C5 on network B: the triple (2, 3, 4) is recorded, with three
    distinct middlemen. *)
Lemma scenario_b_distinct_middlemen_witness :
  exists m1 m2 m3 r,
    m1 <> m2 /\ m1 <> m3 /\ m2 <> m3
    /\ scenario_b_combo id net_b_city cfg_b 1 (None, 0%Q) triple_b
       = Returns (Some r, b_score r)
    /\ b_boris r = m1 /\ b_morris r = m2 /\ b_horace r = m3.
Proof.
  destruct (scenario_b_distinct_middlemen id net_b_city cfg_b 1 (None, 0%Q) triple_b
              triple_b_examined) as [Hrec _].
  destruct (scenario_b_combo_returns id net_b_city cfg_b 15 0.006%Q
              net_b_city_thresholds 1 (None, 0%Q) triple_b) as [st' Hstep].
  destruct (Hrec st' Hstep) as (h1 & h2 & h3 & m1 & m2 & m3 & r & _ & _ & _ & _
                                & H12 & H13 & H23 & -> & _ & Hb & Hm & Hh).
  - vm_compute in Hstep. injection Hstep as <-. discriminate.
  - exists m1, m2, m3, r. split; [exact H12|]. split; [exact H13|]. split; [exact H23|].
    split; [exact Hstep|]. split; [exact Hb|]. split; [exact Hm|exact Hh].
Defined.

Lemma net_a_no_zero : no_zero_contact net_a.
Proof. unfold no_zero_contact. apply (bool_decide_unpack _). vm_compute. exact I. Qed.

(** X27 on network A: one configuration for employee 1. *)
Lemma detect_scenario_a_correct_witness :
  exists result, detect_scenario_a net_a cfg_a 1 = Returns result
                 /\ length result = 1%nat.
Proof.
  destruct (detect_scenario_a_correct net_a cfg_a 1 net_a_no_zero net_a_nodes
              net_a_betweenness)
    as (dt & bt & result & _ & Hret & _).
  exists result. split; [exact Hret|].
  vm_compute in Hret. by injection Hret as <-.
Defined.

(** C7, at the failing input.  On network A with node 6 renamed 0, the
    handler triple (2, 3, 4) of employee 1 has the one middleman
    candidate 5, which is not rejected, and the leader search among the
    contacts of 5 finds the node 0: 4.5 gives one valid configuration,
    which the returned list should hold.  The test
    [if leader_candidate:] of the code is false for the node id 0, so
    nothing is recorded and [detect_scenario_a] returns the empty
    list. *)
Theorem detect_scenario_a_drops_leader_zero :
  (leader_thresholds ZeroId.net_a0 = Returns (2, 0.6%Q)
   /\ (fun combo : list (Z * Q) => combo.*1)
        <$> combinations 3
              (slice_to 10 (_find_handler_candidates ZeroId.net_a0 cfg_a
                              (get_neighbors ZeroId.net_a0 1)))
      = [[5; 2; 3]; [5; 2; 4]; [5; 3; 4]; [2; 3; 4]]
   /\ (middleman_candidates_a ZeroId.net_a0 1 [2; 3; 4]).*1 = [5]
   /\ 5 <> 1 /\ degree ZeroId.net_a0 5 <= 80
   /\ (0.001 < betweenness ZeroId.net_a0 5)%Q
   /\ _find_fearless_leader ZeroId.net_a0 cfg_a (get_neighbors ZeroId.net_a0 5)
        ([2; 3; 4] ++ [1]) = Returns (Some 0)
   /\ scenario_a_spec ZeroId.net_a0 cfg_a 2 0.6%Q 1
      = [{| a_employee := 1; a_handlers := [2; 3; 4]; a_boris := 5;
            a_fearless_leader := 0;
            a_score := _score_scenario_a_configuration ZeroId.net_a0 cfg_a 1
                         [2; 3; 4] 5 0 |}])
  /\ detect_scenario_a ZeroId.net_a0 cfg_a 1 = Returns [].
Proof.
  split; [|vm_compute; reflexivity]. vm_compute. repeat split; try discriminate.
Qed.

(** C8 on network A: employee 1 has a Scenario A entry and no Scenario B
    entry. *)
Lemma detect_all_patterns_correct_witness :
  exists res, detect_all_patterns id net_a cfg_a = Returns res
              /\ employee_candidates res = identify_employee_candidates net_a cfg_a
              /\ is_Some (scenario_a res !! 1)
              /\ scenario_b res !! 1 = None.
Proof.
  destruct (detect_all_patterns_correct id net_a cfg_a net_a_nodes net_a_betweenness
              net_a_names) as (res & Hret & Hc & Ha & Hb & _).
  exists res. split; [exact Hret|]. split; [exact Hc|]. split.
  - eexists. apply Ha. split; [|split].
    + apply (bool_decide_unpack _). vm_compute. exact I.
    + shelve.
    + vm_compute. reflexivity.
    Unshelve. discriminate.
  - destruct (scenario_b res !! 1) as [r|] eqn:Hr; [|done].
    apply Hb in Hr as [_ Hr]. vm_compute in Hr. discriminate.
Defined.

Lemma net_a_simple : simple_graph net_a.
Proof. unfold simple_graph. apply (bool_decide_unpack _). vm_compute. exact I. Qed.

Lemma net_b_city_simple : simple_graph net_b_city.
Proof. unfold simple_graph. apply (bool_decide_unpack _). vm_compute. exact I. Qed.

(** C10 on networks A and B. *)
Lemma role_nodes_distinct_witness :
  (exists c, detect_scenario_a net_a cfg_a 1 = Returns [c] /\ NoDup (roles_a c))
  /\ (exists r, detect_scenario_b id net_b_city cfg_b 1 = Returns (Some r)
                /\ NoDup (roles_b r)).
Proof.
  split.
  - eexists. split; [vm_compute; reflexivity|].
    eapply (role_nodes_distinct id net_a cfg_a 1 net_a_simple).
    + vm_compute. reflexivity.
    + apply list_elem_of_here.
  - eexists. split; [vm_compute; reflexivity|].
    apply (role_nodes_distinct id net_b_city cfg_b 1 net_b_city_simple).
    vm_compute. reflexivity.
Defined.

(** *** Scenario B on network B: a valid configuration of score 0 *)

Lemma degree_bound (a : SocialNetworkAnalyzer) (k : Z) :
  0 <= k ->
  map_Forall (fun _ nbrs => len nbrs < k) (adj (graph a)) ->
  forall n, degree a n <= k.
Proof.
  intros Hk Hall n. unfold degree, get_neighbors.
  destruct (adj (graph a) !! n) as [nbrs|] eqn:Hn; simpl.
  - apply (map_Forall_lookup_1 _ _ _ _ Hall) in Hn. destruct (memZ n nbrs); lia.
  - unfold len, memZ. simpl. lia.
Qed.

Lemma net_b_degree (n : Z) : degree net_b n <= 99.
Proof.
  apply degree_bound; [lia|]. apply (bool_decide_unpack _). vm_compute. exact I.
Qed.

Lemma net_b_score_zero (leader : Z) :
  _score_scenario_b_configuration net_b cfg_b 1 [2; 3; 4] [5; 6; 7] leader = 0%Q.
Proof.
  unfold _score_scenario_b_configuration, _score_geographic_pattern.
  assert ((100 <=? degree net_b leader) = false) as ->.
  { apply Z.leb_gt. pose proof (net_b_degree leader). lia. }
  assert (city net_b leader = ""%string) as ->.
  { unfold city. simpl. by rewrite lookup_empty. }
  vm_compute. reflexivity.
Qed.

Lemma net_b_thresholds : leader_thresholds net_b = Returns (15, 0.006%Q).
Proof. vm_compute. reflexivity. Qed.

Lemma detect_scenario_b_net_b (set_order : list Z -> list Z) :
  detect_scenario_b set_order net_b cfg_b 1 = Returns None.
Proof.
  unfold detect_scenario_b.
  change (_find_handler_candidates net_b cfg_b (get_neighbors net_b 1)) with triple_b.
  change (len triple_b <? 3) with false. cbv iota.
  change (combinations 3 (slice_to 10 triple_b)) with [triple_b].
  cbn [for_each].
  destruct (scenario_b_combo_returns set_order net_b cfg_b 15 0.006%Q
              net_b_thresholds 1 (None, 0%Q) triple_b)
    as [st' Hstep].
  rewrite Hstep. cbn [mbind outcome_bind].
  apply scenario_b_combo_cases in Hstep
    as [->|(m0 & m1 & m2 & leader & dt & bt & Hm & _ & _ & _ & _ & Hlt & _)]; [done|].
  change (scenario_b_middlemen net_b cfg_b 1 triple_b.*1) with [5; 6; 7] in Hm.
  injection Hm as <- <- <-.
  unfold configuration_b in Hlt. cbn [b_score fst snd] in Hlt.
  change (triple_b.*1) with [2; 3; 4] in Hlt.
  rewrite net_b_score_zero in Hlt. by apply Qlt_irrefl in Hlt.
Qed.

(** C6, at the failing input.  On network B with no city recorded, the
    one handler triple (2, 3, 4) of employee 1 yields the three distinct
    middlemen 5, 6, 7 and the leader 8, a configuration of score 0; the
    loop starts from [best_score = 0] and records only a strictly
    greater score, so [detect_scenario_b] returns [None], whatever the
    enumeration order of the leader pool. *)
Theorem detect_scenario_b_drops_zero_score :
  (combinations 3
     (slice_to 10 (_find_handler_candidates net_b cfg_b (get_neighbors net_b 1)))
   = [triple_b]
   /\ triple_b.*1 = [2; 3; 4]
   /\ scenario_b_middlemen net_b cfg_b 1 [2; 3; 4] = [5; 6; 7]
   /\ _find_fearless_leader net_b cfg_b (leader_pool_b net_b 1 [2; 3; 4] 5 6 7)
        (exclude_b 1 [2; 3; 4] 5 6 7) = Returns (Some 8)
   /\ _score_scenario_b_configuration net_b cfg_b 1 [2; 3; 4] [5; 6; 7] 8 = 0%Q)
  /\ forall set_order : list Z -> list Z,
       detect_scenario_b set_order net_b cfg_b 1 = Returns None.
Proof.
  split; [vm_compute; repeat split|]. apply detect_scenario_b_net_b.
Qed.

(** With node 8 in a large city the same configuration scores 5 and is
    returned. *)
Example detect_scenario_b_net_b_city :
  detect_scenario_b id net_b_city cfg_b 1
  = Returns (Some (configuration_b net_b_city cfg_b 1 [2; 3; 4] 5 6 7 8)).
Proof. vm_compute. reflexivity. Qed.

(** * Further properties

    Properties of the rest of the analyzer, of [build_graph], of the
    geospatial analyzer, of the loops of the detector and of the
    conclusion of the report. *)

(** ** [build_graph] *)

Lemma nx_ensure_node_nodes (g : Graph) (k x : Z) :
  x ∈ nodes (nx_ensure_node g k) <-> x ∈ nodes g \/ x = k.
Proof.
  unfold nx_ensure_node. destruct (memZ k (nodes g)) eqn:Hk; simpl.
  - apply memZ_true in Hk. split; [by left|]. by intros [?| ->].
  - by rewrite elem_of_app, list_elem_of_singleton.
Qed.

Lemma nx_ensure_node_NoDup (g : Graph) (k : Z) :
  NoDup (nodes g) -> NoDup (nodes (nx_ensure_node g k)).
Proof.
  unfold nx_ensure_node. destruct (memZ k (nodes g)) eqn:Hk; simpl; [done|].
  apply memZ_false in Hk. intros Hnd. apply NoDup_app. split; [done|].
  split; [|apply NoDup_singleton].
  intros x Hx ->%list_elem_of_singleton. done.
Qed.

Lemma nx_ensure_node_adj_keys (g : Graph) (k : Z) :
  adj_keys g -> adj_keys (nx_ensure_node g k).
Proof.
  intros Hkeys n. rewrite nx_ensure_node_nodes. specialize (Hkeys n).
  unfold nx_ensure_node. destruct (memZ k (nodes g)) eqn:Hk; simpl.
  - apply memZ_true in Hk. split; [intros [?| ->]; tauto|tauto].
  - destruct (decide (n = k)) as [->|Hne].
    + rewrite lookup_insert_eq. split; [by eexists|by right].
    + rewrite lookup_insert_ne by done. tauto.
Qed.

Lemma nx_ensure_node_nbrs (g : Graph) (k n : Z) :
  adj_keys g -> nbrs_of (nx_ensure_node g k) n = nbrs_of g n.
Proof.
  intros Hkeys. unfold nbrs_of, nx_ensure_node.
  destruct (memZ k (nodes g)) eqn:Hk; simpl; [done|].
  apply memZ_false in Hk.
  destruct (decide (n = k)) as [->|Hne].
  - rewrite lookup_insert_eq. simpl.
    destruct (adj g !! k) eqn:Hl; [|done].
    exfalso. apply Hk, Hkeys. by eexists.
  - by rewrite lookup_insert_ne.
Qed.

Lemma dict_add_key_elem (keys : list Z) (k x : Z) :
  x ∈ dict_add_key keys k <-> x ∈ keys \/ x = k.
Proof.
  unfold dict_add_key. destruct (memZ k keys) eqn:Hk.
  - apply memZ_true in Hk. split; [by left|]. by intros [?| ->].
  - by rewrite elem_of_app, list_elem_of_singleton.
Qed.

Lemma dict_add_key_NoDup (keys : list Z) (k : Z) :
  NoDup keys -> NoDup (dict_add_key keys k).
Proof.
  unfold dict_add_key. destruct (memZ k keys) eqn:Hk; [done|].
  apply memZ_false in Hk. intros Hnd. apply NoDup_app. split; [done|].
  split; [|apply NoDup_singleton].
  intros x Hx ->%list_elem_of_singleton. done.
Qed.

(** The neighbours after [add_edge], in terms of the graph with both
    ends created. *)
Lemma nx_add_edge_nbrs_eq (g : Graph) (u v n : Z) :
  let g2 := nx_ensure_node (nx_ensure_node g u) v in
  nbrs_of (nx_add_edge g u v) n
  = if decide (n = v) then
      dict_add_key (if decide (v = u) then dict_add_key (nbrs_of g2 u) v
                    else nbrs_of g2 v) u
    else if decide (n = u) then dict_add_key (nbrs_of g2 u) v
    else nbrs_of g2 n.
Proof.
  intros g2. unfold nx_add_edge, nbrs_of. fold g2. simpl.
  destruct (decide (n = v)) as [->|Hnv].
  - rewrite lookup_insert_eq. simpl.
    destruct (decide (v = u)) as [->|Hvu].
    + by rewrite lookup_insert_eq.
    + by rewrite lookup_insert_ne.
  - rewrite lookup_insert_ne by done.
    destruct (decide (n = u)) as [->|Hnu].
    + by rewrite lookup_insert_eq.
    + by rewrite lookup_insert_ne.
Qed.

Lemma nx_add_edge_nbrs (g : Graph) (u v n m : Z) :
  adj_keys g ->
  m ∈ nbrs_of (nx_add_edge g u v) n
  <-> m ∈ nbrs_of g n \/ (n = u /\ m = v) \/ (n = v /\ m = u).
Proof.
  intros Hkeys. rewrite nx_add_edge_nbrs_eq.
  pose proof (nx_ensure_node_adj_keys g u Hkeys) as Hkeys1.
  rewrite !(nx_ensure_node_nbrs _ v) by done.
  rewrite !(nx_ensure_node_nbrs _ u) by done.
  repeat case_decide; subst; rewrite ?dict_add_key_elem; intuition congruence.
Qed.

Lemma nx_add_edge_nbrs_NoDup (g : Graph) (u v n : Z) :
  adj_keys g -> (forall n, NoDup (nbrs_of g n)) ->
  NoDup (nbrs_of (nx_add_edge g u v) n).
Proof.
  intros Hkeys Hnd. rewrite nx_add_edge_nbrs_eq.
  pose proof (nx_ensure_node_adj_keys g u Hkeys) as Hkeys1.
  rewrite !(nx_ensure_node_nbrs _ v) by done.
  rewrite !(nx_ensure_node_nbrs _ u) by done.
  repeat case_decide; subst; repeat apply dict_add_key_NoDup; apply Hnd.
Qed.

Lemma nx_add_edge_nodes (g : Graph) (u v x : Z) :
  x ∈ nodes (nx_add_edge g u v) <-> x ∈ nodes g \/ x = u \/ x = v.
Proof.
  unfold nx_add_edge. simpl. rewrite !nx_ensure_node_nodes. tauto.
Qed.

Lemma nx_add_edge_NoDup (g : Graph) (u v : Z) :
  NoDup (nodes g) -> NoDup (nodes (nx_add_edge g u v)).
Proof.
  intros Hnd. unfold nx_add_edge. simpl. by do 2 apply nx_ensure_node_NoDup.
Qed.

Lemma nx_add_edge_adj_keys (g : Graph) (u v : Z) :
  adj_keys g -> adj_keys (nx_add_edge g u v).
Proof.
  intros Hkeys n. rewrite nx_add_edge_nodes.
  pose proof (nx_ensure_node_adj_keys _ v (nx_ensure_node_adj_keys g u Hkeys)) as Hkeys2.
  unfold nx_add_edge. simpl.
  destruct (decide (n = v)) as [->|Hnv].
  { rewrite lookup_insert_eq. split; [by eexists|tauto]. }
  rewrite lookup_insert_ne by done.
  destruct (decide (n = u)) as [->|Hnu].
  { rewrite lookup_insert_eq. split; [by eexists|tauto]. }
  rewrite lookup_insert_ne by done. specialize (Hkeys2 n).
  rewrite !nx_ensure_node_nodes in Hkeys2. tauto.
Qed.

Lemma nx_add_edge_attrs (g : Graph) (u v : Z) :
  name_attr (nx_add_edge g u v) = name_attr g
  /\ city_attr (nx_add_edge g u v) = city_attr g.
Proof.
  unfold nx_add_edge, nx_ensure_node. simpl.
  by destruct (memZ u (nodes g)); simpl; destruct (memZ v _).
Qed.

Lemma nx_add_node_entered (seen : list (Z * string * string)) (g : Graph)
    (row : Z * string * string) :
  entities_entered seen g ->
  entities_entered (seen ++ [row]) (nx_add_node g row.1.1 row.1.2).
Proof.
  intros (Hkeys & Hnd & Hnb & Hnodes & Hnames & Hname & Hlast & Hcity).
  destruct row as [[id name] type]. cbn [fst snd].
  assert (forall n, n ∈ entity_ids (seen ++ [(id, name, type)])
                    <-> n ∈ entity_ids seen \/ n = id) as Hids.
  { intros n. unfold entity_ids. rewrite map_app, elem_of_app. simpl.
    by rewrite list_elem_of_singleton. }
  unfold nx_add_node. split; [|split; [|split; [|split; [|split; [|split; [|split]]]]]];
    cbn [nodes adj name_attr city_attr].
  - by apply nx_ensure_node_adj_keys.
  - by apply nx_ensure_node_NoDup.
  - intros n. rewrite <- (Hnb n). apply (nx_ensure_node_nbrs g id n Hkeys).
  - intros n. rewrite nx_ensure_node_nodes, Hids, Hnodes. done.
  - intros n. rewrite Hids.
    assert (name_attr (nx_ensure_node g id) = name_attr g) as ->.
    { unfold nx_ensure_node. by destruct (memZ id (nodes g)). }
    destruct (decide (n = id)) as [->|Hne].
    + rewrite lookup_insert_eq. split; [by right|by eexists].
    + rewrite lookup_insert_ne by done. rewrite Hnames. tauto.
  - intros n s.
    assert (name_attr (nx_ensure_node g id) = name_attr g) as ->.
    { unfold nx_ensure_node. by destruct (memZ id (nodes g)). }
    destruct (decide (n = id)) as [->|Hne].
    + rewrite lookup_insert_eq. intros [= <-]. exists type.
      apply elem_of_app. right. apply list_elem_of_here.
    + rewrite lookup_insert_ne by done. intros (t & Ht)%Hname. exists t.
      apply elem_of_app. by left.
  - intros Hndids n s t Hin.
    assert (name_attr (nx_ensure_node g id) = name_attr g) as ->.
    { unfold nx_ensure_node. by destruct (memZ id (nodes g)). }
    unfold entity_ids in Hndids. rewrite map_app in Hndids.
    apply NoDup_app in Hndids as (Hnd1 & Hdisj & _).
    apply elem_of_app in Hin as [Hin|Hin%list_elem_of_singleton].
    + assert (n ∈ entity_ids seen) as Hn.
      { unfold entity_ids. apply list_elem_of_fmap. by exists (n, s, t). }
      assert (n <> id) as Hne.
      { intros ->. apply (Hdisj id Hn). simpl. apply list_elem_of_here. }
      rewrite lookup_insert_ne by done. by eapply Hlast.
    + injection Hin as -> -> ->. by rewrite lookup_insert_eq.
  - unfold nx_ensure_node. by destruct (memZ id (nodes g)).
Qed.

Lemma entities_loop_entered (entities_df : list (Z * string * string)) :
  entities_entered entities_df
    (fold_left (fun g (row : Z * string * string) => nx_add_node g row.1.1 row.1.2)
       entities_df nx_empty).
Proof.
  induction entities_df as [|row l IH] using rev_ind.
  - simpl. unfold entities_entered, adj_keys, nbrs_of, nx_empty. simpl.
    split; [|split; [constructor|split; [|split; [done|split; [|split; [|split]]]]]].
    + intros n. rewrite lookup_empty. split; [by intros ?%elem_of_nil|by intros [? ?]].
    + intros n. by rewrite lookup_empty.
    + intros n. rewrite lookup_empty. split; [by intros [? ?]|by intros ?%elem_of_nil].
    + intros n s. by rewrite lookup_empty.
    + intros _ n s t ?%elem_of_nil. done.
    + done.
  - rewrite fold_left_app. simpl. by apply nx_add_node_entered.
Qed.

Lemma locations_loop_entered (g0 : Graph) (locations_df : list (Z * string)) :
  city_attr g0 = ∅ ->
  locations_entered g0 locations_df
    (fold_left (fun g (row : Z * string) =>
                  if memZ row.1 (nodes g) then nx_set_city g row.1 row.2 else g)
       locations_df g0).
Proof.
  intros Hcity0. induction locations_df as [|row l IH] using rev_ind.
  - simpl. unfold locations_entered. rewrite Hcity0.
    split; [done|]. split; [done|]. split; [done|]. split; [|split].
    + intros n. rewrite lookup_empty. split; [by intros [? ?]|].
      by intros [_ ?%elem_of_nil].
    + intros n c. by rewrite lookup_empty.
    + intros _ n c _ ?%elem_of_nil. done.
  - rewrite fold_left_app. simpl.
    destruct IH as (Hnodes & Hadj & Hname & Hsome & Hval & Hlast).
    set (g := fold_left _ l g0) in *. destruct row as [id c0]. cbn [fst snd].
    assert (forall n : Z, n ∈ (l ++ [(id, c0)]).*1 <-> n ∈ l.*1 \/ n = id) as Hids.
    { intros n. rewrite fmap_app, elem_of_app. simpl. by rewrite list_elem_of_singleton. }
    destruct (memZ id (nodes g)) eqn:Hid.
    + apply memZ_true in Hid. rewrite Hnodes in Hid.
      unfold locations_entered, nx_set_city. cbn [nodes adj name_attr city_attr].
      split; [done|]. split; [done|]. split; [done|]. split; [|split].
      * intros n. rewrite Hids. destruct (decide (n = id)) as [->|Hne].
        -- rewrite lookup_insert_eq. split; [intros _; split; [done|by right]|by eexists].
        -- rewrite lookup_insert_ne by done. rewrite Hsome. tauto.
      * intros n c. destruct (decide (n = id)) as [->|Hne].
        -- rewrite lookup_insert_eq. intros [= <-]. apply elem_of_app. right.
           apply list_elem_of_here.
        -- rewrite lookup_insert_ne by done. intros ?%Hval. apply elem_of_app. by left.
      * intros Hnd n c Hn Hin. rewrite fmap_app in Hnd.
        apply NoDup_app in Hnd as (Hnd1 & Hdisj & _).
        apply elem_of_app in Hin as [Hin|Hin%list_elem_of_singleton].
        -- assert (n ∈ l.*1) as Hnl by (apply list_elem_of_fmap; by exists (n, c)).
           assert (n <> id) as Hne.
           { intros ->. apply (Hdisj id Hnl). simpl. apply list_elem_of_here. }
           rewrite lookup_insert_ne by done. by apply Hlast.
        -- injection Hin as -> ->. by rewrite lookup_insert_eq.
    + apply memZ_false in Hid. rewrite Hnodes in Hid.
      unfold locations_entered.
      split; [done|]. split; [done|]. split; [done|]. split; [|split].
      * intros n. rewrite Hids, Hsome. split; [tauto|].
        intros [Hn [?| ->]]; [tauto|done].
      * intros n c ?%Hval. apply elem_of_app. by left.
      * intros Hnd n c Hn Hin. rewrite fmap_app in Hnd.
        apply NoDup_app in Hnd as (Hnd1 & _ & _).
        apply elem_of_app in Hin as [Hin|Hin%list_elem_of_singleton].
        -- by apply Hlast.
        -- injection Hin as -> ->. done.
Qed.

Lemma nx_add_edge_entered (g0 : Graph) (seen : list (Z * Z)) (g : Graph) (row : Z * Z) :
  links_entered g0 seen g ->
  links_entered g0 (seen ++ [row]) (nx_add_edge g row.1 row.2).
Proof.
  intros (Hkeys & Hnd & Hnbnd & Hnb & Hnodes & Hname & Hcity).
  destruct row as [u v]. cbn [fst snd].
  destruct (nx_add_edge_attrs g u v) as [Hn' Hc'].
  split; [by apply nx_add_edge_adj_keys|]. split; [by apply nx_add_edge_NoDup|].
  split; [intros n; by apply nx_add_edge_nbrs_NoDup|].
  split; [|split; [|split; [congruence|congruence]]].
  - intros n m. rewrite nx_add_edge_nbrs by done. rewrite Hnb.
    rewrite !elem_of_app, !list_elem_of_singleton.
    split.
    + intros [[H|[H|H]]|[[-> ->]|[-> ->]]]; [tauto|tauto|tauto| |].
      * right. left. by right.
      * right. right. by right.
    + intros [H|[[H|H]|[H|H]]]; [tauto|tauto| |tauto| ].
      * injection H as -> ->. tauto.
      * injection H as -> ->. tauto.
  - intros n. rewrite nx_add_edge_nodes, Hnodes. unfold link_ends.
    rewrite flat_map_app, elem_of_app. simpl.
    rewrite !elem_of_cons, elem_of_nil. tauto.
Qed.

Lemma links_loop_entered (g0 : Graph) (links_df : list (Z * Z)) :
  adj_keys g0 -> NoDup (nodes g0) -> (forall n, NoDup (nbrs_of g0 n)) ->
  links_entered g0 links_df
    (fold_left (fun g (row : Z * Z) => nx_add_edge g row.1 row.2) links_df g0).
Proof.
  intros Hkeys Hnd Hnb. induction links_df as [|row l IH] using rev_ind.
  - simpl. split; [done|]. split; [done|]. split; [done|].
    split; [|split; [|done]].
    + intros n m. split; [by left|]. by intros [?|[?%elem_of_nil|?%elem_of_nil]].
    + intros n. split; [by left|]. by intros [?|?%elem_of_nil].
  - rewrite fold_left_app. simpl. by apply nx_add_edge_entered.
Qed.

Lemma dict_get_dict_set {V} (d : list (Z * V)) (k k' : Z) (v dflt : V) :
  dict_get (dict_set d k v) k' dflt = if k =? k' then v else dict_get d k' dflt.
Proof.
  induction d as [|[k0 v0] d IH]; simpl.
  - done.
  - destruct (k0 =? k) eqn:Hk0; simpl.
    + apply Z.eqb_eq in Hk0 as ->. by destruct (k =? k').
    + rewrite IH. destruct (k0 =? k') eqn:Hk0'; [|done].
      apply Z.eqb_eq in Hk0' as ->. by rewrite Z.eqb_sym, Hk0.
Qed.

Lemma last_row_app {A} (id_of : A -> Z) (rows : list A) (row : A) (n : Z) :
  last_row id_of (rows ++ [row]) n
  = if id_of row =? n then Some row else last_row id_of rows n.
Proof.
  induction rows as [|r rows IH]; simpl.
  - done.
  - rewrite IH. destruct (id_of row =? n); [done|]. done.
Qed.

Lemma last_row_Some {A} (id_of : A -> Z) (rows : list A) (n : Z) (row : A) :
  last_row id_of rows n = Some row -> row ∈ rows /\ id_of row = n.
Proof.
  induction rows as [|r rows IH]; simpl; [done|].
  destruct (last_row id_of rows n) as [r'|].
  - intros [= <-]. destruct IH as [? ?]; [done|]. split; [by apply list_elem_of_further|done].
  - destruct (id_of r =? n) eqn:Hr; [|done]. intros [= <-].
    apply Z.eqb_eq in Hr. split; [apply list_elem_of_here|done].
Qed.

Lemma last_row_is_Some {A} (id_of : A -> Z) (rows : list A) (n : Z) :
  is_Some (last_row id_of rows n) <-> n ∈ map id_of rows.
Proof.
  induction rows as [|r rows IH]; simpl.
  - split; [by intros [? ?]|by intros ?%elem_of_nil].
  - rewrite elem_of_cons, <- IH. destruct (last_row id_of rows n) as [r'|].
    + split; [intros _; right|]; by eexists.
    + destruct (id_of r =? n) eqn:Hr.
      * apply Z.eqb_eq in Hr. split; [by left|by eexists].
      * apply Z.eqb_neq in Hr. split; [by intros [? ?]|].
        intros [?|[? ?]]; [congruence|done].
Qed.

Lemma id_to_city_last_row (locations_df : list (Z * string)) (n : Z) (dflt : string) :
  dict_get (fold_left (fun d (row : Z * string) => dict_set d row.1 row.2)
              locations_df []) n dflt
  = match last_row fst locations_df n with
    | Some row => row.2
    | None => dflt
    end.
Proof.
  induction locations_df as [|[k v] l IH] using rev_ind; [done|].
  rewrite fold_left_app, last_row_app. simpl. rewrite dict_get_dict_set.
  by destruct (k =? n).
Qed.

Lemma entities_loop_name (entities_df : list (Z * string * string)) (n : Z) :
  name_attr (fold_left (fun g (row : Z * string * string) =>
                          nx_add_node g row.1.1 row.1.2) entities_df nx_empty) !! n
  = (fun row : Z * string * string => row.1.2)
      <$> last_row (fun row : Z * string * string => row.1.1) entities_df n.
Proof.
  induction entities_df as [|[[id name] type] l IH] using rev_ind; [done|].
  rewrite fold_left_app, last_row_app. simpl.
  assert (forall g, name_attr (nx_ensure_node g id) = name_attr g) as ->.
  { intros g. unfold nx_ensure_node. by destruct (memZ id (nodes g)). }
  destruct (id =? n) eqn:Hid.
  - apply Z.eqb_eq in Hid as ->. by rewrite lookup_insert_eq.
  - apply Z.eqb_neq in Hid. by rewrite lookup_insert_ne.
Qed.

Lemma locations_loop_city (g0 : Graph) (locations_df : list (Z * string)) (n : Z) :
  city_attr g0 = ∅ ->
  city_attr (fold_left (fun g (row : Z * string) =>
                          if memZ row.1 (nodes g) then nx_set_city g row.1 row.2 else g)
               locations_df g0) !! n
  = if bool_decide (n ∈ nodes g0 /\ n ∈ locations_df.*1)
    then Some (dict_get (fold_left (fun d (row : Z * string) => dict_set d row.1 row.2)
                           locations_df []) n EmptyString)
    else None.
Proof.
  intros Hcity0. induction locations_df as [|[k v] l IH] using rev_ind.
  - simpl. rewrite Hcity0, lookup_empty. rewrite bool_decide_eq_false_2; [done|].
    by intros [_ ?%elem_of_nil].
  - destruct (locations_loop_entered g0 l Hcity0) as (Hnodes & _).
    rewrite !fold_left_app. simpl. set (g := fold_left _ l g0) in *.
    rewrite dict_get_dict_set.
    assert (n ∈ (l ++ [(k, v)]).*1 <-> n ∈ l.*1 \/ n = k) as Hids.
    { rewrite fmap_app, elem_of_app. simpl. by rewrite list_elem_of_singleton. }
    destruct (memZ k (nodes g)) eqn:Hk.
    + apply memZ_true in Hk. rewrite Hnodes in Hk.
      unfold nx_set_city. cbn [city_attr].
      destruct (k =? n) eqn:Hkn.
      * apply Z.eqb_eq in Hkn as ->. rewrite lookup_insert_eq.
        rewrite bool_decide_eq_true_2; [done|]. split; [done|]. apply Hids. by right.
      * apply Z.eqb_neq in Hkn. rewrite lookup_insert_ne by done. rewrite IH.
        destruct (bool_decide (n ∈ nodes g0 /\ n ∈ l.*1)) eqn:H1.
        -- apply bool_decide_eq_true in H1 as [? ?].
           rewrite bool_decide_eq_true_2; [done|]. split; [done|]. apply Hids. by left.
        -- apply bool_decide_eq_false in H1.
           rewrite bool_decide_eq_false_2; [done|]. intros [? [?|?]%Hids]; [tauto|congruence].
    + apply memZ_false in Hk. rewrite Hnodes in Hk. rewrite IH.
      destruct (k =? n) eqn:Hkn.
      * apply Z.eqb_eq in Hkn as ->.
        rewrite !bool_decide_eq_false_2; [done|tauto|tauto].
      * apply Z.eqb_neq in Hkn.
        destruct (bool_decide (n ∈ nodes g0 /\ n ∈ l.*1)) eqn:H1.
        -- apply bool_decide_eq_true in H1 as [? ?].
           rewrite bool_decide_eq_true_2; [done|]. split; [done|]. apply Hids. by left.
        -- apply bool_decide_eq_false in H1.
           rewrite bool_decide_eq_false_2; [done|]. intros [? [?|?]%Hids]; [tauto|congruence].
Qed.


(** The three loops of [build_graph], one after the other. *)
Lemma build_graph_loops (links_df : list (Z * Z))
    (entities_df : list (Z * string * string)) (locations_df : list (Z * string)) :
  exists g1 g2,
    entities_entered entities_df g1
    /\ locations_entered g1 locations_df g2
    /\ links_entered g2 links_df (build_graph links_df entities_df locations_df)
    /\ (forall n, city_attr g2 !! n
          = if bool_decide (n ∈ nodes g1 /\ n ∈ locations_df.*1)
            then Some (dict_get (fold_left (fun d (row : Z * string) =>
                                              dict_set d row.1 row.2) locations_df [])
                         n EmptyString)
            else None).
Proof.
  unfold build_graph. cbv zeta.
  set (g1 := fold_left _ entities_df nx_empty).
  set (g2 := fold_left _ locations_df g1).
  exists g1, g2.
  pose proof (entities_loop_entered entities_df) as H1. fold g1 in H1.
  destruct H1 as (Hkeys & Hnd & Hnb & Hnodes & Hnames & Hname & Hlast & Hcity).
  pose proof (locations_loop_entered g1 locations_df Hcity) as H2. fold g2 in H2.
  destruct H2 as (Hn2 & Ha2 & Hname2 & Hrest).
  split; [done|]. split; [done|]. split.
  - apply links_loop_entered.
    + intros n. rewrite Hn2, Ha2. apply Hkeys.
    + by rewrite Hn2.
    + intros n. unfold nbrs_of. rewrite Ha2. fold (nbrs_of g1 n). rewrite Hnb. constructor.
  - intros n. by apply locations_loop_city.
Qed.

Lemma build_graph_nbrs (links_df : list (Z * Z))
    (entities_df : list (Z * string * string)) (locations_df : list (Z * string))
    (n m : Z) :
  m ∈ nbrs_of (build_graph links_df entities_df locations_df) n
  <-> (n, m) ∈ links_df \/ (m, n) ∈ links_df.
Proof.
  destruct (build_graph_loops links_df entities_df locations_df)
    as (g1 & g2 & H1 & H2 & H3 & _).
  destruct H1 as (_ & _ & Hnb1 & _). destruct H2 as (_ & Ha2 & _).
  destruct H3 as (_ & _ & _ & Hnb & _).
  rewrite Hnb. unfold nbrs_of at 1. rewrite Ha2. fold (nbrs_of g1 n). rewrite Hnb1.
  rewrite elem_of_nil. tauto.
Qed.

(** X1: after [build_graph], the neighbours of a node are the nodes
    that share a row of the links table with it, in either column; so
    the graph is undirected, and no neighbour is listed twice whatever
    rows are repeated. *)
Theorem build_graph_neighbors (links_df : list (Z * Z))
    (entities_df : list (Z * string * string)) (locations_df : list (Z * string))
    (ms : gmap string (list (Z * Q))) :
  (forall n m, m ∈ get_neighbors (built_analyzer links_df entities_df locations_df ms) n
               <-> (n, m) ∈ links_df \/ (m, n) ∈ links_df)
  /\ undirected (built_analyzer links_df entities_df locations_df ms)
  /\ (forall n, NoDup (get_neighbors (built_analyzer links_df entities_df locations_df ms) n)).
Proof.
  split; [|split].
  - intros n m. apply build_graph_nbrs.
  - intros n m Hm. apply build_graph_nbrs. apply build_graph_nbrs in Hm. tauto.
  - intros n.
    destruct (build_graph_loops links_df entities_df locations_df)
      as (g1 & g2 & _ & _ & H3 & _).
    destruct H3 as (_ & _ & Hnd & _). apply Hnd.
Qed.

Lemma build_graph_no_self_link (links_df : list (Z * Z))
    (entities_df : list (Z * string * string)) (locations_df : list (Z * string))
    (ms : gmap string (list (Z * Q))) :
  simple_graph (built_analyzer links_df entities_df locations_df ms)
  <-> Forall (fun row : Z * Z => row.1 <> row.2) links_df.
Proof.
  unfold simple_graph, built_analyzer. cbn [graph].
  destruct (build_graph_loops links_df entities_df locations_df)
    as (g1 & g2 & _ & _ & H3 & _).
  destruct H3 as (_ & _ & Hnd & _).
  rewrite Forall_forall. split.
  - intros Hsimple [u v] Hin Heq. cbn [fst snd] in Heq. subst v.
    assert (u ∈ nbrs_of (build_graph links_df entities_df locations_df) u) as Hu.
    { apply build_graph_nbrs. by left. }
    unfold nbrs_of in Hu.
    destruct (adj (build_graph links_df entities_df locations_df) !! u) as [nbrs|] eqn:Hl;
      [|by apply elem_of_nil in Hu].
    by destruct (Hsimple u nbrs Hl) as [Hnot _].
  - intros Hrows n nbrs Hl. split.
    + intros Hn.
      assert (n ∈ nbrs_of (build_graph links_df entities_df locations_df) n) as Hu.
      { unfold nbrs_of. by rewrite Hl. }
      apply build_graph_nbrs in Hu. by destruct Hu as [Hu|Hu]; apply Hrows in Hu.
    + specialize (Hnd n). unfold nbrs_of in Hnd. by rewrite Hl in Hnd.
Qed.

(** X2: the graph [build_graph] makes is simple exactly when no row of
    the links table joins a node to itself. *)
Theorem build_graph_simple (links_df : list (Z * Z))
    (entities_df : list (Z * string * string)) (locations_df : list (Z * string))
    (ms : gmap string (list (Z * Q))) :
  simple_graph (built_analyzer links_df entities_df locations_df ms)
  <-> Forall (fun row : Z * Z => row.1 <> row.2) links_df.
Proof. apply build_graph_no_self_link. Qed.

(** X26: on the graph [build_graph] makes of a links table without a
    row that joins a node to itself, every configuration the detector
    returns has pairwise distinct role nodes: six in Scenario A, eight
    in Scenario B. *)
Theorem built_graph_roles_distinct (set_order : list Z -> list Z)
    (links_df : list (Z * Z)) (entities_df : list (Z * string * string))
    (locations_df : list (Z * string)) (ms : gmap string (list (Z * Q)))
    (cfg : Config) (employee_id : Z) :
  Forall (fun row : Z * Z => row.1 <> row.2) links_df ->
  (forall result c,
     detect_scenario_a (built_analyzer links_df entities_df locations_df ms) cfg employee_id
     = Returns result ->
     c ∈ result -> length (roles_a c) = 6%nat /\ NoDup (roles_a c))
  /\ (forall r,
        detect_scenario_b set_order (built_analyzer links_df entities_df locations_df ms)
          cfg employee_id = Returns (Some r) ->
        length (roles_b r) = 8%nat /\ NoDup (roles_b r)).
Proof.
  intros Hrows.
  pose proof (proj2 (build_graph_no_self_link links_df entities_df locations_df ms) Hrows)
    as Hsimple.
  split.
  - intros result c Hres Hc.
    pose proof (detect_scenario_a_roles _ cfg employee_id result Hsimple Hres) as H.
    rewrite Forall_forall in H. destruct (H c Hc) as [Hlen Hnd].
    split; [|done]. unfold roles_a. simpl. rewrite length_app, Hlen. done.
  - intros r Hres.
    destruct (detect_scenario_b_roles set_order _ cfg employee_id r Hsimple Hres)
      as [Hlen Hnd].
    split; [|done]. unfold roles_b. simpl. rewrite length_app, Hlen. done.
Qed.

(** X3: the nodes of the graph [build_graph] makes are the ids of the
    entities table and the ends of the links, each once; every
    neighbour of a node is a node, and a node that ends a link has a
    contact. *)
Theorem build_graph_nodes (links_df : list (Z * Z))
    (entities_df : list (Z * string * string)) (locations_df : list (Z * string))
    (ms : gmap string (list (Z * Q))) :
  NoDup (nodes (graph (built_analyzer links_df entities_df locations_df ms)))
  /\ (forall n, n ∈ nodes (graph (built_analyzer links_df entities_df locations_df ms))
                <-> n ∈ entity_ids entities_df \/ n ∈ link_ends links_df)
  /\ (forall n m, m ∈ get_neighbors (built_analyzer links_df entities_df locations_df ms) n ->
        m ∈ nodes (graph (built_analyzer links_df entities_df locations_df ms)))
  /\ (forall n, n ∈ link_ends links_df ->
        1 <= degree (built_analyzer links_df entities_df locations_df ms) n).
Proof.
  unfold built_analyzer. cbn [graph].
  destruct (build_graph_loops links_df entities_df locations_df)
    as (g1 & g2 & H1 & H2 & H3 & _).
  destruct H1 as (_ & _ & _ & Hn1 & _). destruct H2 as (Hn2 & _).
  destruct H3 as (_ & Hnd & _ & _ & Hn3 & _).
  assert (forall n, n ∈ nodes (build_graph links_df entities_df locations_df)
                    <-> n ∈ entity_ids entities_df \/ n ∈ link_ends links_df) as Hnodes.
  { intros n. rewrite Hn3, Hn2, Hn1. done. }
  assert (forall u v, (u, v) ∈ links_df -> u ∈ link_ends links_df /\ v ∈ link_ends links_df)
    as Hends.
  { intros u v Hin. unfold link_ends.
    split; apply elem_of_flat_map; exists (u, v); (split; [done|]); cbn [fst snd];
      rewrite !elem_of_cons; tauto. }
  split; [done|]. split; [done|]. split.
  - intros n m Hm. apply Hnodes. right.
    apply (build_graph_nbrs links_df entities_df locations_df n m) in Hm.
    destruct Hm as [Hm|Hm]; apply Hends in Hm; tauto.
  - intros n Hn. unfold link_ends in Hn.
    apply elem_of_flat_map in Hn as ([u v] & Hrow & Hn).
    cbn [fst snd] in Hn. rewrite !elem_of_cons, elem_of_nil in Hn.
    assert (exists m, m ∈ get_neighbors
              {| graph := build_graph links_df entities_df locations_df; metrics := ms |} n)
      as [m Hm].
    { destruct Hn as [->|[->|[]]].
      - exists v. apply build_graph_nbrs. by left.
      - exists u. apply build_graph_nbrs. by right. }
    unfold degree. cbv zeta.
    destruct (get_neighbors _ n) as [|x xs]; [by apply elem_of_nil in Hm|].
    unfold len. simpl length. destruct (memZ n (x :: xs)); lia.
Qed.

Lemma build_graph_attrs (links_df : list (Z * Z))
    (entities_df : list (Z * string * string)) (locations_df : list (Z * string))
    (n : Z) :
  name_attr (build_graph links_df entities_df locations_df) !! n
  = (fun row : Z * string * string => row.1.2)
      <$> last_row (fun row : Z * string * string => row.1.1) entities_df n
  /\ city_attr (build_graph links_df entities_df locations_df) !! n
     = if bool_decide (n ∈ entity_ids entities_df)
       then snd <$> last_row fst locations_df n
       else None.
Proof.
  pose proof (links_loop_entered) as Hlinks.
  unfold build_graph. cbv zeta.
  set (g1 := fold_left _ entities_df nx_empty).
  set (g2 := fold_left _ locations_df g1).
  pose proof (entities_loop_entered entities_df) as H1. fold g1 in H1.
  destruct H1 as (Hkeys & Hnd & Hnb & Hnodes & _ & _ & _ & Hcity).
  pose proof (locations_loop_entered g1 locations_df Hcity) as H2. fold g2 in H2.
  destruct H2 as (Hn2 & Ha2 & Hname2 & _).
  destruct (Hlinks g2 links_df) as (_ & _ & _ & _ & _ & Hname3 & Hcity3).
  { intros k. rewrite Hn2, Ha2. apply Hkeys. }
  { by rewrite Hn2. }
  { intros k. unfold nbrs_of. rewrite Ha2. fold (nbrs_of g1 k). rewrite Hnb. constructor. }
  rewrite Hname3, Hcity3, Hname2. split.
  - apply entities_loop_name.
  - unfold g2. rewrite (locations_loop_city g1 locations_df n Hcity).
    rewrite id_to_city_last_row.
    destruct (bool_decide (n ∈ entity_ids entities_df)) eqn:Hn.
    + apply bool_decide_eq_true in Hn. apply Hnodes in Hn.
      destruct (last_row fst locations_df n) as [row|] eqn:Hrow.
      * rewrite bool_decide_eq_true_2; [done|]. split; [done|].
        apply (last_row_is_Some fst). by rewrite Hrow.
      * rewrite bool_decide_eq_false_2; [done|]. intros [_ Hin].
        apply (last_row_is_Some fst) in Hin. rewrite Hrow in Hin. by destruct Hin.
    + apply bool_decide_eq_false in Hn.
      rewrite bool_decide_eq_false_2; [done|]. intros [Hin _]. by apply Hn, Hnodes.
Qed.

(** X4: after [build_graph] the name of a node is the name in the
    last row of the entities table with its id; a node that no row of
    that table has, one that only the links table mentions, has no
    name and reading it is a [KeyError]. *)
Theorem build_graph_names (links_df : list (Z * Z))
    (entities_df : list (Z * string * string)) (locations_df : list (Z * string))
    (ms : gmap string (list (Z * Q))) (n : Z) :
  node_name (built_analyzer links_df entities_df locations_df ms) n
  = match last_row (fun row : Z * string * string => row.1.1) entities_df n with
    | Some row => Returns row.1.2
    | None => Raises KeyError
    end.
Proof.
  unfold built_analyzer, node_name. cbn [graph].
  destruct (build_graph_attrs links_df entities_df locations_df n) as [-> _].
  by destruct (last_row _ entities_df n).
Qed.

(** X5: after [build_graph] the city of a node is the city in the last
    row of the locations table with its id when the entities table has
    the id, and empty otherwise: a row of the locations table for a
    node that only the links table mentions is dropped. On the ids of
    the entities table that have a location the graph and the
    geospatial analyzer agree; elsewhere the graph has the empty
    string where the analyzer has the row's city or ["Unknown"]. *)
Theorem build_graph_city (links_df : list (Z * Z))
    (entities_df : list (Z * string * string)) (locations_df : list (Z * string))
    (ms : gmap string (list (Z * Q))) (cfg : Config) (n : Z) :
  city (built_analyzer links_df entities_df locations_df ms) n
  = (if bool_decide (n ∈ entity_ids entities_df)
     then match last_row fst locations_df n with
          | Some row => row.2
          | None => EmptyString
          end
     else EmptyString)
  /\ city (built_analyzer links_df entities_df locations_df ms) n
     = (if bool_decide (n ∈ entity_ids entities_df /\ n ∈ locations_df.*1)
        then get_city (new_GeospatialAnalyzer locations_df cfg) n
        else EmptyString).
Proof.
  unfold built_analyzer, city, get_city, new_GeospatialAnalyzer. cbn [graph id_to_city].
  destruct (build_graph_attrs links_df entities_df locations_df n) as [_ ->].
  rewrite id_to_city_last_row.
  pose proof (last_row_is_Some fst locations_df n) as Hsome.
  destruct (bool_decide (n ∈ entity_ids entities_df)) eqn:Hn.
  - apply bool_decide_eq_true in Hn.
    destruct (last_row fst locations_df n) as [row|]; simpl.
    + split; [done|]. rewrite bool_decide_eq_true_2; [done|].
      split; [done|]. apply Hsome. by eexists.
    + split; [done|]. rewrite bool_decide_eq_false_2; [done|].
      intros [_ Hin%Hsome]. by destruct Hin.
  - apply bool_decide_eq_false in Hn. simpl. split; [done|].
    rewrite bool_decide_eq_false_2; [done|]. tauto.
Qed.

(** X6: [get_city] gives the city of the last row of the locations
    table with the id, and ["Unknown"] for an id the table does not
    have. *)
Theorem get_city_last_row (locations_df : list (Z * string)) (cfg : Config) (n : Z) :
  get_city (new_GeospatialAnalyzer locations_df cfg) n
  = match last_row fst locations_df n with
    | Some row => row.2
    | None => "Unknown"%string
    end.
Proof.
  unfold get_city, new_GeospatialAnalyzer. cbn [id_to_city].
  apply id_to_city_last_row.
Qed.

(** ** The loops of the detector *)

(** The loop keeps the first of the candidates of greatest score: a
    later one replaces the best only with a strictly greater score. *)
Lemma best_fold_first (ok : Z -> bool) (score : Z -> Q) (l : list Z) (c : Z) :
  (fold_left (best_step ok score) l (None, 0%Q)).1 = Some c ->
  exists before after,
    l = before ++ c :: after
    /\ forall n, n ∈ before -> ok n = true -> (score n < score c)%Q.
Proof.
  revert c. induction l as [|x l IH] using rev_ind; intros c; [done|].
  rewrite fold_left_app. simpl.
  pose proof (best_fold_best_of ok score l) as Hbest.
  set (st := fold_left (best_step ok score) l (None, 0%Q)) in *.
  unfold best_step. destruct (ok x) eqn:Hx.
  - destruct (Qltb st.2 (score x)) eqn:Hlt.
    + simpl. intros [= <-]. exists l, []. split; [done|].
      intros n Hn Hok. apply Qltb_lt in Hlt. unfold best_of in Hbest.
      destruct st.1 as [c0|].
      * destruct Hbest as (_ & _ & Heq & _ & Hmax). rewrite Heq in Hlt.
        eapply Qle_lt_trans; [by apply Hmax|done].
      * destruct Hbest as (Heq & Hmax). rewrite Heq in Hlt.
        eapply Qle_lt_trans; [by apply Hmax|done].
    + intros Hc. destruct (IH c Hc) as (before & after & -> & Hfirst).
      exists before, (after ++ [x]). split; [|done]. by rewrite <- app_assoc.
  - intros Hc. destruct (IH c Hc) as (before & after & -> & Hfirst).
    exists before, (after ++ [x]). split; [|done]. by rewrite <- app_assoc.
Qed.

Lemma middleman_fold_best_step (a : SocialNetworkAnalyzer) (cfg : Config)
    (l : list Z) (st : option Z * Q) :
  fold_left (middleman_step a cfg) l st
  = fold_left (best_step (middleman_ok a) (middleman_score a cfg)) l st.
Proof.
  revert st. induction l as [|x l IH]; intros st; [done|].
  simpl. by rewrite middleman_step_best_step, IH.
Qed.

Lemma middleman_score_pos (a : SocialNetworkAnalyzer) (cfg : Config) (n : Z) :
  middleman_ok a n = true -> (0 < middleman_score a cfg n)%Q.
Proof.
  intros [Hd Hb]%middleman_ok_admissible. unfold middleman_score. cbv zeta.
  assert (0 < betweenness a n * inject_Z (degree a n))%Q as Hpos.
  { apply Qmult_lt_0_compat; [lra|].
    change 0%Q with (inject_Z 0). rewrite <- Zlt_Qlt. lia. }
  destruct (mem_str _ _); lra.
Qed.

(** X7: [_find_best_middleman_for_handler] returns the first node of
    the pool of greatest score among those with 15 to 70 contacts and
    a betweenness above 0.005, and [None] exactly when the pool has no
    such node. *)
Theorem _find_best_middleman_for_handler_correct (a : SocialNetworkAnalyzer)
    (cfg : Config) (pool : list Z) :
  match _find_best_middleman_for_handler a cfg pool with
  | Some m =>
      exists before after,
        pool = before ++ m :: after
        /\ 15 <= degree a m <= 70 /\ (0.005 < betweenness a m)%Q
        /\ (forall n, n ∈ pool -> 15 <= degree a n <= 70 -> (0.005 < betweenness a n)%Q ->
              (middleman_score a cfg n <= middleman_score a cfg m)%Q)
        /\ (forall n, n ∈ before -> 15 <= degree a n <= 70 -> (0.005 < betweenness a n)%Q ->
              (middleman_score a cfg n < middleman_score a cfg m)%Q)
  | None =>
      forall n, n ∈ pool -> ~ (15 <= degree a n <= 70 /\ (0.005 < betweenness a n)%Q)
  end.
Proof.
  unfold _find_best_middleman_for_handler. rewrite middleman_fold_best_step.
  pose proof (best_fold_best_of (middleman_ok a) (middleman_score a cfg) pool) as Hbest.
  pose proof (best_fold_first (middleman_ok a) (middleman_score a cfg) pool) as Hfirst.
  unfold best_of in Hbest.
  destruct (fold_left _ pool (None, 0%Q)).1 as [m|].
  - destruct Hbest as (_ & Hok & _ & _ & Hmax).
    destruct (Hfirst m eq_refl) as (before & after & Hpool & Hlt).
    exists before, after. split; [done|].
    apply middleman_ok_admissible in Hok as [Hd Hb]. split; [done|]. split; [done|].
    split.
    + intros n Hn Hdn Hbn. apply Hmax; [done|]. by apply middleman_ok_admissible.
    + intros n Hn Hdn Hbn. apply Hlt; [done|]. by apply middleman_ok_admissible.
  - destruct Hbest as (_ & Hmax). intros n Hn Hadm%middleman_ok_admissible.
    pose proof (middleman_score_pos a cfg n Hadm) as Hpos.
    specialize (Hmax n Hn Hadm). lra.
Qed.

(** X8: the leader [_find_fearless_leader] returns is the first of the
    pool, in the order the pool lists them, among the qualifying nodes
    of greatest score: every qualifying node before it has a strictly
    smaller score. *)
Theorem _find_fearless_leader_first (a : SocialNetworkAnalyzer) (cfg : Config)
    (pool exclude_ids : list Z) (leader : Z) :
  _find_fearless_leader a cfg pool exclude_ids = Returns (Some leader) ->
  exists dt bt before after,
    leader_thresholds a = Returns (dt, bt)
    /\ pool = before ++ leader :: after
    /\ leader_qualifies a cfg exclude_ids dt bt leader
    /\ forall n, n ∈ before -> leader_qualifies a cfg exclude_ids dt bt n ->
         (leader_score_spec a cfg n < leader_score_spec a cfg leader)%Q.
Proof.
  unfold _find_fearless_leader.
  destruct (leader_thresholds a) as [[dt bt]|e] eqn:Hth; [|done].
  cbn [mbind outcome_bind]. intros [= Hres].
  rewrite leader_fold_best_step in Hres.
  destruct (best_fold_first _ _ _ _ Hres) as (before & after & Hpool & Hlt).
  pose proof (best_fold_best_of (leader_ok a cfg exclude_ids dt bt)
                (leader_score a cfg) pool) as Hbest.
  unfold best_of in Hbest. rewrite Hres in Hbest. destruct Hbest as (_ & Hok & _).
  exists dt, bt, before, after. split; [done|]. split; [done|].
  split; [by apply leader_ok_qualifies|].
  intros n Hn Hq. rewrite <- !leader_score_refines. apply Hlt; [done|].
  by apply leader_ok_qualifies.
Qed.

Lemma py_index_raises {A} (l : list A) (i : Z) (e : exception) :
  py_index l i = Raises e -> e = IndexError.
Proof.
  unfold py_index. destruct (_ || _); [by intros [= <-]|].
  destruct (l !! _); [done|by intros [= <-]].
Qed.

Lemma py_index_nil {A} (i : Z) : py_index (@nil A) i = Raises IndexError.
Proof.
  unfold py_index. destruct (_ || _); [done|]. by rewrite lookup_nil.
Qed.

(** X9: once [calculate_all_metrics] has stored the betweenness table
    and every node of the pool that is not excluded is a node of the
    graph, [_find_fearless_leader] raises [IndexError] exactly when the
    graph has no node or the stored table has no entry, whatever the
    pool, even an empty one: the two thresholds are read before the
    loop.  It raises no [KeyError] then.  (Without the table the code
    raises [KeyError] where it reads it, and a pool node missing from
    the graph has no degree; neither case is covered here.) *)
Theorem _find_fearless_leader_raises (a : SocialNetworkAnalyzer) (cfg : Config)
    (pool exclude_ids : list Z) :
  is_Some (metrics a !! "betweenness_centrality"%string) ->
  (forall n, n ∈ pool -> n ∉ exclude_ids -> n ∈ nodes (graph a)) ->
  (_find_fearless_leader a cfg pool exclude_ids = Raises IndexError
   <-> nodes (graph a) = []
       \/ metrics a !! "betweenness_centrality"%string = Some [])
  /\ _find_fearless_leader a cfg pool exclude_ids <> Raises KeyError.
Proof.
  intros [table Htable] _.
  assert (metric_table a "betweenness_centrality" = table) as Hmt.
  { unfold metric_table. by rewrite Htable. }
  assert (forall e, _find_fearless_leader a cfg pool exclude_ids = Raises e ->
                    leader_thresholds a = Raises e) as Hraise.
  { intros e. unfold _find_fearless_leader.
    destruct (leader_thresholds a) as [[dt bt]|e']; cbn [mbind outcome_bind];
      [intros Hr; discriminate Hr|by intros [= ->]]. }
  assert (forall e, leader_thresholds a = Raises e -> e = IndexError) as Hidx.
  { intros e. unfold leader_thresholds. cbv zeta.
    destruct (py_index (sort_desc inject_Z _) _) as [d|e1] eqn:H1;
      cbn [mbind outcome_bind].
    - destruct (py_index (sort_desc id _) _) as [b|e2] eqn:H2;
        cbn [mbind outcome_bind]; [intros Hr; discriminate Hr|].
      intros [= <-]. by apply py_index_raises in H2.
    - intros [= <-]. by apply py_index_raises in H1. }
  split.
  - rewrite Htable. split.
    + intros Hr%Hraise.
      destruct (decide (nodes (graph a) = [])) as [?|Hn]; [by left|].
      destruct (decide (table = [])) as [->|Ht]; [by right|].
      rewrite <- Hmt in Ht.
      destruct (leader_thresholds_returns a Hn Ht) as (dt & bt & Hret & _).
      by rewrite Hret in Hr.
    + intros Hempty. unfold _find_fearless_leader, leader_thresholds. cbv zeta.
      destruct Hempty as [->|[= ->]].
      * simpl map. simpl sort_desc. rewrite py_index_nil. done.
      * rewrite Hmt. simpl map. simpl sort_desc. rewrite (py_index_nil (A := Q)).
        destruct (py_index _ _) as [d|e1] eqn:H1; cbn [mbind outcome_bind]; [done|].
        by apply py_index_raises in H1 as ->.
  - intros Hr. apply Hraise in Hr. by apply Hidx in Hr.
Qed.

(** X9 on network A with a stored table that has no entry: the search
    raises [IndexError] although node 5 of the pool is in the graph. *)
Lemma _find_fearless_leader_raises_witness :
  metrics Tables.net_a_empty_table !! "betweenness_centrality"%string = Some []
  /\ _find_fearless_leader Tables.net_a_empty_table Examples.cfg_a [5] []
     = Raises IndexError.
Proof.
  split; [vm_compute; reflexivity|].
  destruct (_find_fearless_leader_raises Tables.net_a_empty_table Examples.cfg_a [5] [])
    as [[_ Hraises] _].
  - exists []. vm_compute. reflexivity.
  - intros n Hn _. apply elem_of_cons in Hn as [->|Hn%elem_of_nil]; [|done].
    apply (bool_decide_unpack _). vm_compute. exact I.
  - apply Hraises. right. vm_compute. reflexivity.
Defined.

(** A loop that adds at most [k] to a score at each element. *)
Lemma fold_bonus_bounds {A} (f : Q -> A -> Q) (k : Q) (l : list A) (s0 : Q) :
  (forall s x, s <= f s x /\ f s x <= s + k)%Q ->
  (s0 <= fold_left f l s0 /\ fold_left f l s0 <= s0 + k * inject_Z (len l))%Q.
Proof.
  intros Hf. revert s0. induction l as [|x l IH]; intros s0.
  - simpl. change (inject_Z (len (@nil A))) with 0%Q. split; lra.
  - simpl. destruct (IH (f s0 x)) as [H1 H2]. destruct (Hf s0 x) as [H3 H4].
    assert (inject_Z (len (x :: l)) == inject_Z (len l) + 1)%Q as Hlen.
    { unfold len. simpl length. rewrite Nat2Z.inj_succ, <- Z.add_1_r.
      by rewrite inject_Z_plus. }
    rewrite Hlen. set (L := inject_Z (len l)) in *. split; [lra|].
    assert (k * (L + 1) == k * L + k)%Q as -> by ring. lra.
Qed.

Lemma score_geographic_bounds (a : SocialNetworkAnalyzer) (cfg : Config)
    (employee_id : Z) (handler_ids middlemen_ids : list Z) (leader_id : Z) :
  (0 <= _score_geographic_pattern a cfg employee_id handler_ids middlemen_ids leader_id
   /\ _score_geographic_pattern a cfg employee_id handler_ids middlemen_ids leader_id
      <= 10 + 3 * inject_Z (len handler_ids))%Q.
Proof.
  unfold _score_geographic_pattern. cbv zeta.
  set (s0 := if mem_str (city a employee_id) (large_cities cfg) then (0 + 5)%Q else 0%Q).
  assert (0 <= s0 /\ s0 <= 5)%Q as [Hs0 Hs0'] by (unfold s0; destruct (mem_str _ _); split; lra).
  clearbody s0.
  destruct (fold_bonus_bounds
              (fun score handler_id =>
                 if mem_str (city a handler_id) (large_cities cfg)
                 then (score + 3)%Q else score) 3 handler_ids s0) as [H1 H2].
  { intros s x. cbv beta. destruct (mem_str _ _); split; lra. }
  set (s1 := fold_left _ handler_ids s0) in *. clearbody s1.
  set (L := inject_Z (len handler_ids)) in *.
  destruct (mem_str (city a leader_id) _); split; lra.
Qed.

Lemma score_a_bounds (a : SocialNetworkAnalyzer) (cfg : Config)
    (employee_id : Z) (handler_ids : list Z) (boris_id leader_id : Z) :
  (0 <= _score_scenario_a_configuration a cfg employee_id handler_ids boris_id leader_id
   /\ _score_scenario_a_configuration a cfg employee_id handler_ids boris_id leader_id
      <= 80 + 13 * inject_Z (len handler_ids))%Q.
Proof.
  unfold _score_scenario_a_configuration. cbv zeta.
  destruct (score_geographic_bounds a cfg employee_id handler_ids [boris_id] leader_id)
    as [Hg1 Hg2].
  set (g := _score_geographic_pattern _ _ _ _ _ _) in *. clearbody g.
  set (s0 := if (35 <=? degree a employee_id) && (degree a employee_id <=? 45)
             then (0 + 20)%Q else 0%Q).
  assert (0 <= s0 /\ s0 <= 20)%Q as [Hs0 Hs0'] by (unfold s0; destruct (_ && _); split; lra).
  clearbody s0.
  destruct (fold_bonus_bounds
              (fun score handler_id =>
                 if (30 <=? degree a handler_id) && (degree a handler_id <=? 40)
                 then (score + 10)%Q else score) 10 handler_ids s0) as [H1 H2].
  { intros s x. cbv beta. destruct (_ && _); split; lra. }
  set (s1 := fold_left _ handler_ids s0) in *. clearbody s1.
  set (L := inject_Z (len handler_ids)) in *.
  destruct ((20 <=? degree a boris_id) && _), (Qltb 0.01 _), (100 <=? _); split; lra.
Qed.

Lemma score_b_bounds (a : SocialNetworkAnalyzer) (cfg : Config)
    (employee_id : Z) (handler_ids middlemen_ids : list Z) (leader_id : Z) :
  (0 <= _score_scenario_b_configuration a cfg employee_id handler_ids middlemen_ids leader_id
   /\ _score_scenario_b_configuration a cfg employee_id handler_ids middlemen_ids leader_id
      <= 50 + 13 * inject_Z (len handler_ids) + 10 * inject_Z (len middlemen_ids))%Q.
Proof.
  unfold _score_scenario_b_configuration. cbv zeta.
  destruct (score_geographic_bounds a cfg employee_id handler_ids middlemen_ids leader_id)
    as [Hg1 Hg2].
  set (g := _score_geographic_pattern _ _ _ _ _ _) in *. clearbody g.
  set (s0 := if (35 <=? degree a employee_id) && (degree a employee_id <=? 45)
             then (0 + 20)%Q else 0%Q).
  assert (0 <= s0 /\ s0 <= 20)%Q as [Hs0 Hs0'] by (unfold s0; destruct (_ && _); split; lra).
  clearbody s0.
  destruct (fold_bonus_bounds
              (fun score handler_id =>
                 if (30 <=? degree a handler_id) && (degree a handler_id <=? 40)
                 then (score + 10)%Q else score) 10 handler_ids s0) as [H1 H2].
  { intros s x. cbv beta. destruct (_ && _); split; lra. }
  set (s1 := fold_left _ handler_ids s0) in *. clearbody s1.
  destruct (fold_bonus_bounds
              (fun score middleman_id =>
                 if Qltb 0.01 (betweenness a middleman_id)
                 then ((if (20 <=? degree a middleman_id) && (degree a middleman_id <=? 60)
                        then (score + 5)%Q else score) + 5)%Q
                 else (if (20 <=? degree a middleman_id) && (degree a middleman_id <=? 60)
                       then (score + 5)%Q else score)) 10 middlemen_ids s1) as [H3 H4].
  { intros s x. cbv beta. destruct (Qltb _ _), (_ && _); split; lra. }
  set (s2 := fold_left _ middlemen_ids s1) in *. clearbody s2.
  set (L := inject_Z (len handler_ids)) in *.
  set (M := inject_Z (len middlemen_ids)) in *.
  destruct (100 <=? _); split; lra.
Qed.

(** X10: the geographic part of a configuration score does not read
    the middlemen it is given, and lies between 0 and 10 plus 3 for
    each handler. *)
Theorem _score_geographic_pattern_bounded (a : SocialNetworkAnalyzer) (cfg : Config)
    (employee_id : Z) (handler_ids middlemen_ids : list Z) (leader_id : Z) :
  _score_geographic_pattern a cfg employee_id handler_ids middlemen_ids leader_id
  = _score_geographic_pattern a cfg employee_id handler_ids [] leader_id
  /\ (0 <= _score_geographic_pattern a cfg employee_id handler_ids middlemen_ids leader_id)%Q
  /\ (_score_geographic_pattern a cfg employee_id handler_ids middlemen_ids leader_id
      <= 10 + 3 * inject_Z (len handler_ids))%Q.
Proof.
  split; [done|]. apply score_geographic_bounds.
Qed.

(** X11: a Scenario A score lies between 0 and 80 plus 13 for each
    handler, a Scenario B score between 0 and 50 plus 13 for each
    handler and 10 for each middleman: at most 119 for three handlers,
    in either scenario. *)
Theorem configuration_scores_bounded (a : SocialNetworkAnalyzer) (cfg : Config)
    (employee_id : Z) (handler_ids middlemen_ids : list Z) (boris_id leader_id : Z) :
  (0 <= _score_scenario_a_configuration a cfg employee_id handler_ids boris_id leader_id)%Q
  /\ (_score_scenario_a_configuration a cfg employee_id handler_ids boris_id leader_id
      <= 80 + 13 * inject_Z (len handler_ids))%Q
  /\ (0 <= _score_scenario_b_configuration a cfg employee_id handler_ids
             middlemen_ids leader_id)%Q
  /\ (_score_scenario_b_configuration a cfg employee_id handler_ids middlemen_ids leader_id
      <= 50 + 13 * inject_Z (len handler_ids) + 10 * inject_Z (len middlemen_ids))%Q.
Proof.
  destruct (score_a_bounds a cfg employee_id handler_ids boris_id leader_id).
  destruct (score_b_bounds a cfg employee_id handler_ids middlemen_ids leader_id).
  done.
Qed.

Lemma _find_fearless_leader_qualifies (a : SocialNetworkAnalyzer) (cfg : Config)
    (pool exclude_ids : list Z) (leader : Z) :
  _find_fearless_leader a cfg pool exclude_ids = Returns (Some leader) ->
  exists dt bt,
    leader_thresholds a = Returns (dt, bt)
    /\ leader ∈ pool
    /\ leader_qualifies a cfg exclude_ids dt bt leader.
Proof.
  unfold _find_fearless_leader.
  destruct (leader_thresholds a) as [[dt bt]|e] eqn:Hth; [|done].
  cbn [mbind outcome_bind]. intros [= Hres].
  pose proof (leader_pick_best_of a cfg dt bt pool exclude_ids) as Hbest.
  unfold leader_pick in Hbest. rewrite Hres in Hbest.
  destruct Hbest as (Hin & Hok & _).
  exists dt, bt. split; [done|]. split; [done|]. by apply leader_ok_qualifies.
Qed.

(** The handler triples of a search: three of the employee's contacts,
    each with a degree in the widened window. *)
Lemma handler_triple_window (a : SocialNetworkAnalyzer) (cfg : Config)
    (employee_id : Z) (handler_combo : list (Z * Q)) :
  handler_combo ∈ combinations 3
    (slice_to 10 (_find_handler_candidates a cfg (get_neighbors a employee_id))) ->
  length handler_combo.*1 = 3%nat
  /\ forall h, h ∈ handler_combo.*1 ->
       h ∈ get_neighbors a employee_id
       /\ handlers_expected_contacts_min cfg - 5 <= degree a h
          <= handlers_expected_contacts_max cfg + 5.
Proof.
  intros Hcombo.
  apply combinations_spec in Hcombo as [Hsub Hlen].
  split; [by rewrite length_fmap|].
  assert (handler_combo.*1 `sublist_of`
            (_find_handler_candidates a cfg (get_neighbors a employee_id)).*1) as Hsub'.
  { apply fmap_sublist. etrans; [exact Hsub|apply slice_to_sublist]. }
  intros h Hh. eapply elem_of_sublist in Hh; [|exact Hsub'].
  rewrite _find_handler_candidates_ids in Hh.
  by apply list_elem_of_filter in Hh as [? ?].
Qed.

Lemma scenario_a_boris_shape (a : SocialNetworkAnalyzer) (cfg : Config)
    (employee_id : Z) (handler_ids : list Z) (acc acc' : list ScenarioA)
    (cand : Z * Q) :
  length handler_ids = 3%nat ->
  (forall h, h ∈ handler_ids ->
     h ∈ get_neighbors a employee_id
     /\ handlers_expected_contacts_min cfg - 5 <= degree a h
        <= handlers_expected_contacts_max cfg + 5) ->
  cand.1 ∈ get_neighbors a employee_id ->
  cand.1 ∉ handler_ids ->
  (0.001 < betweenness a cand.1)%Q ->
  Forall (scenario_a_shape a cfg employee_id) acc ->
  scenario_a_boris a cfg employee_id handler_ids acc cand = Returns acc' ->
  Forall (scenario_a_shape a cfg employee_id) acc'.
Proof.
  intros Hlen Hhs Hnb Hnh Hbet Hacc. unfold scenario_a_boris.
  destruct (Z.eqb_spec cand.1 employee_id) as [|Hne]; [by intros [= <-]|].
  destruct (Z.ltb_spec 80 (degree a cand.1)) as [|Hdeg]; [by intros [= <-]|].
  simpl orb. destruct (Qltb _ _); [by intros [= <-]|].
  destruct (_find_fearless_leader _ _ _ _) as [[leader|]|] eqn:Hl;
    cbn [mbind outcome_bind]; [|by intros [= <-]|done].
  destruct (truthy (Some leader)); [|by intros [= <-]].
  intros [= <-]. apply Forall_app. split; [done|].
  apply Forall_singleton.
  apply _find_fearless_leader_qualifies in Hl as (dt & bt & _ & Hin & Hex & Hmin & _).
  rewrite not_elem_of_app, list_elem_of_singleton in Hex. destruct Hex as [Hex1 Hex2].
  destruct (score_a_bounds a cfg employee_id handler_ids cand.1 leader) as [Hs1 Hs2].
  unfold scenario_a_shape. cbn [a_employee a_handlers a_boris a_fearless_leader a_score].
  repeat (split; [done|]).
  unfold len in Hs2. rewrite Hlen in Hs2.
  change (inject_Z (Z.of_nat 3)) with 3%Q in Hs2. lra.
Qed.

Lemma detect_scenario_a_shape (a : SocialNetworkAnalyzer) (cfg : Config)
    (employee_id : Z) (result : list ScenarioA) :
  detect_scenario_a a cfg employee_id = Returns result ->
  (length result <= 3)%nat
  /\ StronglySorted (desc a_score) result
  /\ Forall (scenario_a_shape a cfg employee_id) result.
Proof.
  unfold detect_scenario_a.
  destruct (_ <? 3).
  { intros [= <-]. split; [simpl; lia|]. split; constructor. }
  destruct (for_each _ _ _) as [all|] eqn:Hloop; cbn [mbind outcome_bind]; [|done].
  intros [= <-]. split; [|split].
  - rewrite slice_to_nonneg by lia. rewrite length_take. lia.
  - eapply StronglySorted_sublist; [apply slice_to_sublist|apply sort_desc_sorted].
  - rewrite Forall_forall. intros c Hc.
    apply slice_to_elem_of, sort_desc_elem_of in Hc. revert c Hc.
    rewrite <- Forall_forall.
    revert Hloop. apply for_each_invariant; [|constructor].
    intros acc combo acc' Hcombo Hacc. unfold scenario_a_combo.
    destruct (handler_triple_window a cfg employee_id combo Hcombo) as [Hlen Hhs].
    change (map fst combo) with (combo.*1).
    destruct (potential_boris _ _ _) eqn:Hpb; [by intros [= <-]|].
    rewrite <- Hpb. clear Hpb.
    revert Hacc. apply for_each_invariant.
    intros acc1 cand acc2 Hcand. rewrite potential_boris_candidates in Hcand.
    apply middleman_candidates_a_elem in Hcand as (Hnb & Hnh & Hbet).
    by apply scenario_a_boris_shape.
Qed.

(** X12: every configuration of a Scenario A result is a chain of the
    graph: the three handlers and the middleman are contacts of the
    employee, the leader is a contact of the middleman; the handlers
    have a degree in the widened handler window, the middleman at most
    80 contacts and a betweenness above 0.001, the leader at least the
    configured minimum of contacts and is neither a handler nor the
    employee; the score is that of [_score_scenario_a_configuration],
    between 0 and 119; and the result has at most 3 configurations,
    sorted descending by score. *)
Theorem detect_scenario_a_chain (a : SocialNetworkAnalyzer) (cfg : Config)
    (employee_id : Z) (result : list ScenarioA) :
  detect_scenario_a a cfg employee_id = Returns result ->
  (length result <= 3)%nat
  /\ StronglySorted (desc a_score) result
  /\ forall c, c ∈ result ->
       a_employee c = employee_id
       /\ length (a_handlers c) = 3%nat
       /\ (forall h, h ∈ a_handlers c ->
             h ∈ get_neighbors a employee_id
             /\ handlers_expected_contacts_min cfg - 5 <= degree a h
                <= handlers_expected_contacts_max cfg + 5)
       /\ a_boris c ∈ get_neighbors a employee_id
       /\ (a_boris c ∉ a_handlers c)
       /\ a_boris c <> employee_id
       /\ degree a (a_boris c) <= 80
       /\ (0.001 < betweenness a (a_boris c))%Q
       /\ a_fearless_leader c ∈ get_neighbors a (a_boris c)
       /\ (a_fearless_leader c ∉ a_handlers c)
       /\ a_fearless_leader c <> employee_id
       /\ fearless_leader_min_contacts cfg <= degree a (a_fearless_leader c)
       /\ a_score c = _score_scenario_a_configuration a cfg employee_id (a_handlers c)
                        (a_boris c) (a_fearless_leader c)
       /\ (0 <= a_score c)%Q /\ (a_score c <= 119)%Q.
Proof.
  intros Hres. apply detect_scenario_a_shape in Hres as (Hlen & Hsorted & Hall).
  split; [done|]. split; [done|].
  intros c Hc. rewrite Forall_forall in Hall. exact (Hall c Hc).
Qed.

Lemma leader_pool_b_elem (a : SocialNetworkAnalyzer) (employee_id : Z)
    (handler_ids : list Z) (m0 m1 m2 n : Z) :
  n ∈ leader_pool_b a employee_id handler_ids m0 m1 m2 ->
  n ∈ get_neighbors a m0 /\ n ∈ get_neighbors a m1 /\ n ∈ get_neighbors a m2
  /\ (n ∉ exclude_b employee_id handler_ids m0 m1 m2).
Proof.
  unfold leader_pool_b, py_set. simpl.
  rewrite !list_elem_of_filter, !elem_of_remove_dups. tauto.
Qed.

Lemma scenario_b_combo_shape (set_order : list Z -> list Z)
    (a : SocialNetworkAnalyzer) (cfg : Config) (employee_id : Z)
    (st st' : option ScenarioB * Q) (combo : list (Z * Q)) :
  (forall l x, x ∈ set_order l -> x ∈ l) ->
  combo ∈ combinations 3
    (slice_to 10 (_find_handler_candidates a cfg (get_neighbors a employee_id))) ->
  (0 <= st.2)%Q /\ (forall r, st.1 = Some r -> scenario_b_shape a cfg employee_id r) ->
  scenario_b_combo set_order a cfg employee_id st combo = Returns st' ->
  (0 <= st'.2)%Q /\ (forall r, st'.1 = Some r -> scenario_b_shape a cfg employee_id r).
Proof.
  intros Hset Hcombo [Hpos Hshape] Hstep.
  apply scenario_b_combo_cases in Hstep
    as [->|(m0 & m1 & m2 & leader & dt & bt & Hm & Hdist & _ & Hpick & _ & Hlt & ->)];
    [done|].
  destruct (handler_triple_window a cfg employee_id combo Hcombo) as [Hlen Hhs].
  destruct (combo.*1) as [|h1 [|h2 [|h3 [|h4 hs]]]] eqn:Hids; try done.
  apply scenario_b_middlemen_three in Hm as (H0 & H1 & H2).
  apply middleman_of_spec in H0 as (Hn0 & Hm0e & Hm0h & Hd0 & Hb0).
  apply middleman_of_spec in H1 as (Hn1 & Hm1e & Hm1h & Hd1 & Hb1).
  apply middleman_of_spec in H2 as (Hn2 & Hm2e & Hm2h & Hd2 & Hb2).
  pose proof (leader_pick_best_of a cfg dt bt
                (set_order (leader_pool_b a employee_id [h1; h2; h3] m0 m1 m2))
                (exclude_b employee_id [h1; h2; h3] m0 m1 m2)) as Hbest.
  rewrite Hpick in Hbest. destruct Hbest as (Hin & Hok & _).
  apply leader_ok_qualifies in Hok as (_ & Hmin & _).
  apply Hset, leader_pool_b_elem in Hin as (Hl0 & Hl1 & Hl2 & Hex).
  unfold exclude_b, py_set in Hex. rewrite elem_of_remove_dups in Hex.
  rewrite !not_elem_of_app in Hex. destruct Hex as (Hexh & Hexe & Hexm).
  destruct (score_b_bounds a cfg employee_id [h1; h2; h3] [m0; m1; m2] leader)
    as [Hs1 Hs2].
  change (inject_Z (len [h1; h2; h3])) with 3%Q in Hs2.
  change (inject_Z (len [m0; m1; m2])) with 3%Q in Hs2.
  unfold configuration_b in *. cbn [fst snd b_score] in *.
  split; [done|]. intros r [= <-].
  unfold scenario_b_shape.
  cbn [b_employee b_handlers b_boris b_morris b_horace b_fearless_leader b_score].
  split; [done|]. exists h1, h2, h3. split; [done|]. split; [done|].
  split; [done|]. split; [done|]. split; [done|].
  split.
  { intros m Hm. rewrite !not_elem_of_cons in Hexm, Hm0h, Hm1h, Hm2h.
    rewrite !not_elem_of_cons.
    rewrite !elem_of_cons, elem_of_nil in Hm.
    destruct Hm as [->|[->|[->|[]]]]; repeat (split; [tauto|]); intros ->; tauto. }
  split; [done|]. split; [by rewrite list_elem_of_singleton in Hexe|].
  split; [done|]. split; [done|]. split; [|lra].
  eapply Qle_lt_trans; [exact Hpos|exact Hlt].
Qed.

Lemma detect_scenario_b_shape (set_order : list Z -> list Z)
    (a : SocialNetworkAnalyzer) (cfg : Config) (employee_id : Z) (r : ScenarioB) :
  (forall l x, x ∈ set_order l -> x ∈ l) ->
  detect_scenario_b set_order a cfg employee_id = Returns (Some r) ->
  scenario_b_shape a cfg employee_id r.
Proof.
  intros Hset. unfold detect_scenario_b.
  destruct (_ <? 3); [done|].
  destruct (for_each _ _ _) as [st|] eqn:Hloop; cbn [mbind outcome_bind]; [|done].
  intros [= Hr]. revert r Hr.
  assert ((0 <= st.2)%Q
          /\ (forall r, st.1 = Some r -> scenario_b_shape a cfg employee_id r)) as [_ H];
    [|exact H].
  revert Hloop.
  apply (for_each_invariant
           (fun st => (0 <= st.2)%Q
                      /\ (forall r, st.1 = Some r ->
                            scenario_b_shape a cfg employee_id r))).
  - intros st0 combo st1 Hcombo Hst0 Hstep.
    by eapply scenario_b_combo_shape.
  - split; [simpl; lra|done].
Qed.

(** X13: the configuration [detect_scenario_b] returns is a tree of
    the graph: the three handlers are contacts of the employee with a
    degree in the widened handler window, each middleman is a contact
    of its handler, is neither the employee nor a handler and has 15 to
    70 contacts and a betweenness above 0.005, and the leader is a
    contact of all three middlemen, none of the other seven nodes, with
    at least the configured minimum of contacts; the score is that of
    [_score_scenario_b_configuration], above 0 and at most 119. The
    listing of a set is assumed to list only its elements. *)
Theorem detect_scenario_b_tree (set_order : list Z -> list Z)
    (a : SocialNetworkAnalyzer) (cfg : Config) (employee_id : Z) (r : ScenarioB) :
  (forall l x, x ∈ set_order l -> x ∈ l) ->
  detect_scenario_b set_order a cfg employee_id = Returns (Some r) ->
  b_employee r = employee_id
  /\ exists h1 h2 h3,
       b_handlers r = [h1; h2; h3]
       /\ (forall h, h ∈ [h1; h2; h3] ->
             h ∈ get_neighbors a employee_id
             /\ handlers_expected_contacts_min cfg - 5 <= degree a h
                <= handlers_expected_contacts_max cfg + 5)
       /\ b_boris r ∈ get_neighbors a h1
       /\ b_morris r ∈ get_neighbors a h2
       /\ b_horace r ∈ get_neighbors a h3
       /\ (forall m, m ∈ [b_boris r; b_morris r; b_horace r] ->
             m <> employee_id /\ (m ∉ [h1; h2; h3])
             /\ 15 <= degree a m <= 70 /\ (0.005 < betweenness a m)%Q
             /\ b_fearless_leader r ∈ get_neighbors a m
             /\ b_fearless_leader r <> m)
       /\ (b_fearless_leader r ∉ [h1; h2; h3])
       /\ b_fearless_leader r <> employee_id
       /\ fearless_leader_min_contacts cfg <= degree a (b_fearless_leader r)
       /\ b_score r = _score_scenario_b_configuration a cfg employee_id [h1; h2; h3]
                        [b_boris r; b_morris r; b_horace r] (b_fearless_leader r)
       /\ (0 < b_score r)%Q /\ (b_score r <= 119)%Q.
Proof.
  intros Hset Hres. exact (detect_scenario_b_shape set_order a cfg employee_id r Hset Hres).
Qed.

Lemma detect_all_loop_unnamed (set_order : list Z -> list Z)
    (a : SocialNetworkAnalyzer) (cfg : Config) (dt : Z) (bt : Q)
    (todo : list (Z * Q)) (res : Results) :
  leader_thresholds a = Returns (dt, bt) ->
  (exists cand, cand ∈ todo /\ name_attr (graph a) !! cand.1 = None) ->
  for_each todo (detect_all_step set_order a cfg) res = Raises KeyError.
Proof.
  intros Hth. revert res. induction todo as [|cand0 todo IH]; intros res (cand & Hin & Hname).
  - by apply elem_of_nil in Hin.
  - simpl. destruct (name_attr (graph a) !! cand0.1) as [name|] eqn:Hname0.
    + pose proof (detect_scenario_a_refines a cfg dt bt Hth cand0.1) as HA.
      destruct (detect_scenario_b_returns set_order a cfg dt bt Hth cand0.1) as [rb HB].
      rewrite (detect_all_step_value set_order a cfg res cand0
                 (scenario_a_recorded a cfg dt bt cand0.1) rb); [|by eexists|done|done].
      cbn [mbind outcome_bind]. apply IH. exists cand. split; [|done].
      apply elem_of_cons in Hin as [->|Hin]; [congruence|done].
    + unfold detect_all_step, node_name. rewrite Hname0. done.
Qed.

(** X14: [detect_all_patterns] ends in a [KeyError] when one of the
    first 5 employee candidates has no name in the graph, as a node
    has that only the links table mentions: the loop reads the name of
    each candidate before it searches. *)
Theorem detect_all_patterns_unnamed (set_order : list Z -> list Z)
    (a : SocialNetworkAnalyzer) (cfg : Config) (cand : Z * Q) :
  metric_table a "betweenness_centrality" <> [] ->
  cand ∈ slice_to 5 (identify_employee_candidates a cfg) ->
  name_attr (graph a) !! cand.1 = None ->
  detect_all_patterns set_order a cfg = Raises KeyError.
Proof.
  intros Htab Hin Hname.
  assert (nodes (graph a) <> []) as Hn.
  { apply slice_to_elem_of in Hin.
    assert (cand.1 ∈ (identify_employee_candidates a cfg).*1) as Hc
      by (apply list_elem_of_fmap; eauto).
    apply identify_employee_candidates_ids in Hc as [Hc _].
    intros Hnil. rewrite Hnil in Hc. by apply elem_of_nil in Hc. }
  destruct (leader_thresholds_returns a Hn Htab) as (dt & bt & Hth & _).
  unfold detect_all_patterns.
  apply (detect_all_loop_unnamed set_order a cfg dt bt _ _ Hth).
  by exists cand.
Qed.

Lemma common_fold_elem (a : SocialNetworkAnalyzer) (rest : list Z) (common : list Z)
    (n : Z) :
  n ∈ fold_left (fun common handler_id =>
                   filter (fun n => n ∈ py_set (get_neighbors a handler_id)) common)
        rest common
  <-> n ∈ common /\ forall h, h ∈ rest -> n ∈ get_neighbors a h.
Proof.
  revert common. induction rest as [|h rest IH]; intros common; simpl.
  - split; [|tauto]. intros Hn. split; [done|]. by intros h ?%elem_of_nil.
  - rewrite IH, list_elem_of_filter. unfold py_set. rewrite elem_of_remove_dups.
    split.
    + intros [[Hh Hc] Hrest]. split; [done|].
      intros h' [->|Hh']%elem_of_cons; [done|by apply Hrest].
    + intros [Hc Hall]. split; [split; [|done]|].
      * apply Hall, list_elem_of_here.
      * intros h' Hh'. by apply Hall, list_elem_of_further.
Qed.

Lemma common_fold_NoDup (a : SocialNetworkAnalyzer) (rest : list Z) (common : list Z) :
  NoDup common ->
  NoDup (fold_left (fun common handler_id =>
                      filter (fun n => n ∈ py_set (get_neighbors a handler_id)) common)
           rest common).
Proof.
  revert common. induction rest as [|h rest IH]; intros common Hnd; simpl; [done|].
  by apply IH, NoDup_filter.
Qed.

Lemma StronglySorted_Forall {A} (R : relation A) (P : A -> Prop) (l : list A) :
  StronglySorted R l -> Forall P l ->
  StronglySorted (fun x y => R x y /\ P x /\ P y) l.
Proof.
  induction 1 as [|x l Hl IH Hx]; intros Hall; [constructor|].
  apply Forall_cons in Hall as [Hpx Hpl]. constructor; [by apply IH|].
  rewrite Forall_forall in *. intros y Hy. split; [by apply Hx|]. split; [done|].
  by apply Hpl.
Qed.

(** X15: [_find_common_middleman] returns nothing for no handler, and
    otherwise the nodes that are contacts of every handler given, each
    once, sorted descending by betweenness. The listing of a set is
    assumed to be a permutation of it. *)
Theorem _find_common_middleman_correct (set_order : list Z -> list Z)
    (a : SocialNetworkAnalyzer) (handler_ids : list Z) :
  (forall l, set_order l ≡ₚ l) ->
  (handler_ids = [] -> _find_common_middleman set_order a handler_ids = [])
  /\ (forall n, n ∈ _find_common_middleman set_order a handler_ids <->
        handler_ids <> [] /\ forall h, h ∈ handler_ids -> n ∈ get_neighbors a h)
  /\ NoDup (_find_common_middleman set_order a handler_ids)
  /\ StronglySorted (fun x y => (betweenness a y <= betweenness a x)%Q)
       (_find_common_middleman set_order a handler_ids).
Proof.
  intros Hperm. split; [by intros ->|].
  destruct handler_ids as [|h0 rest].
  { simpl. split; [|split; constructor].
    intros n. split; [by intros ?%elem_of_nil|]. by intros [? _]. }
  unfold _find_common_middleman. cbv zeta.
  set (common := fold_left _ rest (py_set (get_neighbors a h0))).
  assert (forall n, n ∈ common <-> forall h, h ∈ h0 :: rest -> n ∈ get_neighbors a h)
    as Hcommon.
  { intros n. unfold common. rewrite common_fold_elem. unfold py_set.
    rewrite elem_of_remove_dups. split.
    - intros [H0 Hrest] h [->|Hh]%elem_of_cons; [done|by apply Hrest].
    - intros Hall. split; [apply Hall, list_elem_of_here|].
      intros h Hh. by apply Hall, list_elem_of_further. }
  assert (NoDup common) as Hnd.
  { apply common_fold_NoDup. apply NoDup_remove_dups. }
  set (pairs := map (fun node => (node, betweenness a node)) (set_order common)).
  assert ((sort_desc snd pairs).*1 ≡ₚ common) as Hids.
  { rewrite sort_desc_perm. unfold pairs.
    change (map (fun node => (node, betweenness a node)) (set_order common))
      with ((fun node => (node, betweenness a node)) <$> set_order common).
    rewrite fmap_fst_pairing. apply Hperm. }
  change (map fst (sort_desc snd pairs)) with ((sort_desc snd pairs).*1).
  split; [|split].
  - intros n. rewrite Hids, Hcommon. split; [by intros ?|tauto].
  - by rewrite Hids.
  - assert (Forall (fun p : Z * Q => p.2 = betweenness a p.1) (sort_desc snd pairs))
      as Hsnd.
    { rewrite Forall_forall. intros p Hp. apply sort_desc_elem_of in Hp.
      unfold pairs in Hp.
      change (map (fun node => (node, betweenness a node)) (set_order common))
        with ((fun node => (node, betweenness a node)) <$> set_order common) in Hp.
      by apply list_elem_of_fmap in Hp as (n & -> & _). }
    pose proof (StronglySorted_Forall _ _ _ (sort_desc_sorted snd pairs) Hsnd) as Hsorted.
    eapply (StronglySorted_fmap fst); [|exact Hsorted].
    intros x y (Hxy & Hx & Hy). cbv beta in *. unfold desc in Hxy.
    by rewrite <- Hx, <- Hy.
Qed.

(** ** Queries of the analyzer *)

(** X16: [get_nodes_by_degree_range] returns the nodes with a degree
    in the closed range, each paired with its degree, sorted
    descending by degree; nothing when the range is empty. *)
Theorem get_nodes_by_degree_range_correct (a : SocialNetworkAnalyzer)
    (min_degree max_degree : Z) :
  get_nodes_by_degree_range a min_degree max_degree
    ≡ₚ (fun n => (n, degree a n))
         <$> filter (fun n => min_degree <= degree a n <= max_degree) (nodes (graph a))
  /\ StronglySorted (fun x y : Z * Z => y.2 <= x.2)
       (get_nodes_by_degree_range a min_degree max_degree)
  /\ (max_degree < min_degree -> get_nodes_by_degree_range a min_degree max_degree = []).
Proof.
  unfold get_nodes_by_degree_range. cbv zeta.
  rewrite (flat_map_if_fmap_filter
             (fun n => (min_degree <=? degree a n) && (degree a n <=? max_degree))
             (fun n => min_degree <= degree a n <= max_degree)
             (fun n => (n, degree a n))).
  2: { intros n. rewrite andb_true_iff, Z.leb_le, Z.leb_le. done. }
  split; [apply sort_desc_perm|]. split.
  - eapply StronglySorted_weaken; [|apply sort_desc_sorted].
    intros x y Hxy. unfold desc in Hxy. cbv beta in Hxy. by rewrite Zle_Qle.
  - intros Hempty.
    assert (filter (fun n => min_degree <= degree a n <= max_degree) (nodes (graph a)) = [])
      as ->; [|done].
    induction (nodes (graph a)) as [|n l IH]; [done|].
    rewrite filter_cons_False by lia. done.
Qed.

(** X17: [get_common_neighbors] lists the nodes that are contacts of
    both nodes, each once, and the same nodes when the two are
    swapped. The listing of a set is assumed to be a permutation of
    it. *)
Theorem get_common_neighbors_correct (set_order : list Z -> list Z)
    (a : SocialNetworkAnalyzer) (node1 node2 : Z) :
  (forall l, set_order l ≡ₚ l) ->
  (forall n, n ∈ get_common_neighbors set_order a node1 node2 <->
     n ∈ get_neighbors a node1 /\ n ∈ get_neighbors a node2)
  /\ NoDup (get_common_neighbors set_order a node1 node2)
  /\ get_common_neighbors set_order a node1 node2
       ≡ₚ get_common_neighbors set_order a node2 node1.
Proof.
  intros Hperm.
  assert (forall n1 n2 n, n ∈ get_common_neighbors set_order a n1 n2 <->
            n ∈ get_neighbors a n1 /\ n ∈ get_neighbors a n2) as Helem.
  { intros n1 n2 n. unfold get_common_neighbors, py_set. cbv zeta.
    rewrite Hperm, list_elem_of_filter, !elem_of_remove_dups. tauto. }
  assert (forall n1 n2, NoDup (get_common_neighbors set_order a n1 n2)) as Hnd.
  { intros n1 n2. unfold get_common_neighbors, py_set. cbv zeta.
    rewrite Hperm. apply NoDup_filter, NoDup_remove_dups. }
  split; [apply Helem|]. split; [apply Hnd|].
  apply NoDup_Permutation; [apply Hnd|apply Hnd|].
  intros n. rewrite !Helem. tauto.
Qed.

Lemma metric_lookup_cases (a : SocialNetworkAnalyzer) (name : string) :
  match metric_lookup a name with
  | Returns t => metrics a !! name = Some t
  | Raises e => e = KeyError /\ metrics a !! name = None
  end.
Proof. unfold metric_lookup. by destruct (metrics a !! name). Qed.

(** X18: [get_node_info] returns the empty dict exactly for an id that
    is not a node of the graph. For a node it raises a [KeyError]
    exactly when some metric is stored but one of the five tables it
    reads is not; otherwise the dict carries the id, the degree and
    the neighbour list of the node, the defaults ["Unknown"] for a
    missing name or city, and the metric entries exactly when some
    metric is stored. *)
Theorem get_node_info_correct (a : SocialNetworkAnalyzer) (node_id : Z) :
  (get_node_info a node_id = Returns None <-> node_id ∉ nodes (graph a))
  /\ (get_node_info a node_id = Raises KeyError <->
        node_id ∈ nodes (graph a) /\ metrics a <> ∅
        /\ exists name,
             name ∈ ["degree_centrality"; "betweenness_centrality";
                     "closeness_centrality"; "clustering_coefficient";
                     "communities"]%string
             /\ metrics a !! name = None)
  /\ get_node_info a node_id <> Raises IndexError
  /\ (forall info, get_node_info a node_id = Returns (Some info) ->
        info_id info = node_id
        /\ info_name info = default "Unknown"%string (name_attr (graph a) !! node_id)
        /\ info_city info = default "Unknown"%string (city_attr (graph a) !! node_id)
        /\ info_degree info = degree a node_id
        /\ info_neighbors info = get_neighbors a node_id
        /\ (is_Some (info_metrics info) <-> metrics a <> ∅)).
Proof.
  unfold get_node_info. cbv zeta.
  destruct (memZ node_id (nodes (graph a))) eqn:Hnode; simpl negb; cbv iota.
  2: { apply memZ_false in Hnode. split; [done|]. split; [|split; [done|done]].
       split; [done|]. by intros [? _]. }
  apply memZ_true in Hnode.
  destruct (decide (metrics a = ∅)) as [Hempty|Hsome].
  { split; [split; [done|by intros ?]|]. split; [split; [done|by intros (_ & ? & _)]|].
    split; [done|]. intros info [= <-]. simpl.
    do 5 (split; [done|]). split; [by intros [? ?]|done]. }
  pose proof (metric_lookup_cases a "degree_centrality") as H1.
  pose proof (metric_lookup_cases a "betweenness_centrality") as H2.
  pose proof (metric_lookup_cases a "closeness_centrality") as H3.
  pose proof (metric_lookup_cases a "clustering_coefficient") as H4.
  pose proof (metric_lookup_cases a "communities") as H5.
  assert (forall name,
            name ∈ ["degree_centrality"; "betweenness_centrality";
                    "closeness_centrality"; "clustering_coefficient";
                    "communities"]%string ->
            metrics a !! name = None ->
            metrics a !! "degree_centrality"%string = None
            \/ metrics a !! "betweenness_centrality"%string = None
            \/ metrics a !! "closeness_centrality"%string = None
            \/ metrics a !! "clustering_coefficient"%string = None
            \/ metrics a !! "communities"%string = None) as Hnames.
  { intros name Hin Hnone. rewrite !elem_of_cons, elem_of_nil in Hin.
    destruct Hin as [->|[->|[->|[->|[->|[]]]]]]; tauto. }
  assert (forall name,
            name ∈ ["degree_centrality"; "betweenness_centrality";
                    "closeness_centrality"; "clustering_coefficient";
                    "communities"]%string ->
            metrics a !! name = None ->
            exists name,
              name ∈ ["degree_centrality"; "betweenness_centrality";
                      "closeness_centrality"; "clustering_coefficient";
                      "communities"]%string
              /\ metrics a !! name = None) as Hex by eauto.
  destruct (metric_lookup a "degree_centrality") as [dc|e1]; cbn [mbind outcome_bind].
  2: { destruct H1 as [-> H1]. split; [done|]. split; [|split; [done|done]].
       split; [|done]. intros _. split; [done|]. split; [done|].
       apply (Hex "degree_centrality"%string); [|done]. rewrite !elem_of_cons. tauto. }
  destruct (metric_lookup a "betweenness_centrality") as [bc|e2]; cbn [mbind outcome_bind].
  2: { destruct H2 as [-> H2]. split; [done|]. split; [|split; [done|done]].
       split; [|done]. intros _. split; [done|]. split; [done|].
       apply (Hex "betweenness_centrality"%string); [|done]. rewrite !elem_of_cons. tauto. }
  destruct (metric_lookup a "closeness_centrality") as [cc|e3]; cbn [mbind outcome_bind].
  2: { destruct H3 as [-> H3]. split; [done|]. split; [|split; [done|done]].
       split; [|done]. intros _. split; [done|]. split; [done|].
       apply (Hex "closeness_centrality"%string); [|done]. rewrite !elem_of_cons. tauto. }
  destruct (metric_lookup a "clustering_coefficient") as [cl|e4]; cbn [mbind outcome_bind].
  2: { destruct H4 as [-> H4]. split; [done|]. split; [|split; [done|done]].
       split; [|done]. intros _. split; [done|]. split; [done|].
       apply (Hex "clustering_coefficient"%string); [|done]. rewrite !elem_of_cons. tauto. }
  destruct (metric_lookup a "communities") as [cm|e5]; cbn [mbind outcome_bind].
  2: { destruct H5 as [-> H5]. split; [done|]. split; [|split; [done|done]].
       split; [|done]. intros _. split; [done|]. split; [done|].
       apply (Hex "communities"%string); [|done]. rewrite !elem_of_cons. tauto. }
  split; [split; [done|by intros ?]|]. split.
  { split; [done|]. intros (_ & _ & name & Hin & Hnone).
    destruct (Hnames name Hin Hnone) as [?|[?|[?|[?|?]]]]; congruence. }
  split; [done|]. intros info [= <-]. simpl.
  do 5 (split; [done|]). split; [done|by eexists].
Qed.

(** X19: for a stored metric [get_top_nodes_by_metric] returns a prefix
    of the entries sorted descending by value: the first [top_n] of
    them when [top_n] is not negative, and all but the last [-top_n]
    when it is, which is nothing once [-top_n] reaches their number. *)
Theorem get_top_nodes_by_metric_slice (a : SocialNetworkAnalyzer)
    (metric_name : string) (top_n : Z) (metric_data : list (Z * Q)) :
  metrics a !! metric_name = Some metric_data ->
  get_top_nodes_by_metric a metric_name top_n `prefix_of` sort_desc snd metric_data
  /\ len (get_top_nodes_by_metric a metric_name top_n)
     = (if top_n <? 0 then Z.max 0 (len metric_data + top_n)
        else Z.min top_n (len metric_data))
  /\ (len metric_data <= top_n ->
      get_top_nodes_by_metric a metric_name top_n = sort_desc snd metric_data)
  /\ (top_n <= - len metric_data -> get_top_nodes_by_metric a metric_name top_n = []).
Proof.
  intros Hdata. unfold get_top_nodes_by_metric. rewrite Hdata. cbv zeta.
  unfold slice_to, len. rewrite sort_desc_length.
  pose proof (sort_desc_length snd metric_data) as Hlen.
  set (sorted := sort_desc snd metric_data) in *. clearbody sorted.
  destruct (Z.ltb_spec top_n 0) as [Hneg|Hpos].
  - split; [apply prefix_take|]. rewrite length_take. split; [lia|]. split; [lia|].
    intros Hall. replace (Z.to_nat _) with 0%nat by lia. done.
  - split; [apply prefix_take|]. rewrite length_take. split; [lia|].
    split.
    + intros Hall. apply take_ge. lia.
    + intros Hnone. replace (Z.to_nat top_n) with 0%nat by lia. done.
Qed.

(** ** The geospatial analyzer *)

Lemma remove_dups_length_le {A} `{EqDecision A} (l : list A) :
  (length (remove_dups l) <= length l)%nat.
Proof.
  induction l as [|x l IH]; simpl; [done|]. destruct (decide_rel _ _ _); simpl; lia.
Qed.

Lemma remove_dups_length_eq {A} `{EqDecision A} (l : list A) :
  length (remove_dups l) = length l <-> NoDup l.
Proof.
  induction l as [|x l IH]; simpl.
  - split; [constructor|done].
  - pose proof (remove_dups_length_le l) as Hle.
    destruct (decide_rel _ _ _) as [Hin|Hnin]; simpl.
    + split; [lia|]. intros Hnd. apply NoDup_cons in Hnd as [? _]. done.
    + rewrite NoDup_cons. split.
      * intros Hlen. split; [done|]. apply IH. lia.
      * intros [_ Hnd]. apply IH in Hnd. lia.
Qed.

(** X20: the city diversity score of no node is 0; otherwise it lies
    in (0, 1], and it is 1 exactly when the nodes have pairwise
    distinct cities, every node without a location counting for the
    one city ["Unknown"]. *)
Theorem get_city_diversity_score_correct (geo : GeospatialAnalyzer) (node_ids : list Z) :
  (node_ids = [] -> get_city_diversity_score geo node_ids = 0%Q)
  /\ (node_ids <> [] ->
      (0 < get_city_diversity_score geo node_ids)%Q
      /\ (get_city_diversity_score geo node_ids <= 1)%Q)
  /\ ((get_city_diversity_score geo node_ids == 1)%Q <->
      node_ids <> [] /\ NoDup (map (get_city geo) node_ids)).
Proof.
  split; [by intros ->|].
  destruct node_ids as [|n0 rest].
  { split; [done|]. split; [by intros ?|by intros [? _]]. }
  unfold get_city_diversity_score. cbv zeta.
  set (cities := map (get_city geo) (n0 :: rest)).
  assert (0 < len cities) as Hpos by (unfold len, cities; simpl; lia).
  destruct (Z.ltb_spec 0 (len cities)) as [_|?]; [|lia].
  pose proof (remove_dups_length_le cities) as Hle.
  pose proof (remove_dups_length_eq cities) as Heq.
  assert (0 < len (remove_dups cities)) as Hupos.
  { unfold len, cities. simpl. destruct (decide_rel _ _ _) as [Hin|Hnin]; simpl; [|lia].
    destruct (remove_dups (map (get_city geo) rest)) eqn:Hr; simpl; [|lia].
    apply elem_of_remove_dups in Hin. rewrite Hr in Hin. by apply elem_of_nil in Hin. }
  assert (0 < inject_Z (len cities))%Q as HposQ.
  { change 0%Q with (inject_Z 0). by rewrite <- Zlt_Qlt. }
  assert (0 < inject_Z (len (remove_dups cities)))%Q as HuposQ.
  { change 0%Q with (inject_Z 0). by rewrite <- Zlt_Qlt. }
  assert (inject_Z (len (remove_dups cities)) <= inject_Z (len cities))%Q as HleQ.
  { rewrite <- Zle_Qle. unfold len. lia. }
  split; [intros _; split|].
  - apply Qlt_shift_div_l; [done|]. lra.
  - apply Qle_shift_div_r; [done|]. lra.
  - assert (~ inject_Z (len cities) == 0)%Q as Hne.
    { intros H0. rewrite H0 in HposQ. by apply Qlt_irrefl in HposQ. }
    split.
    + intros H1. split; [done|]. apply Heq.
      assert (inject_Z (len (remove_dups cities)) == inject_Z (len cities))%Q as HeqQ.
      { transitivity (inject_Z (len cities)
                      * (inject_Z (len (remove_dups cities)) / inject_Z (len cities)))%Q.
        - symmetry. by apply Qmult_div_r.
        - rewrite H1. ring. }
      apply (proj1 (inject_Z_injective _ _)) in HeqQ. unfold len in HeqQ.
      by apply Nat2Z.inj in HeqQ.
    + intros [_ Hnd]. apply Heq in Hnd. unfold len. rewrite Hnd.
      fold (len cities). by field.
Qed.

Lemma international_fold (geo : GeospatialAnalyzer) (c : string) (l : list Z) (k : Z) :
  fold_left (fun different_city_count neighbor =>
               if negb (String.eqb (get_city geo neighbor) c)
               then different_city_count + 1 else different_city_count) l k
  = k + len (filter (fun m => get_city geo m <> c) l).
Proof.
  revert k. induction l as [|m l IH]; intros k; simpl.
  - unfold len. simpl. lia.
  - rewrite IH. destruct (String.eqb_spec (get_city geo m) c) as [Heq|Hne]; simpl.
    + rewrite filter_cons_False by (intros ?; done). done.
    + rewrite filter_cons_True by done. unfold len. simpl length. lia.
Qed.

(** X21: [find_international_connections] counts the neighbours of the
    node whose city differs from the node's own, a neighbour as often
    as the list has it; the count lies between 0 and the number of
    neighbours, and is 0 exactly when every neighbour has the node's
    city, the nodes without a location all having the city
    ["Unknown"]. *)
Theorem find_international_connections_correct (geo : GeospatialAnalyzer)
    (a : SocialNetworkAnalyzer) (node_id : Z) :
  find_international_connections geo a node_id
  = len (filter (fun m => get_city geo m <> get_city geo node_id)
           (get_neighbors a node_id))
  /\ 0 <= find_international_connections geo a node_id <= len (get_neighbors a node_id)
  /\ (find_international_connections geo a node_id = 0 <->
      forall m, m ∈ get_neighbors a node_id -> get_city geo m = get_city geo node_id).
Proof.
  unfold find_international_connections. cbv zeta. rewrite international_fold.
  rewrite Z.add_0_l.
  set (nbrs := get_neighbors a node_id).
  set (P := fun m => get_city geo m <> get_city geo node_id).
  pose proof (length_filter P nbrs) as Hle.
  split; [done|]. split; [unfold len; lia|]. split.
  - intros Hzero m Hm.
    destruct (decide (get_city geo m = get_city geo node_id)) as [|Hne]; [done|].
    assert (m ∈ filter P nbrs) as Hin by (by apply list_elem_of_filter).
    destruct (filter P nbrs); [by apply elem_of_nil in Hin|].
    unfold len in Hzero. simpl in Hzero. lia.
  - intros Hall.
    assert (filter P nbrs = []) as ->; [|done].
    induction nbrs as [|m l IH]; [done|].
    rewrite filter_cons_False.
    + apply IH.
      * etrans; [apply length_filter|done].
      * intros m' Hm'. by apply Hall, list_elem_of_further.
    + unfold P. intros Hne. apply Hne, Hall, list_elem_of_here.
Qed.

(** The number of middleman keys a dict of role nodes has. *)
Lemma middlemen_checks (keys : list (option Z)) (total_checks : Z) :
  fold_left (fun total_checks (key : option Z) =>
               match key with
               | Some _ => total_checks + 1
               | None => total_checks
               end) keys total_checks
  = total_checks + len (filter is_Some keys).
Proof.
  revert total_checks. induction keys as [|[m|] keys IH]; intros total_checks; simpl.
  - unfold len. simpl. lia.
  - rewrite IH, filter_cons_True by (by eexists). unfold len. simpl length. lia.
  - rewrite IH, filter_cons_False by (by intros [? ?]). done.
Qed.

Lemma handlers_counts (geo : GeospatialAnalyzer) (hs : list Z) (score checks : Z) :
  exists score',
    fold_left (fun '(score, total_checks) handler_id =>
                 (if is_large_city_geo geo (get_city geo handler_id)
                  then score + 1 else score,
                  total_checks + 1))
      hs (score, checks) = (score', checks + len hs)
    /\ score <= score' <= score + len hs.
Proof.
  revert score checks. induction hs as [|h hs IH]; intros score checks.
  - exists score. cbn [fold_left]. change (len (@nil Z)) with 0. rewrite Z.add_0_r.
    split; [done|lia].
  - cbn [fold_left].
    destruct (IH (if is_large_city_geo geo (get_city geo h) then score + 1 else score)
                 (checks + 1)) as (score' & -> & H1).
    exists score'.
    assert (len (h :: hs) = len hs + 1) as Hlen.
    { unfold len. simpl length. lia. }
    split; [f_equal; lia|].
    rewrite Hlen. destruct (is_large_city_geo _ _); lia.
Qed.

(** The two counters of [analyze_network_geography]: every middleman key
    adds a check and no score. *)
Lemma geography_counts_bounds (geo : GeospatialAnalyzer) (nn : NetworkNodes) :
  let checks :=
    match nn_employee nn with Some _ => 1 | None => 0 end + len (default [] (nn_handlers nn))
    + len (filter is_Some [nn_boris nn; nn_morris nn; nn_horace nn])
    + match nn_fearless_leader nn with Some _ => 1 | None => 0 end in
  (geography_counts geo nn).2 = checks
  /\ 0 <= (geography_counts geo nn).1
     <= checks - len (filter is_Some [nn_boris nn; nn_morris nn; nn_horace nn]).
Proof.
  unfold geography_counts. cbv zeta.
  set (mm := len (filter is_Some [nn_boris nn; nn_morris nn; nn_horace nn])).
  set (st0 := match nn_employee nn with
              | Some e => (if is_large_city_geo geo (get_city geo e) then 0 + 1 else 0,
                           0 + 1)
              | None => (0, 0)
              end).
  assert (st0.2 = match nn_employee nn with Some _ => 1 | None => 0 end
          /\ 0 <= st0.1 <= match nn_employee nn with Some _ => 1 | None => 0 end)
    as (Hc0 & Hs0).
  { unfold st0. destruct (nn_employee nn) as [e|]; cbn [fst snd].
    - split; [done|]. destruct (is_large_city_geo _ _); lia.
    - split; [done|lia]. }
  destruct st0 as [s0 c0]. cbn [fst snd] in *. subst c0.
  set (e1 := match nn_employee nn with Some _ => 1 | None => 0 end) in *.
  set (st1 := match nn_handlers nn with
              | Some hs => fold_left _ hs (s0, e1)
              | None => (s0, e1)
              end).
  assert (st1.2 = e1 + len (default [] (nn_handlers nn))
          /\ 0 <= st1.1 <= e1 + len (default [] (nn_handlers nn)))
    as (Hc1 & Hs1).
  { unfold st1. destruct (nn_handlers nn) as [hs|]; simpl.
    - destruct (handlers_counts geo hs s0 e1) as (s' & -> & H1). cbn [fst snd].
      split; [done|lia].
    - unfold len. simpl. lia. }
  destruct st1 as [s1 c1]. cbn [fst snd] in *. subst c1.
  set (h1 := len (default [] (nn_handlers nn))) in *.
  rewrite middlemen_checks. fold mm.
  destruct (nn_fearless_leader nn) as [l|]; cbn [fst snd].
  - split; [lia|]. destruct (is_large_city_geo _ _); lia.
  - split; [lia|]. lia.
Qed.

(** The binary64 value of the match on every pair of counters of up to
    256 checks: it lies between 0 and 100, and below 100 unless every
    check passed. *)
Lemma pattern_match_table :
  forallb (fun total_checks =>
             forallb (fun score =>
                        let pm := pattern_match score total_checks in
                        PrimFloat.leb 0 pm && PrimFloat.leb pm 100
                        && (if score <? total_checks
                            then negb (PrimFloat.leb 100 pm) else true))
               (seqZ 0 (total_checks + 1)))
    (seqZ 1 256) = true.
Proof. vm_compute. reflexivity. Qed.

Lemma forallb_seqZ (f : Z -> bool) (m n x : Z) :
  forallb f (seqZ m n) = true -> m <= x < m + n -> f x = true.
Proof.
  intros Hall Hx. rewrite forallb_forall in Hall. apply Hall.
  apply list_elem_of_In, elem_of_seqZ. lia.
Qed.

Lemma pattern_match_bounds (score total_checks : Z) :
  0 <= score <= total_checks -> 0 < total_checks <= 256 ->
  PrimFloat.leb 0 (pattern_match score total_checks) = true
  /\ PrimFloat.leb (pattern_match score total_checks) 100 = true
  /\ (score < total_checks ->
      PrimFloat.leb 100 (pattern_match score total_checks) = false).
Proof.
  intros Hs Ht.
  pose proof (forallb_seqZ _ 1 256 total_checks pattern_match_table ltac:(lia)) as Hrow.
  cbv beta in Hrow.
  pose proof (forallb_seqZ _ 0 (total_checks + 1) score Hrow ltac:(lia)) as Hcell.
  cbv beta zeta in Hcell.
  apply andb_true_iff in Hcell as [Hcell Hlt].
  apply andb_true_iff in Hcell as [H0 H100].
  split; [done|]. split; [done|].
  intros Hlt'. destruct (Z.ltb_spec score total_checks) as [_|?]; [|lia].
  by apply negb_true_iff in Hlt.
Qed.

(** Five checks passed out of six: the double is
    5864062014805334 / 2^46, which lies above 500/6. *)
Example pattern_match_5_of_6 :
  Prim2SF (pattern_match 5 6) = S754_finite false 5864062014805334 (-46)
  /\ (500 / 6 < 5864062014805334 # 70368744177664)%Q
  /\ 2 ^ 46 = 70368744177664.
Proof. vm_compute. done. Qed.

(** The dict of a Scenario A result whose six nodes all live in a large
    city: five checks pass, the middleman's does not count, and the
    match is that double. *)
Example analyze_network_geography_5_of_6 :
  geographic_pattern_match
    (analyze_network_geography Tables.geo_all_large
       {| nn_employee := Some 1; nn_handlers := Some [2; 3; 4]; nn_boris := Some 5;
          nn_morris := None; nn_horace := None; nn_fearless_leader := Some 6 |})
  = 0x1.4d55555555556p+6%float.
Proof. vm_compute. reflexivity. Qed.

(** X22: the counters and the geographic pattern match of
    [analyze_network_geography].  Every middleman key of the dict counts
    as a check that adds nothing to the score, and the match is the
    binary64 value of [(score / total_checks) * 100], or 0.0 without a
    check.  For a dict of at most 256 checks the match lies between 0
    and 100, and it is 100 only for a dict without middleman keys.  A
    Scenario A result with three handlers has 6 checks and a score of
    at most 5, so its match is at most the double 83.333333333333343
    (written [0x1.4d55555555556p+6] below); a Scenario B result with
    three handlers has 8 checks and a score of at most 5, so its match
    is at most 62.5. *)
Theorem analyze_network_geography_match (geo : GeospatialAnalyzer) :
  (forall nn,
     let score := (geography_counts geo nn).1 in
     let total_checks := (geography_counts geo nn).2 in
     let middlemen := len (filter is_Some [nn_boris nn; nn_morris nn; nn_horace nn]) in
     let pm := geographic_pattern_match (analyze_network_geography geo nn) in
     0 <= score <= total_checks - middlemen
     /\ pm = (if 0 <? total_checks then pattern_match score total_checks else 0%float)
     /\ (total_checks <= 256 ->
         PrimFloat.leb 0 pm = true /\ PrimFloat.leb pm 100 = true
         /\ (PrimFloat.leb 100 pm = true ->
             nn_boris nn = None /\ nn_morris nn = None /\ nn_horace nn = None)))
  /\ (forall c, length (a_handlers c) = 3%nat ->
        (geography_counts geo (network_nodes_a c)).2 = 6
        /\ (geography_counts geo (network_nodes_a c)).1 <= 5
        /\ PrimFloat.leb
             (geographic_pattern_match (analyze_network_geography geo (network_nodes_a c)))
             0x1.4d55555555556p+6 = true)
  /\ (forall r, length (b_handlers r) = 3%nat ->
        (geography_counts geo (network_nodes_b r)).2 = 8
        /\ (geography_counts geo (network_nodes_b r)).1 <= 5
        /\ PrimFloat.leb
             (geographic_pattern_match (analyze_network_geography geo (network_nodes_b r)))
             62.5 = true).
Proof.
  assert (forall nn,
            geographic_pattern_match (analyze_network_geography geo nn)
            = if 0 <? (geography_counts geo nn).2
              then pattern_match (geography_counts geo nn).1 (geography_counts geo nn).2
              else 0%float) as Hpm.
  { intros nn. unfold analyze_network_geography.
    by destruct (geography_counts geo nn) as [score c]. }
  split; [|split].
  - intros nn. cbv zeta.
    destruct (geography_counts_bounds geo nn) as (Hc & Hs). cbv zeta in Hc, Hs.
    rewrite <- Hc in Hs. clear Hc.
    set (mm := len (filter is_Some [nn_boris nn; nn_morris nn; nn_horace nn])) in *.
    assert (0 <= mm) as Hmm by apply len_nonneg.
    split; [done|]. split; [apply Hpm|]. intros Hle. rewrite Hpm.
    destruct (Z.ltb_spec 0 (geography_counts geo nn).2) as [Hpos|Hzero].
    + destruct (pattern_match_bounds (geography_counts geo nn).1
                  (geography_counts geo nn).2) as (H0 & H100 & Hlt); [lia|lia|].
      split; [done|]. split; [done|]. intros Hfull.
      assert (mm = 0) as Hmm0.
      { destruct (decide (mm = 0)) as [|Hnz]; [done|].
        rewrite Hlt in Hfull by lia. discriminate Hfull. }
      unfold mm in Hmm0.
      destruct (nn_boris nn), (nn_morris nn), (nn_horace nn); try done;
        unfold len in Hmm0; simpl in Hmm0; lia.
    + split; [done|]. split; [done|]. intros Hfull. discriminate Hfull.
  - intros c Hlen. rewrite Hpm.
    destruct (geography_counts_bounds geo (network_nodes_a c)) as (Hc & Hs).
    cbv zeta in Hc, Hs. rewrite <- Hc in Hs.
    cbn [network_nodes_a nn_employee nn_handlers nn_boris nn_morris nn_horace
         nn_fearless_leader default] in Hc, Hs.
    unfold len, id in Hc, Hs. rewrite Hlen in Hc. simpl in Hc, Hs. rewrite Hc in Hs |- *.
    split; [done|]. split; [lia|].
    set (score := (geography_counts geo (network_nodes_a c)).1) in *.
    assert (score = 0 \/ score = 1 \/ score = 2 \/ score = 3 \/ score = 4 \/ score = 5)
      as [-> | [-> | [-> | [-> | [-> | ->]]]]] by lia; vm_compute; reflexivity.
  - intros r Hlen. rewrite Hpm.
    destruct (geography_counts_bounds geo (network_nodes_b r)) as (Hc & Hs).
    cbv zeta in Hc, Hs. rewrite <- Hc in Hs.
    cbn [network_nodes_b nn_employee nn_handlers nn_boris nn_morris nn_horace
         nn_fearless_leader default] in Hc, Hs.
    unfold len, id in Hc, Hs. rewrite Hlen in Hc. simpl in Hc, Hs. rewrite Hc in Hs |- *.
    split; [done|]. split; [lia|].
    set (score := (geography_counts geo (network_nodes_b r)).1) in *.
    assert (score = 0 \/ score = 1 \/ score = 2 \/ score = 3 \/ score = 4 \/ score = 5)
      as [-> | [-> | [-> | [-> | [-> | ->]]]]] by lia; vm_compute; reflexivity.
Qed.

(** ** City statistics *)

Lemma counter_add_keys (c : list (string * Z)) (k : string) :
  (counter_add c k).*1 = if bool_decide (k ∈ c.*1) then c.*1 else c.*1 ++ [k].
Proof.
  induction c as [|[k' n] c IH].
  - rewrite bool_decide_eq_false_2; [done|]. by intros ?%elem_of_nil.
  - cbn [counter_add]. destruct (String.eqb_spec k' k) as [->|Hne].
    + rewrite bool_decide_eq_true_2; [done|]. apply list_elem_of_here.
    + rewrite fmap_cons, IH. cbn [fst]. destruct (bool_decide (k ∈ c.*1)) eqn:Hk.
      * apply bool_decide_eq_true in Hk.
        rewrite bool_decide_eq_true_2; [done|]. by apply list_elem_of_further.
      * apply bool_decide_eq_false in Hk.
        rewrite bool_decide_eq_false_2; [done|].
        intros [Heq|?]%elem_of_cons; [cbn [fst] in Heq; congruence|done].
Qed.

Lemma counter_get_add (c : list (string * Z)) (k k' : string) :
  counter_get (counter_add c k) k'
  = counter_get c k' + (if bool_decide (k = k') then 1 else 0).
Proof.
  induction c as [|[k0 n] c IH]; cbn [counter_add counter_get].
  - destruct (String.eqb_spec k k') as [->|Hne].
    + by rewrite bool_decide_eq_true_2.
    + by rewrite bool_decide_eq_false_2.
  - destruct (String.eqb_spec k0 k) as [->|Hne]; cbn [counter_get].
    + destruct (String.eqb_spec k k') as [->|Hne'].
      * by rewrite bool_decide_eq_true_2.
      * rewrite bool_decide_eq_false_2 by done. lia.
    + destruct (String.eqb_spec k0 k') as [->|Hne'].
      * rewrite bool_decide_eq_false_2 by congruence. lia.
      * apply IH.
Qed.

Lemma counter_get_elem (c : list (string * Z)) (k : string) (n : Z) :
  NoDup c.*1 -> (k, n) ∈ c <-> k ∈ c.*1 /\ counter_get c k = n.
Proof.
  induction c as [|[k0 n0] c IH]; intros Hnd.
  - split; [by intros ?%elem_of_nil|by intros [?%elem_of_nil _]].
  - rewrite fmap_cons in Hnd. cbn [fst] in Hnd.
    apply NoDup_cons in Hnd as [Hk0 Hnd]. specialize (IH Hnd).
    rewrite fmap_cons, !elem_of_cons. cbn [fst counter_get].
    destruct (String.eqb_spec k0 k) as [->|Hne].
    + split.
      * intros [[= ->]|Hin]; [by split; [left|]|].
        exfalso. apply Hk0. apply list_elem_of_fmap. by exists (k, n).
      * intros [_ ->]. by left.
    + rewrite IH. split.
      * intros [[= ? ?]|[? ?]]; [congruence|]. split; [by right|done].
      * intros [[?|?] ?]; [congruence|]. by right.
Qed.

Lemma occurrences_app (c : string) (l : list string) (k : string) :
  occurrences c (l ++ [k]) = occurrences c l + (if bool_decide (k = c) then 1 else 0).
Proof.
  unfold occurrences, len. rewrite filter_app, length_app.
  destruct (bool_decide (k = c)) eqn:Hk.
  - apply bool_decide_eq_true in Hk. rewrite filter_cons_True by done. simpl. lia.
  - apply bool_decide_eq_false in Hk. rewrite filter_cons_False by done. simpl. lia.
Qed.

(** What [Counter] holds: the distinct elements, each with the number of
    its occurrences. *)
Lemma Counter_spec (l : list string) :
  NoDup (Counter l).*1
  /\ (forall c, c ∈ (Counter l).*1 <-> c ∈ l)
  /\ (forall c, counter_get (Counter l) c = occurrences c l).
Proof.
  unfold Counter. induction l as [|k l IH] using rev_ind.
  - split; [constructor|]. split; done.
  - rewrite fold_left_app. cbn [fold_left]. destruct IH as (Hnd & Hkeys & Hget).
    set (cnt := fold_left counter_add l []) in *.
    split; [|split].
    + rewrite counter_add_keys. destruct (bool_decide (k ∈ cnt.*1)) eqn:Hk; [done|].
      apply bool_decide_eq_false in Hk. apply NoDup_app. split; [done|].
      split; [|apply NoDup_singleton].
      intros x Hx ->%list_elem_of_singleton. done.
    + intros c. rewrite counter_add_keys, elem_of_app, list_elem_of_singleton.
      destruct (bool_decide (k ∈ cnt.*1)) eqn:Hk.
      * apply bool_decide_eq_true in Hk. rewrite Hkeys. split; [tauto|].
        intros [?| ->]; [done|by apply Hkeys].
      * rewrite elem_of_app, list_elem_of_singleton, Hkeys. done.
    + intros c. by rewrite counter_get_add, occurrences_app, Hget.
Qed.

Lemma str_dict_set_fresh {V} (d : list (string * V)) (k : string) (v : V) :
  k ∉ d.*1 -> str_dict_set d k v = d ++ [(k, v)].
Proof.
  induction d as [|[k' v'] d IH]; intros Hk; [done|].
  rewrite fmap_cons, not_elem_of_cons in Hk. destruct Hk as [Hne Hk]. cbn [fst] in Hne.
  cbn [str_dict_set]. destruct (String.eqb_spec k' k) as [->|_]; [done|].
  by rewrite IH.
Qed.

(** The loop of [get_city_statistics] over a dict with distinct keys
    keeps, in order, the entries of the large cities and those of the
    small cities that are not large. *)
Lemma city_loop_filter (geo : GeospatialAnalyzer) (city_counts : list (string * Z)) :
  NoDup city_counts.*1 ->
  fold_left (fun (st : list (string * Z) * list (string * Z)) (item : string * Z) =>
               let '(large, small) := st in
               let '(c, count) := item in
               if is_large_city_geo geo c then (str_dict_set large c count, small)
               else if is_small_city_geo geo c then (large, str_dict_set small c count)
               else (large, small))
    city_counts ([], [])
  = (filter (fun item => item.1 ∈ geo_large_cities geo) city_counts,
     filter (fun item => (item.1 ∉ geo_large_cities geo)
                         /\ item.1 ∈ geo_small_cities geo) city_counts).
Proof.
  induction city_counts as [|[c n] l IH] using rev_ind; intros Hnd; [done|].
  rewrite fmap_app in Hnd. apply NoDup_app in Hnd as (Hnd & Hfresh & _).
  rewrite fold_left_app, IH by done. cbn [fold_left]. rewrite !filter_app.
  assert (c ∉ l.*1) as Hc.
  { intros Hin. apply (Hfresh c Hin). apply list_elem_of_here. }
  assert (forall P `{!forall x, Decision (P x)}, c ∉ (filter P l).*1) as Hcf.
  { intros P ? Hin. apply Hc. apply list_elem_of_fmap in Hin as ([c' n'] & -> & Hin).
    apply list_elem_of_filter in Hin as [_ Hin]. apply list_elem_of_fmap.
    by exists (c', n'). }
  unfold is_large_city_geo, is_small_city_geo, mem_str.
  destruct (bool_decide (c ∈ geo_large_cities geo)) eqn:Hlarge.
  - apply bool_decide_eq_true in Hlarge.
    rewrite str_dict_set_fresh by apply Hcf.
    rewrite (filter_cons_True _ (c, n)) by done.
    rewrite (filter_cons_False _ (c, n)) by (cbn [fst]; tauto).
    by rewrite app_nil_r.
  - apply bool_decide_eq_false in Hlarge.
    rewrite (filter_cons_False _ (c, n)) by done. rewrite app_nil_r.
    destruct (bool_decide (c ∈ geo_small_cities geo)) eqn:Hsmall.
    + apply bool_decide_eq_true in Hsmall.
      rewrite str_dict_set_fresh by apply Hcf.
      by rewrite (filter_cons_True _ (c, n)) by done.
    + apply bool_decide_eq_false in Hsmall.
      rewrite (filter_cons_False _ (c, n)) by (cbn [fst]; tauto).
      by rewrite app_nil_r.
Qed.

(** X25: [get_city_statistics] counts, for every city that some id of
    the locations table has, the ids that have it: the populations
    list each such city once with that number, and [total_cities] is
    the number of distinct cities. The large cities of the result are
    the listed cities in the large set, the small cities the listed
    cities in the small set that are not in the large set: a city in
    both sets counts as large only. *)
Theorem get_city_statistics_correct (geo : GeospatialAnalyzer) :
  NoDup (city_populations (get_city_statistics geo)).*1
  /\ (forall c n, (c, n) ∈ city_populations (get_city_statistics geo) <->
        c ∈ (id_to_city geo).*2 /\ n = occurrences c (id_to_city geo).*2)
  /\ total_cities (get_city_statistics geo) = len (remove_dups (id_to_city geo).*2)
  /\ (forall c n, (c, n) ∈ stats_large_cities (get_city_statistics geo) <->
        (c, n) ∈ city_populations (get_city_statistics geo)
        /\ c ∈ geo_large_cities geo)
  /\ (forall c n, (c, n) ∈ stats_small_cities (get_city_statistics geo) <->
        (c, n) ∈ city_populations (get_city_statistics geo)
        /\ c ∈ geo_small_cities geo /\ (c ∉ geo_large_cities geo)).
Proof.
  unfold get_city_statistics. cbv zeta.
  change (map snd (id_to_city geo)) with ((id_to_city geo).*2).
  destruct (Counter_spec (id_to_city geo).*2) as (Hnd & Hkeys & Hget).
  rewrite (city_loop_filter geo _ Hnd).
  cbn [total_cities city_populations stats_large_cities stats_small_cities].
  split; [done|]. split; [|split; [|split]].
  - intros c n. rewrite counter_get_elem by done. rewrite Hkeys, Hget. split.
    + by intros [? <-].
    + by intros [? ->].
  - unfold len. f_equal.
    assert ((Counter (id_to_city geo).*2).*1 ≡ₚ remove_dups (id_to_city geo).*2) as Hperm.
    { apply NoDup_Permutation; [done|apply NoDup_remove_dups|].
      intros c. by rewrite Hkeys, elem_of_remove_dups. }
    by rewrite <- Hperm, length_fmap.
  - intros c n. rewrite list_elem_of_filter. cbn [fst]. tauto.
  - intros c n. rewrite list_elem_of_filter. cbn [fst]. tauto.
Qed.

(** ** The conclusion of the report *)

Lemma py_max_spec (x : Q) (l : list Q) :
  (py_max x l = x \/ py_max x l ∈ l)
  /\ (x <= py_max x l)%Q
  /\ forall y, y ∈ l -> (y <= py_max x l)%Q.
Proof.
  unfold py_max. revert x. induction l as [|z l IH]; intros x; simpl.
  - split; [by left|]. split; [apply Qle_refl|]. by intros y ?%elem_of_nil.
  - destruct (Qltb x z) eqn:Hlt.
    + apply Qltb_lt in Hlt. destruct (IH z) as (Hin & Hle & Hall).
      split; [|split].
      * right. destruct Hin as [->|Hin]; [apply list_elem_of_here|by apply list_elem_of_further].
      * eapply Qle_trans; [apply Qlt_le_weak, Hlt|done].
      * intros y [->|Hy]%elem_of_cons; [done|by apply Hall].
    + apply Qltb_ge in Hlt. destruct (IH x) as (Hin & Hle & Hall).
      split; [|split].
      * destruct Hin as [Heq|Hin]; [by left|right; by apply list_elem_of_further].
      * done.
      * intros y [->|Hy]%elem_of_cons; [by eapply Qle_trans|by apply Hall].
Qed.

Lemma max_or_zero_spec (l : list Q) :
  match l with
  | [] => max_or_zero l = 0%Q
  | _ => max_or_zero l ∈ l
  end
  /\ forall y, y ∈ l -> (y <= max_or_zero l)%Q.
Proof.
  destruct l as [|x l]; simpl.
  - split; [done|]. by intros y ?%elem_of_nil.
  - destruct (py_max_spec x l) as (Hin & Hle & Hall). split.
    + destruct Hin as [->|Hin]; [apply list_elem_of_here|by apply list_elem_of_further].
    + intros y [->|Hy]%elem_of_cons; [done|by apply Hall].
Qed.

Lemma a_scores_elem (results : Results) (s : Q) :
  s ∈ flat_map (fun entry : Z * list ScenarioA => map a_score entry.2)
        (map_to_list (scenario_a results))
  <-> a_score_of results s.
Proof.
  rewrite elem_of_flat_map. unfold a_score_of. split.
  - intros ([e l] & Hin%elem_of_map_to_list & Hs). simpl in Hs.
    change (map a_score l) with (a_score <$> l) in Hs.
    apply list_elem_of_fmap in Hs as (c & -> & Hc). by exists e, l, c.
  - intros (e & l & c & Hl & Hc & <-). exists (e, l). split.
    + by apply elem_of_map_to_list.
    + simpl. change (map a_score l) with (a_score <$> l).
      apply list_elem_of_fmap. by exists c.
Qed.

Lemma b_scores_elem (results : Results) (s : Q) :
  s ∈ map (fun entry : Z * ScenarioB => b_score entry.2)
        (map_to_list (scenario_b results))
  <-> b_score_of results s.
Proof.
  change (map ?f ?l) with (f <$> l). rewrite list_elem_of_fmap.
  unfold b_score_of. split.
  - intros ([e r] & -> & Hin%elem_of_map_to_list). by exists e, r.
  - intros (e & r & Hr & <-). exists (e, r). split; [done|].
    by apply elem_of_map_to_list.
Qed.

(** X24: the conclusion of the report names Scenario A only when the
    greatest Scenario A score is strictly above every Scenario B
    score, and above 0 when there is no Scenario B configuration;
    whenever a configuration of either scenario exists and this fails,
    it names Scenario B, with confidence 0 when there is no Scenario B
    configuration at all, as when every Scenario A configuration found
    has score 0. It reports no pattern exactly when both maps are
    empty. Without any Scenario A score the score 0 stands for
    Scenario A, which is then named only over negative Scenario B
    scores. *)
Theorem report_conclusion_correct (results : Results) :
  match report_conclusion results with
  | NoPattern => scenario_a results = ∅ /\ scenario_b results = ∅
  | MostLikelyA s =>
      (a_score_of results s
       \/ s = 0%Q /\ (forall y, ~ a_score_of results y)
          /\ exists y, b_score_of results y /\ (y < 0)%Q)
      /\ (forall y, a_score_of results y -> (y <= s)%Q)
      /\ (forall y, b_score_of results y -> (y < s)%Q)
      /\ (scenario_b results = ∅ -> (0 < s)%Q)
  | MostLikelyB s =>
      ~ (scenario_a results = ∅ /\ scenario_b results = ∅)
      /\ (forall y, a_score_of results y -> (y <= s)%Q)
      /\ (forall y, b_score_of results y -> (y <= s)%Q)
      /\ (if decide (scenario_b results = ∅) then s = 0%Q else b_score_of results s)
  end.
Proof.
  unfold report_conclusion.
  destruct (decide (scenario_a results = ∅ /\ scenario_b results = ∅)) as [|Hsome];
    [done|]. cbv zeta.
  set (all_a := if decide (scenario_a results = ∅) then []
                else flat_map _ (map_to_list (scenario_a results))).
  assert (forall y, y ∈ all_a <-> a_score_of results y) as Ha.
  { intros y. unfold all_a. destruct (decide (scenario_a results = ∅)) as [He|Hne].
    - split; [by intros ?%elem_of_nil|].
      intros (e & l & c & Hl & _). rewrite He, lookup_empty in Hl. done.
    - apply a_scores_elem. }
  clearbody all_a.
  set (best_b := if decide (scenario_b results = ∅) then 0%Q else max_or_zero _).
  assert ((forall y, b_score_of results y -> (y <= best_b)%Q)
          /\ (if decide (scenario_b results = ∅) then best_b = 0%Q
              else b_score_of results best_b)) as [Hb Hbin].
  { unfold best_b. destruct (decide (scenario_b results = ∅)) as [He|Hne].
    - split; [|done]. intros y (e & r & Hr & _). rewrite He, lookup_empty in Hr. done.
    - destruct (max_or_zero_spec
                  (map (fun entry : Z * ScenarioB => b_score entry.2)
                     (map_to_list (scenario_b results)))) as [Hin Hall].
      split; [intros y Hy; by apply Hall, b_scores_elem|].
      apply b_scores_elem.
      destruct (map _ (map_to_list (scenario_b results))) eqn:Hl; [|done].
      apply map_eq_nil, map_to_list_empty_iff in Hl. done. }
  clearbody best_b.
  destruct (max_or_zero_spec all_a) as [Hin Hall].
  destruct (Qltb best_b (max_or_zero all_a)) eqn:Hlt.
  - apply Qltb_lt in Hlt. split; [|split; [|split]].
    + destruct all_a as [|x xs]; [|left; by apply Ha].
      right. split; [done|]. split; [intros y Hy%Ha; by apply elem_of_nil in Hy|].
      rewrite Hin in Hlt.
      destruct (decide (scenario_b results = ∅)) as [He|Hne].
      * rewrite Hbin in Hlt. by apply Qlt_irrefl in Hlt.
      * by exists best_b.
    + intros y Hy. by apply Hall, Ha.
    + intros y Hy. eapply Qle_lt_trans; [by apply Hb|done].
    + intros He. destruct (decide (scenario_b results = ∅)); [|done].
      by rewrite Hbin in Hlt.
  - apply Qltb_ge in Hlt. split; [done|]. split; [|split; [done|done]].
    intros y Hy. eapply Qle_trans; [by apply Hall, Ha|done].
Qed.

(** ** Runs of the further properties *)

(** The tables of network A give its graph. *)
Example build_graph_tables_a :
  build_graph Tables.links_a Tables.entities_a Tables.locations_a = graph_a.
Proof. vm_compute. reflexivity. Qed.

(** X8 on network A: among the contacts 1 and 6 of node 5, node 6 is
    returned, after the excluded node 1. *)
Lemma _find_fearless_leader_first_witness :
  exists dt bt before after,
    leader_thresholds net_a = Returns (dt, bt)
    /\ [1; 6] = before ++ 6 :: after.
Proof.
  destruct (_find_fearless_leader_first net_a cfg_a [1; 6] [2; 3; 4; 1] 6)
    as (dt & bt & before & after & Hth & Hpool & _); [vm_compute; reflexivity|].
  exists dt, bt, before, after. split; [exact Hth|exact Hpool].
Defined.

(** X12 on network A: the configuration of employee 1. *)
Lemma detect_scenario_a_chain_witness :
  exists result,
    detect_scenario_a net_a cfg_a 1 = Returns result
    /\ (length result <= 3)%nat
    /\ Forall (fun c => a_boris c ∈ get_neighbors net_a 1
                        /\ a_fearless_leader c ∈ get_neighbors net_a (a_boris c))
         result.
Proof.
  assert (exists result, detect_scenario_a net_a cfg_a 1 = Returns result)
    as [result Hres] by (eexists; vm_compute; reflexivity).
  exists result. split; [exact Hres|].
  destruct (detect_scenario_a_chain net_a cfg_a 1 result Hres) as (Hlen & _ & Hall).
  split; [exact Hlen|]. apply Forall_forall. intros c Hc.
  destruct (Hall c Hc) as (_ & _ & _ & Hb & _ & _ & _ & _ & Hl & _).
  split; [exact Hb|exact Hl].
Defined.

(** X13 on network B with node 8 in a large city. *)
Lemma detect_scenario_b_tree_witness :
  exists r,
    detect_scenario_b id net_b_city cfg_b 1 = Returns (Some r)
    /\ (0 < b_score r)%Q /\ (b_score r <= 119)%Q.
Proof.
  exists (configuration_b net_b_city cfg_b 1 [2; 3; 4] 5 6 7 8).
  split; [apply detect_scenario_b_net_b_city|].
  destruct (detect_scenario_b_tree id net_b_city cfg_b 1
              (configuration_b net_b_city cfg_b 1 [2; 3; 4] 5 6 7 8))
    as (_ & h1 & h2 & h3 & _ & _ & _ & _ & _ & _ & _ & _ & _ & _ & Hpos & Hle).
  - intros l x Hx. exact Hx.
  - apply detect_scenario_b_net_b_city.
  - split; [exact Hpos|exact Hle].
Defined.

(** X14 on network A with only its links loaded: employee 1 is a
    candidate without a name. *)
Lemma detect_all_patterns_unnamed_witness :
  detect_all_patterns id Tables.net_a_links cfg_a = Raises KeyError.
Proof.
  apply (detect_all_patterns_unnamed id Tables.net_a_links cfg_a Tables.unnamed_candidate).
  - vm_compute. discriminate.
  - vm_compute. apply list_elem_of_here.
  - vm_compute. reflexivity.
Defined.

(** X15 on network B: node 8 is a common contact of the middlemen 5, 6
    and 7. *)
Lemma _find_common_middleman_correct_witness :
  8 ∈ _find_common_middleman id net_b [5; 6; 7]
  /\ NoDup (_find_common_middleman id net_b [5; 6; 7]).
Proof.
  destruct (_find_common_middleman_correct id net_b [5; 6; 7])
    as (_ & Helem & Hnd & _); [intros l; reflexivity|].
  split; [|exact Hnd]. apply Helem. split; [discriminate|].
  apply Forall_forall, (bool_decide_unpack _). vm_compute. exact I.
Defined.

(** X17 on network B: node 8 is a common contact of nodes 5 and 6. *)
Lemma get_common_neighbors_correct_witness :
  8 ∈ get_common_neighbors id net_b 5 6.
Proof.
  destruct (get_common_neighbors_correct id net_b 5 6) as (Helem & _);
    [intros l; reflexivity|].
  apply Helem. split; apply (bool_decide_unpack _); vm_compute; exact I.
Defined.

(** X19 on network A: with [top_n = -2] the helper drops the two lowest
    of the six betweenness entries. *)
Lemma get_top_nodes_by_metric_slice_witness :
  len (get_top_nodes_by_metric net_a "betweenness_centrality" (-2)) = 4.
Proof.
  destruct (get_top_nodes_by_metric_slice net_a "betweenness_centrality" (-2)
              betweenness_a) as (_ & Hlen & _); [reflexivity|].
  exact Hlen.
Defined.


(** X26 on the tables of network A. *)
Lemma built_graph_roles_distinct_witness :
  exists c,
    detect_scenario_a
      (built_analyzer Tables.links_a Tables.entities_a Tables.locations_a (metrics net_a))
      cfg_a 1 = Returns [c]
    /\ NoDup (roles_a c).
Proof.
  eexists. split; [vm_compute; reflexivity|].
  eapply (built_graph_roles_distinct id Tables.links_a Tables.entities_a
            Tables.locations_a (metrics net_a) cfg_a 1).
  - apply (bool_decide_unpack _). vm_compute. exact I.
  - vm_compute. reflexivity.
  - apply list_elem_of_here.
Defined.
